(** * SkypyDB: the schema-managed table store ([skypydb/db/database.py])

    A shallow embedding of the [Database] class, of the operations of
    [Client] ([skypydb/api/client.py]) that call it, and of the parts of
    its environment the class relies on:

    - the Python values that travel through it (rows, filters, configs) and
      the builtins [str], [repr], [int], [float], [bool] applied to them;
    - [json.dumps] / [json.loads] on the documents [save_table_config]
      writes, [uuid.uuid4] and [datetime.isoformat];
    - the relational engine behind [sqlite3]: tables of text cells, the
      statements the class issues, their failures, and commits.

    Modelling conventions.  Python strings are sequences of code points
    below 256 (Rocq's [string]).  Integers are unbounded and converted
    to and from text without the interpreter's optional digit limit.
    Floats are binary64 values ([spec_float]).  Random bytes and the clock
    are inputs of the operations that draw them.

    The engine reads the names of tables and columns out of the text of
    the statements.  The model has what the engine does with a name that
    holds a closing bracket, with a bare name that is a reserved word or
    starts with a digit, with a table name that starts with [sqlite_], and
    with a new table or column whose name is taken already in another case
    of letters.  It does not have the engine's number of a row, read under
    the names [rowid], [oid] and [_rowid_], nor its disregard for the case
    of letters where a name is used and not made, nor names with other
    characters.  The statements about tables, columns and filters are
    therefore about plain names ([Sql.plain]): a lower-case letter or an
    underscore, followed by lower-case letters, digits and underscores,
    other than [rowid], [oid], [_rowid_] and the names that start with
    [sqlite_]; those on making a table are about databases whose tables
    and columns have such names ([plain_store]), as a new database has and
    the class keeps when it is given plain names. *)

From stdpp Require Import gmap strings list fin_maps.
From Stdlib Require Import ZArith Ascii SpecFloat DecimalString.

Local Open Scope string_scope.
Local Open Scope Z_scope.
Local Open Scope list_scope.

(* ===================================================================== *)
(** * Part I: definitions                                                 *)
(* ===================================================================== *)

(** ** Characters and text *)

Module Text.

Definition code (c : ascii) : Z := Z.of_N (N_of_ascii c).

Definition chr (z : Z) : ascii := ascii_of_N (Z.to_N z).

Definition explode (s : string) : list ascii := String.list_ascii_of_string s.

Definition implode (cs : list ascii) : string := String.string_of_list_ascii cs.

Definition in_range (lo hi : Z) (c : ascii) : bool :=
  (lo <=? code c) && (code c <=? hi).

Definition is_digit (c : ascii) : bool := in_range 48 57 c.

Definition digit_val (c : ascii) : option Z :=
  if is_digit c then Some (code c - 48) else None.

(** The characters [int()] and [float()] skip around a literal. *)
Definition is_space (c : ascii) : bool :=
  in_range 9 13 c || (code c =? 32) || (code c =? 133) || (code c =? 160).

(** [str.isprintable] on one code point below 256. *)
Definition is_printable (c : ascii) : bool :=
  in_range 32 126 c || (in_range 161 255 c && negb (code c =? 173)).

(** [str.lower] on one code point below 256. *)
Definition lower_char (c : ascii) : ascii :=
  if in_range 65 90 c || in_range 192 214 c || in_range 216 222 c
  then chr (code c + 32) else c.

Definition lower (s : string) : string :=
  implode (map lower_char (explode s)).

Fixpoint lstrip (cs : list ascii) : list ascii :=
  match cs with
  | c :: cs' => if is_space c then lstrip cs' else cs
  | [] => []
  end.

Definition strip (cs : list ascii) : list ascii :=
  rev (lstrip (rev (lstrip cs))).

Definition hex_digit (z : Z) : ascii :=
  if z <? 10 then chr (48 + z) else chr (87 + z).

(** [n] lowercase hexadecimal digits of [z], most significant first. *)
Fixpoint hex (n : nat) (z : Z) : list ascii :=
  match n with
  | O => []
  | S n' => hex n' (z / 16) ++ [hex_digit (z mod 16)]
  end.

Definition hex_val (c : ascii) : option Z :=
  if is_digit c then Some (code c - 48)
  else if in_range 97 102 c then Some (code c - 87)
  else if in_range 65 70 c then Some (code c - 55)
  else None.

(** Decimal rendering of an integer, as [str] gives it. *)
Definition of_Z (z : Z) : string := NilZero.string_of_int (Z.to_int z).

(** Value of a sequence of decimal digits. *)
Definition digits_value (ds : list Z) : Z :=
  fold_left (fun acc d => 10 * acc + d) ds 0.

(** The longest prefix of the form digit (["_"] digit)*, as digit values,
    and what follows it. *)
Fixpoint digitpart (cs : list ascii) : list Z * list ascii :=
  match cs with
  | [] => ([], [])
  | c :: cs' =>
    match digit_val c with
    | None => ([], cs)
    | Some d =>
      match cs' with
      | u :: rest =>
        if (code u =? 95) && match rest with c2 :: _ => is_digit c2 | [] => false end
        then let '(ds, r) := digitpart rest in (d :: ds, r)
        else let '(ds, r) := digitpart cs' in (d :: ds, r)
      | [] => ([d], [])
      end
    end
  end.

Definition repeat0 (n : Z) : string :=
  implode (repeat "0"%char (Z.to_nat n)).

End Text.

(** ** Binary64 numbers and their text forms *)

Module Float.

Definition prec : Z := 53.
Definition emax : Z := 1024.

(** The binary64 number nearest to [(-1)^neg * m * 10^e] (ties to even);
    an infinity beyond the range. *)
Definition of_decimal (neg : bool) (m e : Z) : spec_float :=
  match m with
  | Z0 => S754_zero neg
  | Zneg _ => S754_nan
  | Zpos _ =>
    if 0 <=? e
    then binary_normalize prec emax (cond_Zopp neg (m * 10 ^ e)) 0 neg
    else let '(q, e', l) := SFdiv_core_binary prec emax m 0 (10 ^ (- e)) 0 in
         binary_round_aux prec emax neg q e' l
  end.

(** [float(z)] for an integer: [None] stands for [OverflowError]. *)
Definition of_Z (z : Z) : option spec_float :=
  match binary_normalize prec emax z 0 false with
  | S754_infinity _ => None
  | f => Some f
  end.

Variant trunc_result := Trunc (z : Z) | TruncInf | TruncNan.

(** [int(f)] for a float: truncation toward zero. *)
Definition to_Z (f : spec_float) : trunc_result :=
  match f with
  | S754_zero _ => Trunc 0
  | S754_infinity _ => TruncInf
  | S754_nan => TruncNan
  | S754_finite s m e =>
    Trunc (cond_Zopp s (if 0 <=? e then Z.shiftl (Zpos m) e
                        else Z.shiftr (Zpos m) (- e)))
  end.

Definition is_zero (f : spec_float) : bool :=
  match f with S754_zero _ => true | _ => false end.

Definition same (f g : spec_float) : bool :=
  match f, g with
  | S754_finite s m e, S754_finite s' m' e' =>
    Bool.eqb s s' && (Zpos m =? Zpos m') && (e =? e')
  | _, _ => false
  end.

(** *** Parsing: [float(s)] *)

Definition after_sign (cs : list ascii) : bool * list ascii :=
  match cs with
  | c :: cs' =>
    if Text.code c =? 45 then (true, cs')
    else if Text.code c =? 43 then (false, cs')
    else (false, cs)
  | [] => (false, [])
  end.

(** The exponent part: [e], an optional sign, a digit part; nothing after. *)
Definition exponent (cs : list ascii) : option Z :=
  match cs with
  | [] => Some 0
  | c :: cs' =>
    if (Text.code c =? 101) || (Text.code c =? 69) then
      let '(neg, cs'') := after_sign cs' in
      match Text.digitpart cs'' with
      | (d :: ds, []) => Some (cond_Zopp neg (Text.digits_value (d :: ds)))
      | _ => None
      end
    else None
  end.

Definition of_string (s : string) : option spec_float :=
  let '(neg, body) := after_sign (Text.strip (Text.explode s)) in
  let word := Text.lower (Text.implode body) in
  if String.eqb word "inf" || String.eqb word "infinity"
  then Some (S754_infinity neg)
  else if String.eqb word "nan" then Some S754_nan
  else
    let '(ip, r1) := Text.digitpart body in
    let '(fp, r2) :=
      match r1 with
      | c :: r1' => if Text.code c =? 46 then Text.digitpart r1' else ([], r1)
      | [] => ([], [])
      end in
    match ip, fp with
    | [], [] => None
    | _, _ =>
      match exponent r2 with
      | Some x =>
        Some (of_decimal neg (Text.digits_value (ip ++ fp)%list)
                (x - Z.of_nat (length fp)))
      | None => None
      end
    end.

(** *** Printing: [repr(f)], the shortest text that reads back as [f] *)

(** The decimal exponent [k] with [10^(k-1) <= p/q < 10^k]. *)
Fixpoint scale_up (fuel : nat) (p q j : Z) : Z :=
  match fuel with
  | O => j
  | S fuel' => if q <=? p * 10 ^ j then j else scale_up fuel' p q (j + 1)
  end.

Definition decimal_exponent (p q : Z) : Z :=
  if q <=? p then Z.of_nat (String.length (Text.of_Z (p / q)))
  else 1 - scale_up 400 p q 1.

(** The [n]-digit decimal that reads back as the positive float [m * 2^e],
    when there is one: its digits as an integer and its decimal point. *)
Definition candidate (m : positive) (e : Z) (p q k : Z) (n : Z)
  : option (Z * Z) :=
  let num := if k <=? n then p * 10 ^ (n - k) else p in
  let den := if k <=? n then q else q * 10 ^ (k - n) in
  let lo := num / den in
  let r := num mod den in
  let back c := same (of_decimal false c (k - n)) (S754_finite false m e) in
  let pick c := Some (c, k + Z.of_nat (String.length (Text.of_Z c)) - n) in
  if r =? 0 then pick lo
  else
    match back lo, back (lo + 1) with
    | true, true =>
      match Z.compare (2 * r) den with
      | Lt => pick lo
      | Gt => pick (lo + 1)
      | Eq => if Z.even lo then pick lo else pick (lo + 1)
      end
    | true, false => pick lo
    | false, true => pick (lo + 1)
    | false, false => None
    end.

Fixpoint shortest (fuel : nat) (m : positive) (e : Z) (p q k : Z) (n : Z)
  : Z * Z :=
  match fuel with
  | O => (0, 0)
  | S fuel' =>
    match candidate m e p q k n with
    | Some r => r
    | None => shortest fuel' m e p q k (n + 1)
    end
  end.

Fixpoint strip_zeros (fuel : nat) (c : Z) : Z :=
  match fuel with
  | O => c
  | S fuel' => if (c mod 10 =? 0) && negb (c =? 0)
               then strip_zeros fuel' (c / 10) else c
  end.

(** The layout of [repr]: digits [ds] with the decimal point after the
    first [decpt] of them. *)
Definition layout (ds : string) (decpt : Z) : string :=
  let nd := Z.of_nat (String.length ds) in
  if (decpt <=? -4) || (16 <? decpt) then
    let x := decpt - 1 in
    let xs := Text.of_Z (Z.abs x) in
    String.substring 0 1 ds
    +:+ (if 1 <? nd then "." +:+ String.substring 1 (String.length ds - 1) ds
         else "")
    +:+ "e" +:+ (if x <? 0 then "-" else "+")
    +:+ (if Z.abs x <? 10 then "0" else "") +:+ xs
  else if decpt <=? 0 then
    "0." +:+ Text.repeat0 (- decpt) +:+ ds
  else if nd <=? decpt then
    ds +:+ Text.repeat0 (decpt - nd) +:+ ".0"
  else
    String.substring 0 (Z.to_nat decpt) ds +:+ "."
    +:+ String.substring (Z.to_nat decpt) (String.length ds - Z.to_nat decpt) ds.

Definition repr (f : spec_float) : string :=
  match f with
  | S754_zero s => if s then "-0.0" else "0.0"
  | S754_infinity s => if s then "-inf" else "inf"
  | S754_nan => "nan"
  | S754_finite s m e =>
    let p := if 0 <=? e then Zpos m * 2 ^ e else Zpos m in
    let q := if 0 <=? e then 1 else 2 ^ (- e) in
    let k := decimal_exponent p q in
    let '(c, decpt) := shortest 17 m e p q k 1 in
    (if s then "-" else "") +:+ layout (Text.of_Z (strip_zeros 20 c)) decpt
  end.

End Float.

(** ** Python values *)

(** The classes [_normalize_config] recognises. *)
Variant pytype := TyStr | TyInt | TyFloat | TyBool.

#[warnings="-register-all"]
Inductive pyval :=
| VNone
| VBool (b : bool)
| VInt (z : Z)
| VFloat (f : spec_float)
| VStr (s : string)
| VList (l : list pyval)
| VType (t : pytype).

(** A dictionary keeps its entries in insertion order; its keys are
    distinct ([dict_wf]). *)
Definition dict (V : Type) : Type := list (string * V).

Definition dict_wf {V} (d : dict V) : Prop := NoDup (map fst d).

Definition pydict : Type := dict pyval.

Fixpoint dict_get {V} (k : string) (d : dict V) : option V :=
  match d with
  | [] => None
  | (k', v) :: d' => if String.eqb k k' then Some v else dict_get k d'
  end.

Definition dict_mem {V} (k : string) (d : dict V) : bool :=
  match dict_get k d with Some _ => true | None => false end.

(** [d[k] = v]: an existing key keeps its place. *)
Fixpoint dict_set {V} (k : string) (v : V) (d : dict V) : dict V :=
  match d with
  | [] => [(k, v)]
  | (k', v') :: d' =>
    if String.eqb k k' then (k, v) :: d' else (k', v') :: dict_set k v d'
  end.

Definition dict_keys {V} (d : dict V) : list string := map fst d.

(** *** [repr] and [str] *)

Definition type_name (t : pytype) : string :=
  match t with
  | TyStr => "str" | TyInt => "int" | TyFloat => "float" | TyBool => "bool"
  end.

Definition has_char (z : Z) (s : string) : bool :=
  existsb (fun c => Text.code c =? z) (Text.explode s).

Definition repr_char (quote : Z) (c : ascii) : list ascii :=
  let z := Text.code c in
  if (z =? quote) || (z =? 92) then ["\"%char; c]
  else if z =? 9 then ["\"%char; "t"%char]
  else if z =? 10 then ["\"%char; "n"%char]
  else if z =? 13 then ["\"%char; "r"%char]
  else if Text.is_printable c then [c]
  else "\"%char :: "x"%char :: Text.hex 2 z.

(** [repr] of a string: single quotes unless the text has a single quote
    and no double quote. *)
Definition repr_str (s : string) : string :=
  let quote := if has_char 39 s && negb (has_char 34 s) then 34 else 39 in
  let q := String (Text.chr quote) EmptyString in
  q +:+ Text.implode (concat (map (repr_char quote) (Text.explode s))) +:+ q.

Fixpoint py_repr (v : pyval) : string :=
  match v with
  | VNone => "None"
  | VBool b => if b then "True" else "False"
  | VInt z => Text.of_Z z
  | VFloat f => Float.repr f
  | VStr s => repr_str s
  | VList l => "[" +:+ String.concat ", " (map py_repr l) +:+ "]"
  | VType t => "<class '" +:+ type_name t +:+ "'>"
  end.

Definition py_str (v : pyval) : string :=
  match v with
  | VStr s => s
  | _ => py_repr v
  end.

(** *** [int], [float], [bool] *)

Variant conv (A : Type) :=
| Conv (a : A)
| ConvValueError
| ConvTypeError
| ConvOverflowError.
Arguments Conv {A} a.
Arguments ConvValueError {A}.
Arguments ConvTypeError {A}.
Arguments ConvOverflowError {A}.

Definition int_of_string (s : string) : option Z :=
  let '(neg, body) := Float.after_sign (Text.strip (Text.explode s)) in
  match Text.digitpart body with
  | (d :: ds, []) => Some (cond_Zopp neg (Text.digits_value (d :: ds)))
  | _ => None
  end.

Definition py_int (v : pyval) : conv Z :=
  match v with
  | VBool b => Conv (if b then 1 else 0)
  | VInt z => Conv z
  | VFloat f =>
    match Float.to_Z f with
    | Float.Trunc z => Conv z
    | Float.TruncInf => ConvOverflowError
    | Float.TruncNan => ConvValueError
    end
  | VStr s =>
    match int_of_string s with Some z => Conv z | None => ConvValueError end
  | VNone | VList _ | VType _ => ConvTypeError
  end.

Definition py_float (v : pyval) : conv spec_float :=
  match v with
  | VBool b => Conv (Float.of_decimal false (if b then 1 else 0) 0)
  | VInt z =>
    match Float.of_Z z with Some f => Conv f | None => ConvOverflowError end
  | VFloat f => Conv f
  | VStr s =>
    match Float.of_string s with Some f => Conv f | None => ConvValueError end
  | VNone | VList _ | VType _ => ConvTypeError
  end.

(** Truth value. *)
Definition py_bool (v : pyval) : bool :=
  match v with
  | VNone => false
  | VBool b => b
  | VInt z => negb (z =? 0)
  | VFloat f => negb (Float.is_zero f)
  | VStr s => negb (String.eqb s "")
  | VList l => match l with [] => false | _ => true end
  | VType _ => true
  end.

(** ** [json.dumps] and [json.loads] on mappings from text to text *)

Module Json.

Definition escape_char (c : ascii) : list ascii :=
  let z := Text.code c in
  if (z =? 34) || (z =? 92) then ["\"%char; c]
  else if z =? 10 then ["\"%char; "n"%char]
  else if z =? 13 then ["\"%char; "r"%char]
  else if z =? 9 then ["\"%char; "t"%char]
  else if z =? 8 then ["\"%char; "b"%char]
  else if z =? 12 then ["\"%char; "f"%char]
  else if Text.in_range 32 126 c then [c]
  else "\"%char :: "u"%char :: Text.hex 4 z.

Definition quoted (s : string) : list ascii :=
  Text.chr 34 :: concat (map escape_char (Text.explode s)) ++ [Text.chr 34].

Definition member (kv : string * string) : list ascii :=
  quoted kv.1 ++ Text.explode ": " ++ quoted kv.2.

Fixpoint members (d : dict string) : list ascii :=
  match d with
  | [] => []
  | [kv] => member kv
  | kv :: d' => member kv ++ Text.explode ", " ++ members d'
  end.

Definition dumps (d : dict string) : string :=
  Text.implode ("{"%char :: members d ++ ["}"%char]).

Definition is_ws (c : ascii) : bool :=
  let z := Text.code c in (z =? 32) || (z =? 9) || (z =? 10) || (z =? 13).

Fixpoint skip_ws (cs : list ascii) : list ascii :=
  match cs with
  | c :: cs' => if is_ws c then skip_ws cs' else cs
  | [] => []
  end.

Definition unescape (c : ascii) : option ascii :=
  let z := Text.code c in
  if (z =? 34) || (z =? 92) || (z =? 47) then Some c
  else if z =? 110 then Some (Text.chr 10)
  else if z =? 114 then Some (Text.chr 13)
  else if z =? 116 then Some (Text.chr 9)
  else if z =? 98 then Some (Text.chr 8)
  else if z =? 102 then Some (Text.chr 12)
  else None.

Definition hex4 (a b c d : ascii) : option Z :=
  match Text.hex_val a, Text.hex_val b, Text.hex_val c, Text.hex_val d with
  | Some x, Some y, Some z, Some w => Some (((x * 16 + y) * 16 + z) * 16 + w)
  | _, _, _, _ => None
  end.

(** The text of a string literal whose opening quote has been read, and
    what follows its closing quote.  Escapes of code points from 256 on
    have no counterpart in the model's strings and are refused. *)
Fixpoint string_body (cs : list ascii) : option (list ascii * list ascii) :=
  match cs with
  | [] => None
  | c :: cs' =>
    if Text.code c =? 34 then Some ([], cs')
    else if Text.code c =? 92 then
      match cs' with
      | e :: cs'' =>
        if Text.code e =? 117 then
          match cs'' with
          | h1 :: h2 :: h3 :: h4 :: cs3 =>
            match hex4 h1 h2 h3 h4 with
            | Some z =>
              if z <? 256 then
                match string_body cs3 with
                | Some (s, r) => Some (Text.chr z :: s, r)
                | None => None
                end
              else None
            | None => None
            end
          | _ => None
          end
        else
          match unescape e with
          | Some c' =>
            match string_body cs'' with
            | Some (s, r) => Some (c' :: s, r)
            | None => None
            end
          | None => None
          end
      | [] => None
      end
    else if Text.code c <? 32 then None
    else
      match string_body cs' with
      | Some (s, r) => Some (c :: s, r)
      | None => None
      end
  end.

Definition literal (cs : list ascii) : option (string * list ascii) :=
  match cs with
  | c :: cs' =>
    if Text.code c =? 34 then
      match string_body cs' with
      | Some (s, r) => Some (Text.implode s, r)
      | None => None
      end
    else None
  | [] => None
  end.

(** The members of an object from its first key on; a repeated key keeps
    its place and takes the later value, as [dict] does. *)
Fixpoint pairs (fuel : nat) (cs : list ascii) (acc : dict string)
  : option (dict string) :=
  match fuel with
  | O => None
  | S fuel' =>
    match literal (skip_ws cs) with
    | Some (k, r1) =>
      match skip_ws r1 with
      | c1 :: r2 =>
        if Text.code c1 =? 58 then
          match literal (skip_ws r2) with
          | Some (v, r3) =>
            let acc' := dict_set k v acc in
            match skip_ws r3 with
            | c2 :: r4 =>
              if Text.code c2 =? 44 then pairs fuel' r4 acc'
              else if Text.code c2 =? 125 then
                match skip_ws r4 with [] => Some acc' | _ => None end
              else None
            | [] => None
            end
          | None => None
          end
        else None
      | [] => None
      end
    | None => None
    end
  end.

(** [json.loads] on the documents [dumps] writes: an object whose values
    are strings.  [None] covers malformed text and every other document. *)
Definition loads (s : string) : option (dict string) :=
  match skip_ws (Text.explode s) with
  | c :: r =>
    if Text.code c =? 123 then
      match skip_ws r with
      | c' :: r' =>
        if Text.code c' =? 125
        then match skip_ws r' with [] => Some [] | _ => None end
        else pairs (length r) r []
      | [] => None
      end
    else None
  | [] => None
  end.

End Json.

(** ** [uuid.uuid4] and [datetime.isoformat] *)

(** The integer of a version-4 UUID made from 16 random bytes [rnd]. *)
Definition uuid4_int (rnd : Z) : Z :=
  let i0 := rnd mod 2 ^ 128 in
  let i1 := Z.land i0 (Z.lnot (Z.shiftl 49152 48)) in
  let i2 := Z.lor i1 (Z.shiftl 32768 48) in
  let i3 := Z.land i2 (Z.lnot (Z.shiftl 61440 64)) in
  Z.lor i3 (Z.shiftl 4 76).

(** [str(uuid)]: 32 hexadecimal digits in groups of 8-4-4-4-12. *)
Definition uuid_str (i : Z) : string :=
  let h := Text.hex 32 i in
  Text.implode
    (take 8 h ++ "-"%char :: take 4 (drop 8 h) ++ "-"%char ::
     take 4 (drop 12 h) ++ "-"%char :: take 4 (drop 16 h) ++ "-"%char ::
     drop 20 h).

Definition uuid4 (rnd : Z) : string := uuid_str (uuid4_int rnd).

Record datetime := DateTime {
  year : Z; month : Z; day : Z;
  hour : Z; minute : Z; second : Z; microsecond : Z }.

(** [z] in decimal, padded with zeros to [n] digits. *)
Definition pad (n : nat) (z : Z) : string :=
  let s := Text.of_Z z in
  Text.implode (repeat "0"%char (n - String.length s)) +:+ s.

Definition isoformat (d : datetime) : string :=
  pad 4 (year d) +:+ "-" +:+ pad 2 (month d) +:+ "-" +:+ pad 2 (day d)
  +:+ "T" +:+ pad 2 (hour d) +:+ ":" +:+ pad 2 (minute d)
  +:+ ":" +:+ pad 2 (second d)
  +:+ (if microsecond d =? 0 then "" else "." +:+ pad 6 (microsecond d)).

(** ** The relational engine *)

Module Sql.

(** A row holds the text of its non-NULL cells. *)
Abbreviation row := (gmap string string).

Record coldef := ColDef { cname : string; cpk : bool; cnotnull : bool }.

Record table := Table { defs : list coldef; rows : list row }.

Abbreviation store := (gmap string table).

Definition columns (t : table) : list string := map cname (defs t).

Variant error :=
| NoSuchTable (t : string)
| TableExists (t : string)
| DuplicateColumn (c : string)
| NoSuchColumn (c : string)
| NoColumnNamed (t c : string)
| SyntaxError
| ReservedName (t : string)
| BindingCount
| UniqueFailed (t c : string)
| NotNullFailed (t c : string).

Variant outcome (A : Type) := Done (a : A) | Fail (e : error).
Arguments Done {A} a.
Arguments Fail {A} e.

(** One conjunct of a WHERE clause, with [?] for each parameter. *)
Variant cond :=
| EqP (c : string)            (* [c] = ? *)
| InP (c : string) (n : nat)  (* [c] IN (?, ..., ?) *)
| AnyP (cs : list string).    (* ([c1] = ? OR ... OR [cn] = ?) *)

Variant where_clause :=
| NoWhere
| WhereTrue                   (* WHERE 1=1 *)
| WhereAll (cs : list cond).  (* WHERE c1 AND ... AND cn *)

Variant stmt :=
| SelectMaster
  (* SELECT name FROM sqlite_master WHERE type='table' AND name=? *)
| CreateTable (if_not_exists : bool) (t : string) (ds : list coldef)
| DropTable (t : string)
| TableInfo (t : string)
| AddColumn (t c : string)
| Insert (or_replace : bool) (t : string) (cs : list string)
  (* INSERT [OR REPLACE] INTO [t] (c1, ..., cn) VALUES (?, ..., ?) *)
| Select (what : option string) (t : string) (w : where_clause)
| Delete (t : string) (w : where_clause).

(** What a cursor holds after a statement. *)
Record cursor := Cursor {
  fetched : list (dict (option string));
  rowcount : Z }.

Definition mem (c : string) (cs : list string) : bool :=
  existsb (String.eqb c) cs.

(** *** Names

    The class writes the names of tables and columns into the text of its
    statements: between brackets, except in the column list of INSERT,
    where they stand bare.  A bracketed name ends at the first closing
    bracket: a name that holds one leaves text behind it that the engine
    cannot read.  Bare, the engine refuses its reserved words and what
    starts like a number.  It keeps the names that start with [sqlite_] for
    its own tables, and it takes two names that differ in the case of
    their letters only for the same name. *)

(** The words the engine (SQLite 3.35 and later) does not accept as a bare
    name. *)
Definition reserved_words : list string :=
  ["add"; "all"; "alter"; "and"; "as"; "autoincrement"; "between"; "case";
   "check"; "collate"; "commit"; "constraint"; "create"; "default";
   "deferrable"; "delete"; "distinct"; "drop"; "else"; "escape"; "except";
   "exists"; "foreign"; "from"; "group"; "having"; "in"; "index"; "insert";
   "intersect"; "into"; "is"; "isnull"; "join"; "limit"; "not"; "nothing";
   "notnull"; "null"; "on"; "or"; "order"; "primary"; "references";
   "returning"; "select"; "set"; "table"; "then"; "to"; "transaction";
   "union"; "unique"; "update"; "using"; "values"; "when"; "where"].

Definition reserved_word (c : string) : bool := mem c reserved_words.

Definition word_start (c : ascii) : bool :=
  Text.in_range 97 122 c || (Text.code c =? 95).

Definition word_char (c : ascii) : bool := word_start c || Text.is_digit c.

(** Lower-case letters, digits and underscores, not starting with a digit. *)
Definition word (s : string) : bool :=
  match Text.explode s with
  | c :: cs => word_start c && forallb word_char cs
  | [] => false
  end.

(** [[s]] is more than one name: [s] holds a closing bracket. *)
Definition closes_early (s : string) : bool :=
  existsb (Ascii.eqb "]"%char) (Text.explode s).

Definition starts_with_digit (s : string) : bool :=
  match Text.explode s with
  | c :: _ => Text.is_digit c
  | [] => false
  end.

(** What the engine does not read as a name when it stands bare. *)
Definition refused_bare (s : string) : bool :=
  reserved_word s || starts_with_digit s || closes_early s.

(** Letters A to Z in lower case. *)
Definition fold_char (c : ascii) : ascii :=
  if Text.in_range 65 90 c then Text.chr (Text.code c + 32) else c.

Fixpoint folded (s : string) : string :=
  match s with
  | EmptyString => EmptyString
  | String c s' => String (fold_char c) (folded s')
  end.

Definition same_name (a b : string) : bool := String.eqb (folded a) (folded b).

(** [c] is among [cs], in whatever case of letters. *)
Definition taken (c : string) (cs : list string) : bool :=
  existsb (same_name c) cs.

(** The prefix of the engine's own tables. *)
Definition kept_for_engine (s : string) : bool :=
  String.prefix "sqlite_" (folded s).

(** The names the engine has for the number of a row. *)
Definition row_number_names : list string := ["rowid"; "oid"; "_rowid_"].

(** The names on which the engine does what the class means: a lower-case
    letter or an underscore, then lower-case letters, digits and
    underscores; not one of the names of a row's number; not a name kept
    for the engine.  The model has the engine's regard for the case of
    letters where a name is made (CREATE TABLE, ADD COLUMN), which is where
    the class, after a test of its own on the spelling, can meet it.  Where
    a name is used the model compares it as it is spelled, and it has no
    number of a row to read under the names above. *)
Definition plain (s : string) : bool :=
  word s && negb (mem s row_number_names) && negb (String.prefix "sqlite_" s).

(** *** Conditions: three-valued logic, parameters bound in order *)

Definition and3 (a b : option bool) : option bool :=
  match a, b with
  | Some false, _ | _, Some false => Some false
  | Some true, Some true => Some true
  | _, _ => None
  end.

Definition or3 (a b : option bool) : option bool :=
  match a, b with
  | Some true, _ | _, Some true => Some true
  | Some false, Some false => Some false
  | _, _ => None
  end.

Definition eq3 (cell : option string) (p : string) : option bool :=
  match cell with
  | Some x => Some (String.eqb x p)
  | None => None
  end.

Definition arity (c : cond) : nat :=
  match c with
  | EqP _ => 1
  | InP _ n => n
  | AnyP cs => length cs
  end.

Definition cond_columns (c : cond) : list string :=
  match c with
  | EqP c | InP c _ => [c]
  | AnyP cs => cs
  end.

(** The value of a conjunct on a row, given its own parameters. *)
Definition eval_cond (r : row) (c : cond) (ps : list string) : option bool :=
  match c with
  | EqP c => match ps with p :: _ => eq3 (r !! c) p | [] => None end
  | InP c _ => fold_right (fun p acc => or3 (eq3 (r !! c) p) acc) (Some false) ps
  | AnyP cs =>
    fold_right (fun cp acc => or3 (eq3 (r !! cp.1) cp.2) acc) (Some false)
      (zip cs ps)
  end.

(** Each conjunct with the parameters that fall to it; [None] when the
    parameters supplied are too few or too many. *)
Fixpoint bind (cs : list cond) (ps : list string)
  : option (list (cond * list string)) :=
  match cs with
  | [] => match ps with [] => Some [] | _ :: _ => None end
  | c :: cs' =>
    if (arity c <=? length ps)%nat
    then match bind cs' (drop (arity c) ps) with
         | Some l => Some ((c, take (arity c) ps) :: l)
         | None => None
         end
    else None
  end.

Definition eval_all (r : row) (l : list (cond * list string)) : option bool :=
  fold_right (fun cp acc => and3 (eval_cond r cp.1 cp.2) acc) (Some true) l.

(** A WHERE clause keeps the rows on which it is true. *)
Definition keeps (l : list (cond * list string)) (r : row) : bool :=
  match eval_all r l with Some true => true | _ => false end.

Fixpoint first_missing (cols cs : list string) : option string :=
  match cs with
  | [] => None
  | c :: cs' => if mem c cols then first_missing cols cs' else Some c
  end.

(** The row test of a WHERE clause on a table with columns [cols]. *)
Definition compile (cols : list string) (w : where_clause) (ps : list string)
  : outcome (row → bool) :=
  match w with
  | NoWhere | WhereTrue =>
    match ps with [] => Done (fun _ => true) | _ :: _ => Fail BindingCount end
  | WhereAll [] => Fail SyntaxError
  | WhereAll cs =>
    match first_missing cols (concat (map cond_columns cs)) with
    | Some c => Fail (NoSuchColumn c)
    | None =>
      match bind cs ps with
      | Some l => Done (keeps l)
      | None => Fail BindingCount
      end
    end
  end.

Definition where_columns (w : where_clause) : list string :=
  match w with
  | NoWhere | WhereTrue => []
  | WhereAll cs => concat (map cond_columns cs)
  end.

(** *** Statements *)


(** CREATE TABLE reads its column definitions in order and stops at the
    first it refuses: a name it cannot read, or one that repeats an earlier
    one. *)
Fixpoint first_refused (seen cs : list string) : option error :=
  match cs with
  | [] => None
  | c :: cs' =>
    if closes_early c then Some SyntaxError
    else if taken c seen then Some (DuplicateColumn c)
    else first_refused (c :: seen) cs'
  end.

(** The database has a table of this name, in whatever case of letters. *)
Definition like_named (db : store) (name : string) : bool :=
  taken name (map fst (map_to_list db)).

Definition bit (b : bool) : option string := Some (if b then "1" else "0").

(** A row of [PRAGMA table_info]; numbers are shown as text. *)
Definition info_row (i : nat) (d : coldef) : dict (option string) :=
  [("cid", Some (Text.of_Z (Z.of_nat i))); ("name", Some (cname d));
   ("type", Some "TEXT"); ("notnull", bit (cnotnull d));
   ("dflt_value", None); ("pk", bit (cpk d))].

(** [SELECT *]: every column of the table, NULL cells included. *)
Definition star (t : table) (r : row) : dict (option string) :=
  map (fun c => (c, r !! c)) (columns t).

Definition no_cursor : cursor := Cursor [] (-1).

(** The first NOT NULL column the new row leaves empty. *)
Definition null_violation (ds : list coldef) (r : row) : option string :=
  cname <$> List.find (fun d => cnotnull d && match r !! cname d with
                                             | None => true
                                             | Some _ => false
                                             end) ds.

(** [r'] holds the value [r] gives to the key column [c]. *)
Definition clashes (c : string) (r r' : row) : bool :=
  match r !! c, r' !! c with
  | Some v, Some v' => String.eqb v v'
  | _, _ => false
  end.

Definition clashes_any (ds : list coldef) (r r' : row) : bool :=
  existsb (fun d => cpk d && clashes (cname d) r r') ds.

(** The first key column on which the new row repeats a stored one. *)
Definition unique_violation (ds : list coldef) (old : list row) (r : row)
  : option string :=
  cname <$> List.find (fun d => cpk d && existsb (clashes (cname d) r) old) ds.

Definition insert_row (or_replace : bool) (name : string) (t : table)
    (cs ps : list string) : outcome table :=
  match first_missing (columns t) cs with
  | Some c => Fail (NoColumnNamed name c)
  | None =>
    if negb (length cs =? length ps)%nat then Fail BindingCount
    else
      let r : row := list_to_map (zip cs ps) in
      match null_violation (defs t) r with
      | Some c => Fail (NotNullFailed name c)
      | None =>
        if or_replace then
          Done (Table (defs t)
                  (List.filter (fun r' => negb (clashes_any (defs t) r r')) (rows t)
                   ++ [r]))
        else
          match unique_violation (defs t) (rows t) r with
          | Some c => Fail (UniqueFailed name c)
          | None => Done (Table (defs t) (rows t ++ [r]))
          end
      end
  end.

Definition exec (s : stmt) (ps : list string) (db : store)
  : outcome (store * cursor) :=
  match s with
  | SelectMaster =>
    match ps with
    | [p] =>
      Done (db, Cursor (match db !! p with
                        | Some _ => [[("name", Some p)]]
                        | None => []
                        end) (-1))
    | _ => Fail BindingCount
    end
  | CreateTable if_not_exists name ds =>
    if closes_early name then Fail SyntaxError
    else if kept_for_engine name then Fail (ReservedName name)
    else if like_named db name then
      if if_not_exists then
        if existsb closes_early (map cname ds) then Fail SyntaxError
        else Done (db, no_cursor)
      else Fail (TableExists name)
    else
      match first_refused [] (map cname ds) with
      | Some e => Fail e
      | None => Done (<[name := Table ds []]> db, no_cursor)
      end
  | DropTable name =>
    if closes_early name then Fail SyntaxError
    else
      match db !! name with
      | Some _ => Done (delete name db, no_cursor)
      | None => Fail (NoSuchTable name)
      end
  | TableInfo name =>
    if closes_early name then Fail SyntaxError
    else
      Done (db, Cursor (match db !! name with
                        | Some t => imap info_row (defs t)
                        | None => []
                        end) (-1))
  | AddColumn name c =>
    if closes_early name then Fail SyntaxError
    else
      match db !! name with
      | Some t =>
        if closes_early c then Fail SyntaxError
        else if taken c (columns t) then Fail (DuplicateColumn c)
        else Done (<[name := Table (defs t ++ [ColDef c false false]) (rows t)]> db,
                   no_cursor)
      | None => Fail (NoSuchTable name)
      end
  | Insert or_replace name cs =>
    if closes_early name || existsb refused_bare cs then Fail SyntaxError
    else
      match db !! name with
      | Some t =>
        match insert_row or_replace name t cs ps with
        | Done t' => Done (<[name := t']> db, Cursor [] 1)
        | Fail e => Fail e
        end
      | None => Fail (NoSuchTable name)
      end
  | Select what name w =>
    if closes_early name || existsb closes_early (where_columns w)
    then Fail SyntaxError
    else
      match db !! name with
      | Some t =>
        match what with
        | Some c =>
          if mem c (columns t) then
            match compile (columns t) w ps with
            | Done keep =>
              Done (db, Cursor (map (fun r => [(c, r !! c)])
                                  (List.filter keep (rows t))) (-1))
            | Fail e => Fail e
            end
          else Fail (NoSuchColumn c)
        | None =>
          match compile (columns t) w ps with
          | Done keep =>
            Done (db, Cursor (map (star t) (List.filter keep (rows t))) (-1))
          | Fail e => Fail e
          end
        end
      | None => Fail (NoSuchTable name)
      end
  | Delete name w =>
    if closes_early name || existsb closes_early (where_columns w)
    then Fail SyntaxError
    else
      match db !! name with
      | Some t =>
        match compile (columns t) w ps with
        | Done keep =>
          Done (<[name := Table (defs t) (List.filter (fun r => negb (keep r)) (rows t))]> db,
                Cursor [] (Z.of_nat (length (List.filter keep (rows t)))))
        | Fail e => Fail e
        end
      | None => Fail (NoSuchTable name)
      end
  end.

(** Statements that read, that change the schema, that change rows. *)
Variant kind := Reads | Schema | Rows.

Definition kind_of (s : stmt) : kind :=
  match s with
  | SelectMaster | TableInfo _ | Select _ _ _ => Reads
  | CreateTable _ _ _ | DropTable _ | AddColumn _ _ => Schema
  | Insert _ _ _ | Delete _ _ => Rows
  end.

(** Failures met while the statement runs, after it was accepted. *)
Definition at_run_time (e : error) : bool :=
  match e with
  | BindingCount | UniqueFailed _ _ | NotNullFailed _ _ => true
  | _ => false
  end.

End Sql.

(** ** Exceptions, and computations over a mutable state *)

Inductive exn :=
| TableNotFoundError (msg : string)
| TableAlreadyExistsError (msg : string)
| ValueError (msg : string)
| KeyError (key : string)
| TypeError
| OverflowError
| DatabaseError (e : Sql.error)   (* raised by the [sqlite3] module *)
| NotAConfigDocument.
(* [json.loads] on a text that is not an object of strings: it raises, or
   returns a value that is not a mapping from columns to type tags *)

Variant res (A : Type) := Ok (a : A) | Raise (e : exn).
Arguments Ok {A} a.
Arguments Raise {A} e.

(** A computation returns or raises; the state it leaves stays, also when
    it raises. *)
Definition M (S A : Type) : Type := S → res A * S.

Definition ret {S A} (a : A) : M S A := fun s => (Ok a, s).

Definition raise {S A} (e : exn) : M S A := fun s => (Raise e, s).

(** A computation that only returns or raises. *)
Definition of_res {S A} (r : res A) : M S A := fun s => (r, s).

Definition bind {S A B} (m : M S A) (k : A → M S B) : M S B :=
  fun s => match m s with
           | (Ok a, s') => k a s'
           | (Raise e, s') => (Raise e, s')
           end.

#[global] Instance M_ret {S} : MRet (M S) := fun A a => ret a.

#[global] Instance M_bind {S} : MBind (M S) := fun A B k m => bind m k.

Definition when {S} (b : bool) (m : M S unit) : M S unit :=
  if b then m else ret tt.

(** [for x in xs: body x] *)
Fixpoint for_each {S A} (xs : list A) (body : A → M S unit) : M S unit :=
  match xs with
  | [] => ret tt
  | x :: xs' => body x;; for_each xs' body
  end.

(** ** The connection *)

(** [live] is what the connection sees, [durable] what has been committed;
    [in_txn] tells whether a transaction is open. *)
Record connection := Connection {
  live : Sql.store;
  durable : Sql.store;
  in_txn : bool }.

(** [cursor.execute(sql, params)]: a statement that changes rows opens a
    transaction, which stays open if the statement fails while it runs; a
    change of the schema outside a transaction is committed at once. *)
Definition execute (s : Sql.stmt) (ps : list string) : M connection Sql.cursor :=
  fun c =>
    match Sql.exec s ps (live c) with
    | Sql.Done (db, cur) =>
      (Ok cur,
       match Sql.kind_of s with
       | Sql.Reads => c
       | Sql.Schema =>
         Connection db (if in_txn c then durable c else db) (in_txn c)
       | Sql.Rows => Connection db (durable c) true
       end)
    | Sql.Fail e =>
      (Raise (DatabaseError e),
       match Sql.kind_of s with
       | Sql.Rows =>
         if Sql.at_run_time e then Connection (live c) (durable c) true else c
       | _ => c
       end)
    end.

(** [conn.commit()] *)
Definition commit : M connection unit :=
  fun c => (Ok tt, Connection (live c) (live c) false).

Definition fetchone (cur : Sql.cursor) : option (dict (option string)) :=
  head (Sql.fetched cur).

Definition fetchall (cur : Sql.cursor) : list (dict (option string)) :=
  Sql.fetched cur.

(** [row[i]] on a fetched row that has a column [i]. *)
Definition item (i : nat) (r : dict (option string)) : option string :=
  match r !! i with Some (_, v) => v | None => None end.

(** ** The [Database] class *)

Module Database.

Import Sql.

(** [column in ("id", "created_at")] *)
Definition reserved (column : string) : bool :=
  String.eqb column "id" || String.eqb column "created_at".

Definition config_table : string := "_skypy_config".

Definition not_found (table_name : string) : exn :=
  TableNotFoundError ("Table '" +:+ table_name +:+ "' not found").

Definition already_exists (table_name : string) : exn :=
  TableAlreadyExistsError ("Table '" +:+ table_name +:+ "' already exists").

Definition no_filters : exn :=
  ValueError
    "Cannot delete without filters. Use filters to specify which rows to delete.".

Definition invalid_type (key expected : string) : exn :=
  ValueError ("Invalid type for column '" +:+ key +:+ "': expected " +:+ expected).

Definition _ensure_config_table : M connection unit :=
  execute (CreateTable true config_table
             [ColDef "table_name" true false; ColDef "config" false true;
              ColDef "created_at" false true]) [];;
  commit.

(** [Database(path)]: connect to the stored tables [db], then
    [_ensure_config_table]. *)
Definition connect (db : store) : connection :=
  (_ensure_config_table (Connection db db false)).2.

Definition create_table (table_name : string) : M connection unit :=
  cursor ← execute SelectMaster [table_name];
  match fetchone cursor with
  | Some _ => raise (already_exists table_name)
  | None =>
    execute (CreateTable true table_name
               [ColDef "id" true false; ColDef "created_at" false true]) [];;
    commit
  end.

Definition table_exists (table_name : string) : M connection bool :=
  cursor ← execute SelectMaster [table_name];
  mret (match fetchone cursor with Some _ => true | None => false end).

Definition delete_table (table_name : string) : M connection unit :=
  found ← table_exists table_name;
  if negb found then raise (not_found table_name)
  else
    execute (DropTable table_name) [];;
    commit.

Definition get_table_columns (table_name : string) : M connection (list string) :=
  found ← table_exists table_name;
  if negb found then raise (not_found table_name)
  else
    cursor ← execute (TableInfo table_name) [];
    mret (omap (item 1) (fetchall cursor)).

Definition add_columns_if_needed (table_name : string) (columns : list string)
  : M connection unit :=
  existing_columns ← get_table_columns table_name;
  for_each columns (fun column =>
    when (negb (mem column existing_columns) && negb (reserved column))
      (execute (AddColumn table_name column) [];; mret tt));;
  commit.

(** The caller of [insert_data] and the callee share the row mapping: what
    the callee stores in it stays in the caller's object. *)
Record caller := Caller { data : pydict; conn : connection }.

Definition on_conn {A} (m : M connection A) : M caller A :=
  fun s => let '(r, c) := m (conn s) in (r, Caller (data s) c).

Definition the_data : M caller pydict := fun s => (Ok (data s), s).

(** [data[key] = value] *)
Definition set_item (key : string) (value : pyval) : M caller unit :=
  fun s => (Ok tt, Caller (dict_set key value (data s)) (conn s)).

(** [rnd] is what [uuid.uuid4()] draws and [now] what [datetime.now()]
    reads, when they are called. *)
Definition insert_data (table_name : string) (generate_id : bool)
    (rnd : Z) (now : datetime) : M caller pyval :=
  found ← on_conn (table_exists table_name);
  if negb found then raise (not_found table_name)
  else
    when generate_id (set_item "id" (VStr (uuid4 rnd)));;
    d ← the_data;
    when (negb (dict_mem "created_at" d))
      (set_item "created_at" (VStr (isoformat now)));;
    d ← the_data;
    let columns_to_add := List.filter (fun col => negb (reserved col)) (dict_keys d) in
    when (match columns_to_add with [] => false | _ :: _ => true end)
      (on_conn (add_columns_if_needed table_name columns_to_add));;
    d ← the_data;
    let columns := dict_keys d in
    on_conn (execute (Insert false table_name columns)
               (omap (fun col => py_str <$> dict_get col d) columns));;
    on_conn commit;;
    d ← the_data;
    match dict_get "id" d with
    | Some v => mret v
    | None => raise (KeyError "id")
    end.

(** One turn of the loop over [filters.items()] in [search]. *)
Definition search_filter (acc : list cond * list string) (kv : string * pyval)
  : list cond * list string :=
  let '(conditions, params) := acc in
  let '(column, value) := kv in
  if negb (reserved column) then
    match value with
    | VList (v :: vs) =>
      (conditions ++ [InP column (length (v :: vs))],
       params ++ map py_str (v :: vs))
    | _ => (conditions ++ [EqP column], params ++ [py_str value])
    end
  else acc.

Definition search (table_name : string) (index : option pyval)
    (filters : pydict) : M connection (list (dict (option string))) :=
  found ← table_exists table_name;
  if negb found then raise (not_found table_name)
  else
    acc ← match index with
          | Some i =>
            columns ← get_table_columns table_name;
            let non_standard_columns :=
              List.filter (fun col => negb (reserved col)) columns in
            match non_standard_columns with
            | [] => mret ([], [])
            | _ :: _ =>
              mret ([AnyP non_standard_columns],
                    map (fun _ => py_str i) non_standard_columns)
            end
          | None => mret ([], [])
          end;
    let '(conditions, params) := fold_left search_filter filters acc in
    let where_clause :=
      match conditions with [] => WhereTrue | _ :: _ => WhereAll conditions end in
    cursor ← execute (Select None table_name where_clause) params;
    mret (fetchall cursor).

(** [search(table_name, **keywords)]: [search] called with the keywords
    [delete_data] is called with.  Python gives the keyword [index] to the
    parameter of that name and the others to [filters]; [None] is the
    default of the parameter. *)
Definition search_keywords (table_name : string) (keywords : pydict)
  : M connection (list (dict (option string))) :=
  search table_name
    (match dict_get "index" keywords with
     | Some VNone | None => None
     | Some index => Some index
     end)
    (List.filter (fun kv => negb (String.eqb kv.1 "index")) keywords).

Definition get_all_data (table_name : string)
  : M connection (list (dict (option string))) :=
  found ← table_exists table_name;
  if negb found then raise (not_found table_name)
  else
    cursor ← execute (Select None table_name NoWhere) [];
    mret (fetchall cursor).

(** One turn of the loop over [filters.items()] in [delete_data]. *)
Definition delete_filter (acc : list cond * list string) (kv : string * pyval)
  : list cond * list string :=
  let '(conditions, params) := acc in
  let '(column, value) := kv in
  match value with
  | VList (v :: vs) =>
    (conditions ++ [InP column (length (v :: vs))],
     params ++ map py_str (v :: vs))
  | _ => (conditions ++ [EqP column], params ++ [py_str value])
  end.

Definition delete_data (table_name : string) (filters : pydict) : M connection Z :=
  found ← table_exists table_name;
  if negb found then raise (not_found table_name)
  else
    match filters with
    | [] => raise no_filters
    | _ :: _ =>
      let '(conditions, params) := fold_left delete_filter filters ([], []) in
      cursor ← execute (Delete table_name (WhereAll conditions)) params;
      commit;;
      mret (rowcount cursor)
    end.

Definition normalize_type (col_type : pyval) : string :=
  match col_type with
  | VType TyStr => "str"
  | VType TyInt => "int"
  | VType TyFloat => "float"
  | VType TyBool => "bool"
  | _ => py_str col_type
  end.

Definition _normalize_config (config : pydict) : dict string :=
  fold_left (fun normalized kv => dict_set kv.1 (normalize_type kv.2) normalized)
    config [].

Definition save_table_config (table_name : string) (config : pydict)
    (now : datetime) : M connection unit :=
  let normalized_config := _normalize_config config in
  execute (Insert true config_table ["table_name"; "config"; "created_at"])
    [table_name; Json.dumps normalized_config; isoformat now];;
  commit.

Definition get_table_config (table_name : string)
  : M connection (option (dict string)) :=
  cursor ← execute (Select (Some "config") config_table
                      (WhereAll [EqP "table_name"])) [table_name];
  match fetchone cursor with
  | Some row =>
    match item 0 row with
    | Some text =>
      match Json.loads text with
      | Some config => mret (Some config)
      | None => raise NotAConfigDocument
      end
    | None => raise TypeError
    end
  | None => mret None
  end.

Definition create_table_from_config (table_name : string) (config : pydict)
    (now : datetime) : M connection unit :=
  found ← table_exists table_name;
  if (found : bool) then raise (already_exists table_name)
  else
    let column_defs :=
      map (fun col_name => ColDef col_name false false)
        (List.filter (fun col_name => negb (String.eqb col_name "id"))
           (dict_keys config)) in
    execute (CreateTable false table_name
               ([ColDef "id" true false; ColDef "created_at" false true]
                ++ column_defs)) [];;
    save_table_config table_name config now;;
    commit.

(** The loop of [validate_data_with_config] over [data.items()].  The
    stored config comes from [json.loads], so its type tags are text. *)
Fixpoint validate_items (config : dict string) (items validated_data : pydict)
  : res pydict :=
  match items with
  | [] => Ok validated_data
  | (key, value) :: rest =>
    match dict_get key config with
    | Some expected_type =>
      if String.eqb expected_type "auto" || String.eqb expected_type "id"
      then validate_items config rest validated_data
      else if String.eqb expected_type "str"
      then validate_items config rest
             (dict_set key (VStr (py_str value)) validated_data)
      else if String.eqb expected_type "int"
      then match py_int value with
           | Conv z =>
             validate_items config rest (dict_set key (VInt z) validated_data)
           | ConvValueError | ConvTypeError => Raise (invalid_type key "int")
           | ConvOverflowError => Raise OverflowError
           end
      else if String.eqb expected_type "float"
      then match py_float value with
           | Conv f =>
             validate_items config rest (dict_set key (VFloat f) validated_data)
           | ConvValueError | ConvTypeError => Raise (invalid_type key "float")
           | ConvOverflowError => Raise OverflowError
           end
      else if String.eqb expected_type "bool"
      then validate_items config rest
             (dict_set key
                (VBool match value with
                       | VStr s => mem (Text.lower s) ["true"; "1"; "yes"]
                       | _ => py_bool value
                       end) validated_data)
      else validate_items config rest
             (dict_set key (VStr (py_str value)) validated_data)
    | None => validate_items config rest (dict_set key value validated_data)
    end
  end.

Definition validate_data_with_config (table_name : string) (data : pydict)
  : M connection pydict :=
  config ← get_table_config table_name;
  match config with
  | None | Some [] => mret data
  | Some config => of_res (validate_items config data [])
  end.

Definition delete_table_config (table_name : string) : M connection unit :=
  execute (Delete config_table (WhereAll [EqP "table_name"])) [table_name];;
  commit.

End Database.

(** ** The [Client] class: [delete_table] *)

Module Client.

Definition delete_table (table_name : string) : M connection unit :=
  Database.delete_table table_name;;
  Database.delete_table_config table_name.

(** The class [Table] is not among the sources.  [Table table_name] stands
    for what its constructor does on the connection it is given. *)
Section Handles.

Context {T : Type} (Table : string → M connection T).

Definition create_table (table_name : string) : M connection T :=
  found ← Database.table_exists table_name;
  if (found : bool) then raise (Database.already_exists table_name)
  else
    Database.create_table table_name;;
    Table table_name.


Definition not_in_config (table_name : string) : exn :=
  KeyError ("Table '" +:+ table_name +:+ "' not found in config").

(** The loop of [create_table_from_config] over [config.items()]; [now name]
    is what the clock reads when the config of [name] is saved. *)
Fixpoint create_tables (now : string → datetime) (items : dict pydict)
    (table : dict T) : M connection (dict T) :=
  match items with
  | [] => mret table
  | (name, table_config) :: rest =>
    Database.create_table_from_config name table_config (now name);;
    handle ← Table name;
    create_tables now rest (dict_set name handle table)
  end.

(** [create_table_from_config(config, table_name)]: one table when a name
    is given, all the tables of the config otherwise. *)
Definition create_table_from_config (config : dict pydict)
    (table_name : option string) (now : string → datetime)
  : M connection (T + dict T) :=
  match table_name with
  | Some table_name =>
    match dict_get table_name config with
    | None => raise (not_in_config table_name)
    | Some table_config =>
      Database.create_table_from_config table_name table_config (now table_name);;
      handle ← Table table_name;
      mret (inl handle)
    end
  | None =>
    table ← create_tables now config [];
    mret (inr table)
  end.

Definition get_table_from_config (config : dict pydict) (table_name : string)
  : M connection T :=
  found ← Database.table_exists table_name;
  if negb found then raise (Database.not_found table_name)
  else Table table_name.

End Handles.

Definition delete_table_from_config (config : dict pydict) (table_name : string)
  : M connection unit :=
  if negb (dict_mem table_name config) then raise (not_in_config table_name)
  else
    found ← Database.table_exists table_name;
    if negb found then raise (Database.not_found table_name)
    else
      Database.delete_table table_name;;
      Database.delete_table_config table_name.

End Client.

(** ** Notions used by the statements *)

Definition has_table (db : Sql.store) (name : string) : bool :=
  match db !! name with Some _ => true | None => false end.

(** A table of the data model: [id] is its only key column and
    [created_at] its only NOT NULL column, as [create_table] and
    [create_table_from_config] declare them and [add_columns_if_needed]
    leaves them. *)
Definition data_table (t : Sql.table) : Prop :=
  "id" ∈ Sql.columns t ∧ "created_at" ∈ Sql.columns t ∧
  (∀ d, d ∈ Sql.defs t → Sql.cnotnull d = true → Sql.cname d = "created_at") ∧
  (∀ d, d ∈ Sql.defs t → Sql.cpk d = true → Sql.cname d = "id").

(** The system relation: [table_name] is a key column, and there is no
    NOT NULL column besides [config] and [created_at], as
    [_ensure_config_table] declares it. *)
Definition config_relation (t : Sql.table) : Prop :=
  Sql.ColDef "table_name" true false ∈ Sql.defs t ∧
  "config" ∈ Sql.columns t ∧ "created_at" ∈ Sql.columns t ∧
  (∀ d, d ∈ Sql.defs t → Sql.cnotnull d = true →
        Sql.cname d = "config" ∨ Sql.cname d = "created_at").

(** Names the model of the engine is for. *)
Definition plain_names (names : list string) : Prop :=
  Forall (fun n => Sql.plain n = true) names.

(** Names the engine accepts bare, in the column list of INSERT. *)
Definition bare_names (names : list string) : Prop :=
  Forall (fun n => Sql.reserved_word n = false) names.

(** Every table of the database and every column has a plain name. *)
Definition plain_store (db : Sql.store) : Prop :=
  map_Forall (fun n t => plain_names (n :: Sql.columns t)) db.

(** The row [insert_data] sends to the engine for the mapping [d]. *)
Definition stored_row (d : pydict) : Sql.row :=
  list_to_map (zip (dict_keys d) (map (fun kv => py_str kv.2) d)).

(** What [insert_data] leaves in the caller's mapping. *)
Definition with_id (generate_id : bool) (rnd : Z) (d : pydict) : pydict :=
  if generate_id then dict_set "id" (VStr (uuid4 rnd)) d else d.

Definition with_created_at (now : datetime) (d : pydict) : pydict :=
  if dict_mem "created_at" d then d
  else dict_set "created_at" (VStr (isoformat now)) d.

(** The conversion the tag [ty] asks for accepts [value]. *)
Definition converts (ty : string) (value : pyval) : bool :=
  if String.eqb ty "int"
  then match py_int value with Conv _ => true | _ => false end
  else if String.eqb ty "float"
  then match py_float value with Conv _ => true | _ => false end
  else true.

(** The conversion the tag [ty] asks for rejects [value] with a value error
    or a type error. *)
Definition rejects (ty : string) (value : pyval) : bool :=
  if String.eqb ty "int"
  then match py_int value with
       | ConvValueError | ConvTypeError => true
       | _ => false
       end
  else if String.eqb ty "float"
  then match py_float value with
       | ConvValueError | ConvTypeError => true
       | _ => false
       end
  else false.

Definition entry_converts (config : dict string) (kv : string * pyval) : bool :=
  match dict_get kv.1 config with
  | Some ty => converts ty kv.2
  | None => true
  end.

(** The rules of validation, entry by entry: a key the config does not
    declare passes through; tags [auto] and [id] drop the key; [str] gives
    the text of the value, [int] and [float] parse it, [bool] reads a text
    as true when its lower-case form is [true], [1] or [yes] and takes the
    truth value of anything else; any other tag gives the text. *)
Definition coerced_entry (config : dict string) (kv : string * pyval)
  : option (string * pyval) :=
  match dict_get kv.1 config with
  | None => Some kv
  | Some ty =>
    if String.eqb ty "auto" || String.eqb ty "id" then None
    else if String.eqb ty "int" then
      match py_int kv.2 with Conv z => Some (kv.1, VInt z) | _ => None end
    else if String.eqb ty "float" then
      match py_float kv.2 with Conv f => Some (kv.1, VFloat f) | _ => None end
    else if String.eqb ty "bool" then
      Some (kv.1, VBool match kv.2 with
                        | VStr s => Sql.mem (Text.lower s) ["true"; "1"; "yes"]
                        | _ => py_bool kv.2
                        end)
    else Some (kv.1, VStr (py_str kv.2))
  end.

Definition is_hex (c : ascii) : bool :=
  Text.is_digit c || Text.in_range 97 102 c.

(** The conjunct a filter entry stands for, with its parameters. *)
Definition filter_pair (kv : string * pyval) : Sql.cond * list string :=
  match kv.2 with
  | VList (v :: vs) => (Sql.InP kv.1 (length (v :: vs)), map py_str (v :: vs))
  | _ => (Sql.EqP kv.1, [py_str kv.2])
  end.

(** The conjunct an index value stands for on the table [t]. *)
Definition index_pairs (t : Sql.table) (index : option pyval)
  : list (Sql.cond * list string) :=
  match index with
  | Some i =>
    match List.filter (fun col => negb (Database.reserved col)) (Sql.columns t) with
    | [] => []
    | col :: cols =>
      [(Sql.AnyP (col :: cols), map (fun _ => py_str i) (col :: cols))]
    end
  | None => []
  end.

Definition unreserved (filters : pydict) : pydict :=
  List.filter (fun kv => negb (Database.reserved kv.1)) filters.

(** The rows of [t] on which all the conjuncts [l] hold, as [SELECT *]
    shows them; the engine's error when a conjunct names a column the
    table does not have. *)
Definition select_where (t : Sql.table) (l : list (Sql.cond * list string))
  : res (list (dict (option string))) :=
  match Sql.first_missing (Sql.columns t)
          (concat (map (fun cp => Sql.cond_columns cp.1) l)) with
  | Some col => Raise (DatabaseError (Sql.NoSuchColumn col))
  | None => Ok (map (Sql.star t) (List.filter (Sql.keeps l) (Sql.rows t)))
  end.

(** The cell [key] of a fetched row holds [text]. *)
Definition cell_is (key text : string) (row : dict (option string)) : bool :=
  match dict_get key row with
  | Some (Some x) => String.eqb x text
  | _ => false
  end.

(** The conjunct [cp] is true on the row [r]. *)
Definition holds (r : Sql.row) (cp : Sql.cond * list string) : bool :=
  match Sql.eval_cond r cp.1 cp.2 with Some true => true | _ => false end.

(** The table stored under [name], when there is one. *)
Definition table_of (c : connection) (name : string) : Sql.table :=
  default (Sql.Table [] []) (live c !! name).

(** The texts a filter value is compared with. *)
Definition filter_texts (value : pyval) : list string :=
  match value with
  | VList (v :: vs) => map py_str (v :: vs)
  | _ => [py_str value]
  end.

(** What a run returned, [d] if it raised. *)
Definition returned {A} (d : A) (r : res A) : A :=
  match r with Ok a => a | Raise _ => d end.

(** A conjunct with as many parameters as it has placeholders. *)
Definition bound (cp : Sql.cond * list string) : Prop :=
  Sql.arity cp.1 = length cp.2.

(** The columns [add_columns_if_needed] adds, given the columns the table
    has when it starts. *)
Definition added (existing columns : list string) : list string :=
  List.filter
    (fun column => negb (Sql.mem column existing) && negb (Database.reserved column))
    columns.

(** The table [t] with more text columns. *)
Definition extend (t : Sql.table) (columns : list string) : Sql.table :=
  Sql.Table (Sql.defs t ++ map (fun col => Sql.ColDef col false false) columns)
    (Sql.rows t).

(** No stored row has the [id] of the row to be inserted. *)
Definition id_is_new (t : Sql.table) (r : Sql.row) : Prop :=
  ∀ r', r' ∈ Sql.rows t → Sql.clashes "id" r r' = false.

(** The table after [insert_data] has stored the mapping [d]: the columns
    the mapping asks for, and one more row. *)
Definition after_insert (t : Sql.table) (d : pydict) : Sql.table :=
  Sql.Table
    (Sql.defs (extend t (added (Sql.columns t)
                           (List.filter (fun col => negb (Database.reserved col))
                              (dict_keys d)))))
    (Sql.rows t ++ [stored_row d]).

(** The canonical text of a UUID: 36 characters, hyphens at positions 8,
    13, 18 and 23, lower-case hexadecimal digits elsewhere. *)
Definition uuid_shape (s : string) : bool :=
  let cs := Text.explode s in
  let hyphen (o : option ascii) :=
    match o with Some c => Text.code c =? 45 | None => false end in
  (length cs =? 36)%nat
  && forallb is_hex (take 8 cs) && hyphen (cs !! 8%nat)
  && forallb is_hex (take 4 (drop 9 cs)) && hyphen (cs !! 13%nat)
  && forallb is_hex (take 4 (drop 14 cs)) && hyphen (cs !! 18%nat)
  && forallb is_hex (take 4 (drop 19 cs)) && hyphen (cs !! 23%nat)
  && forallb is_hex (drop 24 cs).

(** A computation that leaves the caller's mapping as it finds it. *)
Definition frames_data {A} (m : M Database.caller A) : Prop :=
  ∀ s, Database.data (m s).2 = Database.data s.

(** Tests for [data_table], [config_relation] and for an identifier no row
    of the table has. *)
Definition is_data_table (t : Sql.table) : bool :=
  Sql.mem "id" (Sql.columns t) && Sql.mem "created_at" (Sql.columns t)
  && forallb (fun d => implb (Sql.cnotnull d) (String.eqb (Sql.cname d) "created_at")
                       && implb (Sql.cpk d) (String.eqb (Sql.cname d) "id"))
       (Sql.defs t).

Definition is_config_relation (t : Sql.table) : bool :=
  existsb (fun d => String.eqb (Sql.cname d) "table_name" && Sql.cpk d
                    && negb (Sql.cnotnull d)) (Sql.defs t)
  && Sql.mem "config" (Sql.columns t) && Sql.mem "created_at" (Sql.columns t)
  && forallb (fun d => implb (Sql.cnotnull d)
                         (String.eqb (Sql.cname d) "config"
                          || String.eqb (Sql.cname d) "created_at"))
       (Sql.defs t).

Definition id_unused (t : Sql.table) (id : string) : bool :=
  forallb (fun r => match r !! "id" with
                    | Some x => negb (String.eqb x id)
                    | None => true
                    end) (Sql.rows t).

(** ** Notions used by the statements on the rest of the class *)

(** The cell [col] of the row [r] holds [text]. *)
Definition cell_eq (r : Sql.row) (text col : string) : bool :=
  match r !! col with Some x => String.eqb x text | None => false end.

(** The row [r] of [t] passes the index value [i]: some column other than
    [id] and [created_at] holds the text of [i], or there is no such
    column. *)
Definition index_hit (t : Sql.table) (i : pyval) (r : Sql.row) : bool :=
  match List.filter (fun col => negb (Database.reserved col)) (Sql.columns t) with
  | [] => true
  | cols => existsb (cell_eq r (py_str i)) cols
  end.


(** The system relation as [_ensure_config_table] declares it. *)
Definition system_relation (t : Sql.table) : Prop :=
  Sql.defs t = [Sql.ColDef "table_name" true false; Sql.ColDef "config" false true;
                Sql.ColDef "created_at" false true].

(** The rows of the system relation saved under [name]. *)
Definition saved_under (name : string) (rows : list Sql.row) : list Sql.row :=
  List.filter (fun r => cell_eq r name "table_name") rows.

(** The row [save_table_config] writes. *)
Definition config_row (name text stamp : string) : Sql.row :=
  list_to_map (zip ["table_name"; "config"; "created_at"] [name; text; stamp]).

(** What [get_table_config] makes of the rows it finds. *)
Definition read_config (found : list Sql.row) : res (option (dict string)) :=
  match found with
  | [] => Ok None
  | r :: _ =>
    match r !! "config" with
    | Some text =>
      match Json.loads text with
      | Some config => Ok (Some config)
      | None => Raise NotAConfigDocument
      end
    | None => Raise TypeError
    end
  end.


(** The system relation after a save under [name]. *)
Definition with_config (t : Sql.table) (name : string) (config : pydict)
    (now : datetime) : Sql.table :=
  Sql.Table (Sql.defs t)
    (List.filter (fun r => negb (cell_eq r name "table_name")) (Sql.rows t)
     ++ [config_row name (Json.dumps (Database._normalize_config config))
           (isoformat now)]).

(** Outside any transaction, with all that is seen durable. *)
Definition committed (c : connection) : Prop :=
  durable c = live c ∧ in_txn c = false.

(** A config as [get_table_config] returns it, given to
    [save_table_config]. *)
Definition as_config (config : dict string) : pydict :=
  map (fun kv => (kv.1, VStr kv.2)) config.

(** A text, written with a backquote for each double quote it has. *)
Definition dq (s : string) : string :=
  Text.implode
    (map (fun c => if Text.code c =? 96 then Text.chr 34 else c) (Text.explode s)).

(** ** Sample databases *)

Definition noon : datetime := DateTime 2024 1 2 12 0 0 0.

(** A new database with a table [users] created from a config. *)
Definition users_db (config : pydict) : connection :=
  (Database.create_table_from_config "users" config noon (Database.connect ∅)).2.

(** The table [users] with two rows, Alice and Bob. *)
Definition people_db : connection :=
  Database.conn
    (Database.insert_data "users" true 2 noon
       (Database.Caller [("name", VStr "Bob"); ("age", VInt 41)]
          (Database.conn
             (Database.insert_data "users" true 1 noon
                (Database.Caller [("name", VStr "Alice"); ("age", VInt 30)]
                   (users_db [("name", VStr "str"); ("age", VStr "int")]))).2))).2.

(** A table [users] with the columns [name] and [index] and one row, which
    has a name and no index. *)
Definition index_db : connection :=
  Database.conn
    (Database.insert_data "users" true 1 noon
       (Database.Caller [("name", VStr "x")]
          (users_db [("name", VStr "str"); ("index", VStr "str")]))).2.

(** A table made under the name [Users]. *)
Definition upper_db : connection :=
  (Database.create_table "Users" (Database.connect ∅)).2.

(** A database that another client of the engine has written to: beside
    the table [users] of [people_db] it has a table [old]] and a table
    [notes] with a column [done]], names that the class cannot make. *)
Definition foreign_db : connection :=
  let db :=
    <["old]" := Sql.Table [Sql.ColDef "id" true false;
                           Sql.ColDef "created_at" false true] []]>
      (<["notes" := Sql.Table [Sql.ColDef "id" true false;
                               Sql.ColDef "created_at" false true;
                               Sql.ColDef "done]" false false] []]>
         (live people_db)) in
  Connection db db false.

(* ===================================================================== *)
(** * Part II: properties                                                 *)
(* ===================================================================== *)

Ltac run := vm_compute; reflexivity.

Ltac decide_it := apply (bool_decide_unpack _); vm_compute; reflexivity.

(** ** Running computations *)

Arguments Sql.compile : simpl never.
Arguments Sql.insert_row : simpl never.
Arguments py_str : simpl never.

(** The texts of identifiers and timestamps are not unfolded by the proofs. *)
Opaque uuid4 isoformat.

Lemma run_bind {S A B} (m : M S A) (k : A → M S B) (s : S) :
  (m ≫= k) s = match m s with
               | (Ok a, s') => k a s'
               | (Raise e, s') => (Raise e, s')
               end.
Proof. reflexivity. Qed.

Lemma run_ret {S A} (a : A) (s : S) : (mret a : M S A) s = (Ok a, s).
Proof. reflexivity. Qed.

Lemma run_bind_ok {S A B} (m : M S A) (k : A → M S B) (s s' : S) (a : A) :
  m s = (Ok a, s') → (m ≫= k) s = k a s'.
Proof. intros H. rewrite run_bind, H. reflexivity. Qed.

Lemma run_bind_raise {S A B} (m : M S A) (k : A → M S B) (s s' : S) (e : exn) :
  m s = (Raise e, s') → (m ≫= k) s = (Raise e, s').
Proof. intros H. rewrite run_bind, H. reflexivity. Qed.

(** ** Names

    On plain names the engine reads every statement of the class as it is
    meant. *)

Lemma word_char_no_bracket (a : ascii) :
  Sql.word_char a = true → Ascii.eqb "]" a = false.
Proof.
  destruct a as [[] [] [] [] [] [] [] []]; vm_compute; congruence.
Qed.

Lemma word_start_no_digit (a : ascii) :
  Sql.word_start a = true → Text.is_digit a = false.
Proof.
  destruct a as [[] [] [] [] [] [] [] []]; vm_compute; congruence.
Qed.

Lemma plain_word (n : string) : Sql.plain n = true → Sql.word n = true.
Proof.
  unfold Sql.plain. intros H.
  apply andb_prop in H as [H _]. apply andb_prop in H as [H _]. exact H.
Qed.

Lemma plain_closed (n : string) : Sql.plain n = true → Sql.closes_early n = false.
Proof.
  intros H. apply plain_word in H. unfold Sql.word in H. unfold Sql.closes_early.
  destruct (Text.explode n) as [| a cs]; [reflexivity |].
  apply andb_prop in H as [Ha Hcs]. cbn [existsb].
  rewrite word_char_no_bracket by (unfold Sql.word_char; rewrite Ha; reflexivity).
  cbn [orb]. clear Ha. induction cs as [| b cs IH]; [reflexivity |].
  cbn [forallb] in Hcs. apply andb_prop in Hcs as [Hb Hcs].
  cbn [existsb]. rewrite (word_char_no_bracket b Hb). exact (IH Hcs).
Qed.

Lemma plain_started (n : string) :
  Sql.plain n = true → Sql.starts_with_digit n = false.
Proof.
  intros H. apply plain_word in H. unfold Sql.word in H.
  unfold Sql.starts_with_digit.
  destruct (Text.explode n) as [| a cs]; [reflexivity |].
  apply andb_prop in H as [Ha _]. exact (word_start_no_digit a Ha).
Qed.

Lemma word_char_folded (a : ascii) :
  Sql.word_char a = true → Sql.fold_char a = a.
Proof.
  destruct a as [[] [] [] [] [] [] [] []]; vm_compute; congruence.
Qed.

Lemma plain_folded (n : string) : Sql.plain n = true → Sql.folded n = n.
Proof.
  intros H. apply plain_word in H. unfold Sql.word in H.
  destruct n as [| a n]; [discriminate |].
  cbn [Text.explode String.list_ascii_of_string] in H.
  apply andb_prop in H as [Ha Hn]. cbn [Sql.folded].
  rewrite word_char_folded by (unfold Sql.word_char; rewrite Ha; reflexivity).
  f_equal. clear Ha. induction n as [| b n IH]; [reflexivity |].
  cbn [String.list_ascii_of_string forallb] in Hn.
  apply andb_prop in Hn as [Hb Hn].
  cbn [Sql.folded]. rewrite (word_char_folded b Hb), (IH Hn). reflexivity.
Qed.

Lemma plain_not_kept (n : string) :
  Sql.plain n = true → Sql.kept_for_engine n = false.
Proof.
  intros H. unfold Sql.kept_for_engine. rewrite (plain_folded n H).
  unfold Sql.plain in H.
  apply andb_prop in H as [_ H]. apply negb_true_iff in H. exact H.
Qed.

Lemma same_name_plain (a b : string) :
  Sql.plain a = true → Sql.plain b = true → Sql.same_name a b = String.eqb a b.
Proof.
  intros Ha Hb. unfold Sql.same_name.
  rewrite (plain_folded a Ha), (plain_folded b Hb). reflexivity.
Qed.

Lemma taken_plain (c : string) (cs : list string) :
  Sql.plain c = true → plain_names cs → Sql.taken c cs = Sql.mem c cs.
Proof.
  intros Hc Hcs. unfold Sql.taken, Sql.mem.
  induction Hcs as [| x cs Hx _ IH]; [reflexivity |].
  cbn [existsb]. rewrite (same_name_plain c x Hc Hx), IH. reflexivity.
Qed.

Lemma like_named_exact (db : Sql.store) (name : string) (t : Sql.table) :
  db !! name = Some t → Sql.like_named db name = true.
Proof.
  intros H. unfold Sql.like_named, Sql.taken. apply existsb_exists.
  exists name. split.
  - apply in_map_iff. exists (name, t). split; [reflexivity |].
    apply list_elem_of_In, elem_of_map_to_list. exact H.
  - unfold Sql.same_name. apply String.eqb_refl.
Qed.

Lemma like_named_plain (db : Sql.store) (name : string) :
  plain_store db → Sql.plain name = true → db !! name = None →
  Sql.like_named db name = false.
Proof.
  intros Hdb Hname Hno. apply not_true_is_false. intros H.
  unfold Sql.like_named, Sql.taken in H.
  apply existsb_exists in H as (k & Hin & Hsame).
  apply in_map_iff in Hin as ([k' t] & <- & Hin).
  apply list_elem_of_In, elem_of_map_to_list in Hin. cbn [fst] in Hsame.
  pose proof (Hdb k' t Hin) as Hk. apply Forall_cons in Hk as [Hk _].
  rewrite (same_name_plain name k' Hname Hk) in Hsame.
  apply String.eqb_eq in Hsame. subst. congruence.
Qed.

Lemma plain_bare (n : string) :
  Sql.plain n = true → Sql.reserved_word n = false → Sql.refused_bare n = false.
Proof.
  intros H Hw. unfold Sql.refused_bare.
  rewrite Hw, (plain_started n H), (plain_closed n H). reflexivity.
Qed.

Lemma plain_names_closed (names : list string) :
  plain_names names → existsb Sql.closes_early names = false.
Proof.
  induction 1 as [| n names Hn _ IH]; [reflexivity |].
  cbn [existsb]. rewrite (plain_closed n Hn). exact IH.
Qed.

Lemma plain_names_bare (names : list string) :
  plain_names names → bare_names names → existsb Sql.refused_bare names = false.
Proof.
  induction 1 as [| n names Hn _ IH]; [reflexivity |].
  intros Hb. apply Forall_cons in Hb as [Hw Hb].
  cbn [existsb]. rewrite (plain_bare n Hn Hw). exact (IH Hb).
Qed.


Lemma plain_names_app (l k : list string) :
  plain_names (l ++ k) ↔ plain_names l ∧ plain_names k.
Proof. apply Forall_app. Qed.

Lemma plain_names_cons (n : string) (l : list string) :
  plain_names (n :: l) ↔ Sql.plain n = true ∧ plain_names l.
Proof. apply (Forall_cons (fun n => Sql.plain n = true)). Qed.

Lemma plain_head (n : string) (l : list string) :
  plain_names (n :: l) → Sql.plain n = true.
Proof. intros H. apply plain_names_cons in H as [H _]. exact H. Qed.

Lemma table_exists_run (name : string) (c : connection) :
  Database.table_exists name c = (Ok (has_table (live c) name), c).
Proof.
  unfold Database.table_exists, has_table.
  rewrite run_bind. unfold execute. simpl.
  destruct (live c !! name); reflexivity.
Qed.

Lemma commit_run (c : connection) :
  commit c = (Ok tt, Connection (live c) (live c) false).
Proof. reflexivity. Qed.

Lemma mem_true (c : string) (cs : list string) : Sql.mem c cs = true ↔ c ∈ cs.
Proof.
  unfold Sql.mem. rewrite existsb_exists, list_elem_of_In. split.
  - intros (x & Hx & E). apply String.eqb_eq in E. subst. assumption.
  - intros H. exists c. split; [assumption | apply String.eqb_refl].
Qed.

Lemma mem_false (c : string) (cs : list string) : Sql.mem c cs = false ↔ c ∉ cs.
Proof.
  rewrite <- mem_true. destruct (Sql.mem c cs); split; intros; congruence.
Qed.

Lemma item_name_info (ds : list Sql.coldef) (k : nat) :
  omap (item 1) (imap (fun i => Sql.info_row (k + i)) ds) = map Sql.cname ds.
Proof.
  revert k. induction ds as [| d ds IH]; intros k; [reflexivity |].
  simpl. f_equal.
  rewrite <- (IH (S k)). f_equal. apply imap_ext. intros i x _.
  simpl. f_equal. lia.
Qed.

Lemma get_table_columns_run (name : string) (c : connection) (t : Sql.table) :
  live c !! name = Some t →
  Sql.plain name = true →
  Database.get_table_columns name c = (Ok (Sql.columns t), c).
Proof.
  intros Ht Hname. unfold Database.get_table_columns.
  rewrite (run_bind_ok _ _ _ _ _ (table_exists_run name c)).
  unfold has_table. rewrite Ht. simpl.
  rewrite run_bind. unfold execute. simpl.
  rewrite (plain_closed name Hname), Ht. simpl.
  rewrite run_ret. unfold fetchall. simpl. f_equal. f_equal.
  apply (item_name_info (Sql.defs t) 0).
Qed.

(** ** Creating a table from a config *)



Lemma elem_of_filter_bool {A} (f : A → bool) (l : list A) (x : A) :
  x ∈ List.filter f l ↔ x ∈ l ∧ f x = true.
Proof. rewrite !list_elem_of_In. apply filter_In. Qed.

Lemma NoDup_filter_bool {A} (f : A → bool) (l : list A) :
  NoDup l → NoDup (List.filter f l).
Proof.
  induction 1 as [| x l Hx Hnd IH]; simpl; [constructor |].
  destruct (f x); [| assumption].
  constructor; [| assumption].
  rewrite elem_of_filter_bool. tauto.
Qed.

Lemma cname_text_columns (ks : list string) :
  map Sql.cname (map (fun k => Sql.ColDef k false false) ks) = ks.
Proof. induction ks as [| k ks IH]; simpl; [| rewrite IH]; reflexivity. Qed.




(** Nor is the error the duplicate column error when a key listed before
    [created_at] holds a closing bracket, which the engine cannot read, or
    when the database has a table of that name in another case of letters,
    which [table_exists] does not find and the engine does. *)
Lemma create_table_from_config_other_errors :
  Database.create_table_from_config "users"
    [("a]", VStr "str"); ("created_at", VStr "str")] noon (Database.connect ∅)
  = (Raise (DatabaseError Sql.SyntaxError), Database.connect ∅)
  ∧ has_table (live upper_db) "users" = false
  ∧ Database.create_table_from_config "users" [("created_at", VStr "str")] noon upper_db
    = (Raise (DatabaseError (Sql.TableExists "users")), upper_db).
Proof. split; [run |]. split; run. Qed.

(** ** Deleting a table *)

Lemma get_table_config_reads (name : string) (c : connection) :
  (Database.get_table_config name c).2 = c.
Proof.
  unfold Database.get_table_config. rewrite run_bind. unfold execute. simpl.
  repeat (case_match; simplify_eq/=; try reflexivity).
Qed.

Lemma compile_eq (cols : list string) (col p : string) :
  col ∈ cols →
  Sql.compile cols (Sql.WhereAll [Sql.EqP col]) [p]
  = Sql.Done (Sql.keeps [(Sql.EqP col, [p])]).
Proof.
  intros H. apply mem_true in H. unfold Sql.compile. simpl. rewrite H.
  reflexivity.
Qed.

Lemma filter_keeps_none (keep : Sql.row → bool) (rs : list Sql.row) :
  List.filter keep (List.filter (fun r => negb (keep r)) rs) = [].
Proof.
  induction rs as [| r rs IH]; [reflexivity |].
  simpl. destruct (keep r) eqn:E; simpl; [exact IH |].
  rewrite E. exact IH.
Qed.


Lemma delete_table_run (name : string) (c : connection) :
  has_table (live c) name = true →
  Sql.plain name = true →
  Database.delete_table name c
  = (Ok tt, Connection (delete name (live c)) (delete name (live c)) false).
Proof.
  intros H Hname. unfold Database.delete_table.
  rewrite (run_bind_ok _ _ _ _ _ (table_exists_run name c)), H. simpl.
  rewrite run_bind. unfold execute. simpl. rewrite (plain_closed name Hname).
  unfold has_table in H. destruct (live c !! name); [| discriminate].
  reflexivity.
Qed.




(** Nor does [delete_table] drop a table whose name holds a closing bracket:
    the engine cannot read the statement, and the table stays. *)
Lemma delete_table_bracket_name :
  has_table (live foreign_db) "old]" = true
  ∧ "old]" ≠ Database.config_table
  ∧ Database.delete_table "old]" foreign_db
    = (Raise (DatabaseError Sql.SyntaxError), foreign_db).
Proof. split; [run |]. split; [discriminate | run]. Qed.

(** The caller that removes the config with the table: [Client.delete_table]. *)
Lemma client_delete_table_removes_config (name : string) (c : connection)
    (t : Sql.table) :
  has_table (live c) name = true →
  Sql.plain name = true →
  name ≠ Database.config_table →
  live c !! Database.config_table = Some t →
  "config" ∈ Sql.columns t → "table_name" ∈ Sql.columns t →
  ∃ c',
    Client.delete_table name c = (Ok tt, c')
    ∧ (Database.get_table_config name c').1 = Ok None.
Proof.
  intros Hex Hplain Hne Ht Hcfg Hname.
  unfold Client.delete_table.
  rewrite (run_bind_ok _ _ _ _ _ (delete_table_run name c Hex Hplain)).
  unfold Database.delete_table_config.
  rewrite run_bind. unfold execute. simpl.
  rewrite lookup_delete_ne, Ht by assumption.
  rewrite compile_eq by assumption. simpl.
  eexists. split; [reflexivity |].
  unfold Database.get_table_config. rewrite run_bind. unfold execute. simpl.
  rewrite lookup_insert_eq. simpl.
  change (Sql.columns (Sql.Table (Sql.defs t) ?rs)) with (Sql.columns t).
  rewrite compile_eq by assumption.
  apply mem_true in Hcfg. rewrite Hcfg. simpl.
  rewrite filter_keeps_none. reflexivity.
Qed.

(** ** Validation *)

Lemma validate_run (name : string) (data : pydict) (c : connection)
    (o : option (dict string)) :
  (Database.get_table_config name c).1 = Ok o →
  Database.validate_data_with_config name data c
  = (match o with
     | None | Some [] => Ok data
     | Some config => Database.validate_items config data []
     end, c).
Proof.
  intros H. unfold Database.validate_data_with_config. rewrite run_bind.
  pose proof (get_table_config_reads name c) as Hc.
  destruct (Database.get_table_config name c) as [r c']. simpl in *. subst.
  destruct o as [[| kv config] |]; reflexivity.
Qed.

Lemma dict_get_None {V} (k : string) (d : dict V) :
  dict_get k d = None ↔ k ∉ dict_keys d.
Proof.
  induction d as [| [k' v] d IH]; simpl.
  - split; [intros _ H; inversion H | reflexivity].
  - destruct (String.eqb_spec k k') as [-> | Hne].
    + split; [discriminate | intros H; exfalso; apply H; left].
    + rewrite IH. rewrite not_elem_of_cons. tauto.
Qed.

Lemma dict_set_fresh {V} (k : string) (v : V) (d : dict V) :
  k ∉ dict_keys d → dict_set k v d = d ++ [(k, v)].
Proof.
  induction d as [| [k' v'] d IH]; simpl; intros H; [reflexivity |].
  apply not_elem_of_cons in H as [Hne Hd].
  destruct (String.eqb_spec k k'); [contradiction |].
  rewrite IH by assumption. reflexivity.
Qed.

Lemma dict_get_app {V} (k : string) (d d' : dict V) :
  dict_get k (d ++ d') = match dict_get k d with
                         | Some v => Some v
                         | None => dict_get k d'
                         end.
Proof.
  induction d as [| [k' v] d IH]; simpl; [reflexivity |].
  destruct (String.eqb k k'); [reflexivity | apply IH].
Qed.

Lemma dict_get_Some_wf {V} (k : string) (v : V) (d : dict V) :
  dict_wf d → (k, v) ∈ d → dict_get k d = Some v.
Proof.
  unfold dict_wf. induction d as [| [k' v'] d IH]; simpl; intros Hwf Hin.
  - inversion Hin.
  - apply NoDup_cons in Hwf as [Hk Hwf].
    apply elem_of_cons in Hin as [E | Hin].
    + inversion E; subst. rewrite String.eqb_refl. reflexivity.
    + destruct (String.eqb_spec k k') as [-> | _]; [| auto].
      exfalso. apply Hk. apply list_elem_of_fmap. exists (k', v). auto.
Qed.

Lemma dict_get_elem {V} (k : string) (v : V) (d : dict V) :
  dict_get k d = Some v → (k, v) ∈ d.
Proof.
  induction d as [| [k' v'] d IH]; simpl; [discriminate |].
  destruct (String.eqb_spec k k') as [-> | _].
  - intros [= ->]. left.
  - intros H. right. auto.
Qed.

Lemma coerced_entry_key (config : dict string) (kv kv' : string * pyval) :
  coerced_entry config kv = Some kv' → kv'.1 = kv.1.
Proof.
  unfold coerced_entry. intros H.
  repeat (case_match; simplify_eq/=; try reflexivity).
Qed.

Lemma coerced_keys (config : dict string) (items : pydict) (k : string) :
  k ∈ dict_keys (omap (coerced_entry config) items) → k ∈ dict_keys items.
Proof.
  unfold dict_keys. induction items as [| kv items IH]; simpl; [auto |].
  destruct (coerced_entry config kv) as [kv' |] eqn:E; simpl.
  - apply coerced_entry_key in E. rewrite !elem_of_cons, E. tauto.
  - rewrite elem_of_cons. tauto.
Qed.

(** One turn of the loop when the entry converts. *)
Lemma validate_items_step (config : dict string) (kv : string * pyval)
    (rest acc : pydict) :
  entry_converts config kv = true →
  Database.validate_items config (kv :: rest) acc
  = Database.validate_items config rest
      (match coerced_entry config kv with
       | Some kv' => dict_set kv'.1 kv'.2 acc
       | None => acc
       end).
Proof.
  destruct kv as [key value].
  unfold entry_converts, coerced_entry, converts. simpl.
  destruct (dict_get key config) as [ty |]; [| reflexivity].
  destruct (String.eqb ty "auto") eqn:Ea;
    [apply String.eqb_eq in Ea; subst; reflexivity |].
  destruct (String.eqb ty "id") eqn:Ei;
    [apply String.eqb_eq in Ei; subst; reflexivity |].
  destruct (String.eqb ty "str") eqn:Es;
    [apply String.eqb_eq in Es; subst; reflexivity |].
  simpl.
  destruct (String.eqb ty "int") eqn:En.
  { destruct (py_int value); intros; try discriminate; reflexivity. }
  destruct (String.eqb ty "float") eqn:Ef.
  { destruct (py_float value); intros; try discriminate; reflexivity. }
  destruct (String.eqb ty "bool"); reflexivity.
Qed.

(** One turn of the loop when the conversion rejects the value. *)
Lemma validate_items_reject (config : dict string) (key ty : string)
    (value : pyval) (rest acc : pydict) :
  dict_get key config = Some ty →
  rejects ty value = true →
  Database.validate_items config ((key, value) :: rest) acc
  = Raise (Database.invalid_type key ty).
Proof.
  intros Hty. unfold rejects. simpl. rewrite Hty.
  destruct (String.eqb ty "int") eqn:En.
  { apply String.eqb_eq in En. subst. simpl.
    destruct (py_int value); intros; try discriminate; reflexivity. }
  destruct (String.eqb ty "float") eqn:Ef; [| discriminate].
  apply String.eqb_eq in Ef. subst. simpl.
  destruct (py_float value); intros; try discriminate; reflexivity.
Qed.

Lemma validate_items_ok (config : dict string) (items acc : pydict) :
  NoDup (dict_keys acc ++ dict_keys items) →
  forallb (entry_converts config) items = true →
  Database.validate_items config items acc
  = Ok (acc ++ omap (coerced_entry config) items).
Proof.
  revert acc. induction items as [| kv items IH]; intros acc Hnd Hall.
  - simpl. rewrite app_nil_r. reflexivity.
  - simpl in Hall. apply andb_prop in Hall as [Hkv Hall].
    rewrite validate_items_step by assumption.
    assert (Hk : (kv.1 ∉ dict_keys acc) ∧ (kv.1 ∉ dict_keys items)
                 ∧ NoDup (dict_keys acc ++ dict_keys items)).
    { simpl in Hnd. apply NoDup_app in Hnd as (Ha & Hd & Hi).
      apply NoDup_cons in Hi as [Hk Hi].
      split; [| split; [assumption |]].
      - intros H. apply (Hd _ H). left.
      - apply NoDup_app. split; [assumption |]. split; [| assumption].
        intros x Hx Hx'. apply (Hd _ Hx). right. assumption. }
    destruct Hk as (Hka & Hki & Hnd').
    simpl. destruct (coerced_entry config kv) as [kv' |] eqn:E.
    + pose proof (coerced_entry_key _ _ _ E) as Ek.
      rewrite dict_set_fresh by (rewrite Ek; assumption).
      rewrite IH; [| | assumption].
      * rewrite <- app_assoc. destruct kv'. reflexivity.
      * unfold dict_keys in *. rewrite fmap_app. simpl. rewrite <- app_assoc.
        simpl. apply NoDup_app. apply NoDup_app in Hnd' as (Ha & Hd & Hi).
        split; [assumption |]. split.
        -- intros x Hx Hx'. apply elem_of_cons in Hx' as [-> | Hx'].
           ++ rewrite Ek in Hx. contradiction.
           ++ apply (Hd _ Hx Hx').
        -- constructor; [rewrite Ek |]; assumption.
    + apply IH; assumption.
Qed.

Lemma validate_items_first_reject (config : dict string)
    (before after acc : pydict) (key ty : string) (value : pyval) :
  forallb (entry_converts config) before = true →
  dict_get key config = Some ty →
  rejects ty value = true →
  Database.validate_items config (before ++ (key, value) :: after) acc
  = Raise (Database.invalid_type key ty).
Proof.
  revert acc. induction before as [| kv before IH]; intros acc Hall Hty Hrej.
  - apply validate_items_reject; assumption.
  - simpl in Hall. apply andb_prop in Hall as [Hkv Hall].
    rewrite <- app_comm_cons, validate_items_step by assumption.
    apply IH; assumption.
Qed.

(** The loop stops at an entry that does not convert: with the error that
    names the column when the conversion rejects the value, with the
    conversion's own overflow error otherwise. *)
Lemma validate_items_stop (config : dict string) (kv : string * pyval)
    (rest acc : pydict) :
  entry_converts config kv = false →
  ∃ ty, dict_get kv.1 config = Some ty ∧
    ((rejects ty kv.2 = true ∧
      Database.validate_items config (kv :: rest) acc
      = Raise (Database.invalid_type kv.1 ty))
     ∨ Database.validate_items config (kv :: rest) acc = Raise OverflowError).
Proof.
  destruct kv as [key value]. unfold entry_converts, converts, rejects. simpl.
  destruct (dict_get key config) as [ty |]; [| discriminate].
  intros H. exists ty. split; [reflexivity |].
  destruct (String.eqb ty "int") eqn:En.
  { apply String.eqb_eq in En. subst. simpl.
    destruct (py_int value); try discriminate; auto. }
  destruct (String.eqb ty "float") eqn:Ef; [| discriminate].
  apply String.eqb_eq in Ef. subst. simpl.
  destruct (py_float value); try discriminate; auto.
Qed.

Lemma validate_items_raise (config : dict string) (items acc : pydict) (e : exn) :
  Database.validate_items config items acc = Raise e →
  e = OverflowError ∨
  ∃ before key value after ty,
    items = before ++ (key, value) :: after
    ∧ forallb (entry_converts config) before = true
    ∧ dict_get key config = Some ty
    ∧ rejects ty value = true
    ∧ e = Database.invalid_type key ty.
Proof.
  revert acc. induction items as [| kv items IH]; intros acc H.
  - discriminate.
  - destruct (entry_converts config kv) eqn:E.
    + rewrite validate_items_step in H by assumption.
      apply IH in H as [-> | (before & key & value & after & ty & -> & Hb & Hty & Hr & ->)];
        [left; reflexivity |].
      right. exists (kv :: before), key, value, after, ty.
      simpl. rewrite E, Hb. auto.
    + destruct (validate_items_stop config kv items acc E)
        as (ty & Hty & [[Hr Hv] | Hv]); rewrite Hv in H; inversion H.
      * right. exists [], kv.1, kv.2, items, ty. destruct kv. simpl. auto.
      * left. reflexivity.
Qed.

Lemma validate_items_converts (config : dict string) (items acc out : pydict) :
  Database.validate_items config items acc = Ok out →
  forallb (entry_converts config) items = true.
Proof.
  revert acc. induction items as [| kv items IH]; intros acc H; [reflexivity |].
  simpl. destruct (entry_converts config kv) eqn:E.
  - rewrite validate_items_step in H by assumption. eauto.
  - destruct (validate_items_stop config kv items acc E)
      as (ty & Hty & [[Hr Hv] | Hv]); rewrite Hv in H; discriminate.
Qed.

Lemma coerced_lookup (config : dict string) (data : pydict) (key : string)
    (value : pyval) :
  dict_wf data →
  dict_get key data = Some value →
  dict_get key (omap (coerced_entry config) data)
  = snd <$> coerced_entry config (key, value).
Proof.
  unfold dict_wf. induction data as [| [k v] data IH]; simpl; intros Hwf Hget.
  - discriminate.
  - apply NoDup_cons in Hwf as [Hk Hwf].
    destruct (String.eqb_spec key k) as [-> | Hne].
    + inversion Hget; subst.
      destruct (coerced_entry config (k, value)) as [kv' |] eqn:E; simpl.
      * apply coerced_entry_key in E. simpl in E. destruct kv' as [k' v'].
        simpl in *. subst. rewrite String.eqb_refl. reflexivity.
      * apply dict_get_None. intros H. apply coerced_keys in H. contradiction.
    + destruct (coerced_entry config (k, v)) as [kv' |] eqn:E; simpl; [| auto].
      apply coerced_entry_key in E. simpl in E. destruct kv' as [k' v'].
      simpl in *. subst. destruct (String.eqb_spec key k); [contradiction | auto].
Qed.

Lemma coerced_entry_nil (data : pydict) : omap (coerced_entry []) data = data.
Proof.
  induction data as [| kv data IH]; [reflexivity |].
  change (kv :: omap (coerced_entry []) data = kv :: data). congruence.
Qed.

Lemma validate_ok (name : string) (data out : pydict) (c : connection)
    (config : dict string) :
  dict_wf data →
  (Database.get_table_config name c).1 = Ok (Some config) →
  Database.validate_data_with_config name data c = (Ok out, c) →
  out = omap (coerced_entry config) data.
Proof.
  intros Hwf Hcfg H. rewrite (validate_run _ _ _ _ Hcfg) in H.
  destruct config as [| kv config].
  - transitivity data; [congruence | symmetry; apply coerced_entry_nil].
  - inversion H as [H']. pose proof (validate_items_converts _ _ _ _ H') as Hall.
    rewrite validate_items_ok in H'; [| exact Hwf | exact Hall].
    simpl in H'. congruence.
Qed.

(** C3, as amended.  Validation has no rule of its own for [id] and
    [created_at]: the value of such a key, like that of any other, is kept
    unchanged when the saved config does not declare the key, is dropped
    from the result when the config declares it [auto] or [id], and is
    coerced by the declared tag otherwise. *)
Theorem validate_reserved_columns (name : string) (data out : pydict)
    (c : connection) (config : dict string) (key : string) (value : pyval) :
  Database.reserved key = true →
  dict_wf data →
  (Database.get_table_config name c).1 = Ok (Some config) →
  Database.validate_data_with_config name data c = (Ok out, c) →
  dict_get key data = Some value →
  dict_get key out = snd <$> coerced_entry config (key, value)
  ∧ (dict_get key config = None → dict_get key out = Some value)
  ∧ (dict_get key config = Some "auto" ∨ dict_get key config = Some "id" →
     dict_get key out = None).
Proof.
  intros _ Hwf Hcfg Hrun Hget.
  rewrite (validate_ok _ _ _ _ _ Hwf Hcfg Hrun).
  rewrite (coerced_lookup _ _ _ _ Hwf Hget).
  split; [reflexivity |]. unfold coerced_entry. simpl.
  split; [intros -> | intros [-> | ->]]; reflexivity.
Qed.

Lemma validate_reserved_columns_witness :
  dict_get "created_at" [("created_at", VStr "2024"); ("name", VStr "5")]
  = snd <$> coerced_entry [("name", "str"); ("age", "int")]
              ("created_at", VStr "2024")
  ∧ (dict_get "created_at" [("name", "str"); ("age", "int")] = None →
     dict_get "created_at" [("created_at", VStr "2024"); ("name", VStr "5")]
     = Some (VStr "2024"))
  ∧ (dict_get "created_at" [("name", "str"); ("age", "int")] = Some "auto"
     ∨ dict_get "created_at" [("name", "str"); ("age", "int")] = Some "id" →
     dict_get "created_at" [("created_at", VStr "2024"); ("name", VStr "5")]
     = None).
Proof.
  apply (validate_reserved_columns "users"
           [("created_at", VStr "2024"); ("name", VInt 5)]
           [("created_at", VStr "2024"); ("name", VStr "5")]
           (users_db [("name", VStr "str"); ("age", VType TyInt)])
           [("name", "str"); ("age", "int")] "created_at" (VStr "2024")).
  - run.
  - decide_it.
  - run.
  - run.
  - run.
Defined.

(** C3 as stated fails: with [id] declared [int] in the saved config, the
    text given for [id] comes back as a number. *)
Lemma validate_coerces_id :
  ∃ out,
    Database.validate_data_with_config "users" [("id", VStr "7")]
      (users_db [("id", VStr "int"); ("name", VStr "str")])
    = (Ok out, users_db [("id", VStr "int"); ("name", VStr "str")])
    ∧ dict_get "id" [("id", VStr "7")] = Some (VStr "7")
    ∧ dict_get "id" out = Some (VInt 7)
    ∧ VInt 7 ≠ VStr "7".
Proof.
  exists [("id", VInt 7)]. split; [run |]. split; [run |]. split; [run |].
  discriminate.
Qed.

(** C4, as amended.  With a saved config, validation goes through the row
    in order.  When every value declared [int] or [float] converts, it
    returns the coerced row.  It raises the error that names a column and
    its tag exactly when that column is the first whose value does not
    convert, its tag is [int] or [float], and the conversion rejects the
    value with a value error or a type error. *)
Theorem validate_numeric (name : string) (data : pydict) (c : connection)
    (config : dict string) :
  dict_wf data →
  (Database.get_table_config name c).1 = Ok (Some config) →
  (forallb (entry_converts config) data = true →
   Database.validate_data_with_config name data c
   = (Ok (omap (coerced_entry config) data), c))
  ∧ (∀ before key value after ty,
       data = before ++ (key, value) :: after →
       forallb (entry_converts config) before = true →
       dict_get key config = Some ty →
       rejects ty value = true →
       Database.validate_data_with_config name data c
       = (Raise (Database.invalid_type key ty), c))
  ∧ (∀ msg,
       Database.validate_data_with_config name data c
       = (Raise (ValueError msg), c) →
       ∃ before key value after ty,
         data = before ++ (key, value) :: after
         ∧ forallb (entry_converts config) before = true
         ∧ dict_get key config = Some ty
         ∧ rejects ty value = true
         ∧ ValueError msg = Database.invalid_type key ty).
Proof.
  intros Hwf Hcfg. rewrite (validate_run _ _ _ _ Hcfg).
  split; [| split].
  - intros Hall. destruct config as [| kv config].
    + f_equal. f_equal. symmetry. apply coerced_entry_nil.
    + f_equal. rewrite validate_items_ok; [reflexivity | exact Hwf | exact Hall].
  - intros before key value after ty -> Hall Hty Hrej.
    destruct config as [| kv config]; [discriminate |].
    f_equal. apply validate_items_first_reject; assumption.
  - intros msg H. destruct config as [| kv config]; [discriminate |].
    inversion H as [H'].
    apply validate_items_raise in H'
      as [? | (before & key & value & after & ty & ? & ? & ? & ? & ?)];
      [discriminate |].
    exists before, key, value, after, ty. auto.
Qed.

Lemma validate_numeric_witness :
  Database.validate_data_with_config "users"
    [("name", VStr "Alice"); ("age", VStr "30")]
    (users_db [("name", VStr "str"); ("age", VStr "int")])
  = (Ok [("name", VStr "Alice"); ("age", VInt 30)],
     users_db [("name", VStr "str"); ("age", VStr "int")])
  ∧ Database.validate_data_with_config "users" [("age", VStr "not-a-number")]
      (users_db [("name", VStr "str"); ("age", VStr "int")])
    = (Raise (ValueError "Invalid type for column 'age': expected int"),
       users_db [("name", VStr "str"); ("age", VStr "int")]).
Proof.
  split.
  - refine (proj1 (validate_numeric "users"
                     [("name", VStr "Alice"); ("age", VStr "30")]
                     (users_db [("name", VStr "str"); ("age", VStr "int")])
                     [("name", "str"); ("age", "int")] _ _) _).
    + decide_it.
    + run.
    + run.
  - refine (proj1 (proj2 (validate_numeric "users" [("age", VStr "not-a-number")]
                            (users_db [("name", VStr "str"); ("age", VStr "int")])
                            [("name", "str"); ("age", "int")] _ _))
              [] "age" (VStr "not-a-number") [] "int" _ _ _ _).
    + decide_it.
    + run.
    + reflexivity.
    + reflexivity.
    + run.
    + run.
Defined.

(** C4 as stated fails when two values do not parse: the error names the
    first column only, although the value of the second cannot be parsed
    either. *)
Lemma validate_names_first_column :
  py_int (VStr "y") = ConvValueError
  ∧ (Database.validate_data_with_config "users"
       [("a", VStr "x"); ("b", VStr "y")]
       (users_db [("a", VStr "int"); ("b", VStr "int")])).1
    = Raise (Database.invalid_type "a" "int")
  ∧ Database.invalid_type "a" "int" ≠ Database.invalid_type "b" "int".
Proof.
  split; [run |]. split; [run |]. vm_compute. discriminate.
Qed.

(** A value too large for a float is not rejected with the error that names
    the column: the conversion's overflow error comes out as it is. *)
Lemma validate_float_overflow :
  (Database.validate_data_with_config "users" [("x", VInt (10 ^ 400))]
     (users_db [("x", VStr "float")])).1
  = Raise OverflowError.
Proof. run. Qed.

(** ** Searching and deleting rows *)

Lemma search_filter_fold (filters : pydict) (cs : list Sql.cond)
    (ps : list string) :
  fold_left Database.search_filter filters (cs, ps)
  = (cs ++ map fst (map filter_pair (unreserved filters)),
     ps ++ concat (map snd (map filter_pair (unreserved filters)))).
Proof.
  revert cs ps. induction filters as [| [k v] filters IH]; intros cs ps.
  - simpl. rewrite !app_nil_r. reflexivity.
  - simpl. unfold unreserved. simpl. destruct (Database.reserved k); simpl.
    + apply IH.
    + unfold filter_pair at 1 3. simpl.
      destruct v as [| | | | | [| v vs] |]; rewrite IH; simpl;
        rewrite <- !app_assoc; reflexivity.
Qed.

Lemma delete_filter_fold (filters : pydict) (cs : list Sql.cond)
    (ps : list string) :
  fold_left Database.delete_filter filters (cs, ps)
  = (cs ++ map fst (map filter_pair filters),
     ps ++ concat (map snd (map filter_pair filters))).
Proof.
  revert cs ps. induction filters as [| [k v] filters IH]; intros cs ps.
  - simpl. rewrite !app_nil_r. reflexivity.
  - simpl. unfold filter_pair at 1 3. simpl.
    destruct v as [| | | | | [| v vs] |]; rewrite IH; simpl;
      rewrite <- !app_assoc; reflexivity.
Qed.

Lemma filter_pair_bound (kv : string * pyval) : bound (filter_pair kv).
Proof.
  unfold bound, filter_pair. destruct kv as [k v]. simpl.
  destruct v as [| | | | | [| v vs] |]; simpl; try reflexivity.
  rewrite length_map. reflexivity.
Qed.

Lemma index_pairs_bound (t : Sql.table) (index : option pyval) :
  Forall bound (index_pairs t index).
Proof.
  unfold index_pairs. destruct index as [i |]; [| constructor].
  destruct (List.filter _ _) as [| col cols]; constructor; [| constructor].
  unfold bound. simpl. rewrite length_map. reflexivity.
Qed.

Lemma bind_pairs (l : list (Sql.cond * list string)) :
  Forall bound l → Sql.bind (map fst l) (concat (map snd l)) = Some l.
Proof.
  induction 1 as [| [cnd ps] l Hb Hl IH]; [reflexivity |].
  unfold bound in Hb. simpl in *.
  rewrite length_app, Hb.
  replace (length ps <=? length ps + length (concat (map snd l)))%nat
    with true by (symmetry; apply Nat.leb_le; lia).
  rewrite drop_app_length, take_app_length, IH. reflexivity.
Qed.

Lemma compile_all (cols : list string) (cnd : Sql.cond) (cs : list Sql.cond)
    (ps : list string) :
  Sql.compile cols (Sql.WhereAll (cnd :: cs)) ps
  = match Sql.first_missing cols (concat (map Sql.cond_columns (cnd :: cs))) with
    | Some col => Sql.Fail (Sql.NoSuchColumn col)
    | None =>
      match Sql.bind (cnd :: cs) ps with
      | Some l => Sql.Done (Sql.keeps l)
      | None => Sql.Fail Sql.BindingCount
      end
    end.
Proof. reflexivity. Qed.

Lemma compile_pairs (cols : list string) (l : list (Sql.cond * list string)) :
  Forall bound l →
  Sql.compile cols
    (match map fst l with [] => Sql.WhereTrue | _ :: _ => Sql.WhereAll (map fst l) end)
    (concat (map snd l))
  = match Sql.first_missing cols (concat (map (fun cp => Sql.cond_columns cp.1) l)) with
    | Some col => Sql.Fail (Sql.NoSuchColumn col)
    | None => Sql.Done (if l is [] then (fun _ => true) else Sql.keeps l)
    end.
Proof.
  intros Hb. destruct l as [| cp l]; [reflexivity |].
  pose proof (bind_pairs _ Hb) as Hbind.
  change (map fst (cp :: l)) with (cp.1 :: map fst l) in *.
  cbv iota. rewrite compile_all, Hbind.
  change (cp.1 :: map fst l) with (map fst (cp :: l)).
  rewrite map_map. reflexivity.
Qed.

Lemma keeps_nil (r : Sql.row) : Sql.keeps [] r = true.
Proof. reflexivity. Qed.

(** The names a WHERE clause holds. *)
Lemma where_columns_pairs (l : list (Sql.cond * list string)) :
  Sql.where_columns
    (match map fst l with [] => Sql.WhereTrue | _ :: _ => Sql.WhereAll (map fst l) end)
  = concat (map (fun cp => Sql.cond_columns cp.1) l).
Proof.
  destruct l as [| cp l]; [reflexivity |].
  cbn [map Sql.where_columns]. rewrite map_map. reflexivity.
Qed.

Lemma index_pairs_plain (t : Sql.table) (index : option pyval) :
  plain_names (Sql.columns t) →
  plain_names (concat (map (fun cp => Sql.cond_columns cp.1) (index_pairs t index))).
Proof.
  intros H. unfold index_pairs. destruct index as [i |]; [| constructor].
  destruct (List.filter _ _) as [| col cols] eqn:E; [constructor |].
  cbn [map concat Sql.cond_columns fst]. rewrite app_nil_r, <- E.
  apply Forall_forall. intros k Hk. apply elem_of_filter_bool in Hk as [Hk _].
  revert k Hk. apply Forall_forall. exact H.
Qed.

Lemma filter_pairs_plain (filters : pydict) :
  plain_names (dict_keys filters) →
  plain_names (concat (map (fun cp => Sql.cond_columns cp.1) (map filter_pair filters))).
Proof.
  induction filters as [| [k v] filters IH]; intros H; [constructor |].
  apply plain_names_cons in H as [Hk H].
  cbn [map concat]. apply plain_names_app. split; [| exact (IH H)].
  unfold filter_pair. cbn [fst snd].
  destruct v as [| | | | | [| v vs] |]; repeat constructor; exact Hk.
Qed.

Lemma unreserved_plain (filters : pydict) :
  plain_names (dict_keys filters) → plain_names (dict_keys (unreserved filters)).
Proof.
  intros H. apply Forall_forall. intros k Hk.
  unfold dict_keys, unreserved in Hk.
  apply list_elem_of_fmap in Hk as (kv & -> & Hkv).
  apply elem_of_filter_bool in Hkv as [Hkv _].
  apply (proj1 (Forall_forall _ _) H). apply list_elem_of_fmap. exists kv. auto.
Qed.

Lemma where_plain (t : Sql.table) (index : option pyval) (filters : pydict) :
  plain_names (Sql.columns t ++ dict_keys filters) →
  plain_names
    (concat (map (fun cp => Sql.cond_columns cp.1)
               (index_pairs t index ++ map filter_pair (unreserved filters)))).
Proof.
  intros H. apply plain_names_app in H as [Ht Hf].
  rewrite map_app, concat_app. apply plain_names_app. split.
  - apply index_pairs_plain, Ht.
  - apply filter_pairs_plain, unreserved_plain, Hf.
Qed.

Lemma search_run (name : string) (index : option pyval) (filters : pydict)
    (c : connection) (t : Sql.table) :
  live c !! name = Some t →
  Sql.plain name = true →
  plain_names
    (concat (map (fun cp => Sql.cond_columns cp.1)
               (index_pairs t index ++ map filter_pair (unreserved filters)))) →
  Database.search name index filters c
  = (select_where t (index_pairs t index ++ map filter_pair (unreserved filters)), c).
Proof.
  intros Ht Hname Hplain. unfold Database.search.
  rewrite (run_bind_ok _ _ _ _ _ (table_exists_run name c)).
  unfold has_table. rewrite Ht. simpl.
  assert (Hacc :
    (match index with
     | Some i =>
       columns ← Database.get_table_columns name;
       let non_standard_columns :=
         List.filter (fun col => negb (Database.reserved col)) columns in
       match non_standard_columns with
       | [] => mret ([], [])
       | _ :: _ =>
         mret ([Sql.AnyP non_standard_columns],
               map (fun _ => py_str i) non_standard_columns)
       end
     | None => mret ([], [])
     end : M connection (list Sql.cond * list string)) c
    = (Ok (map fst (index_pairs t index), concat (map snd (index_pairs t index))), c)).
  { unfold index_pairs. destruct index as [i |]; [| reflexivity].
    rewrite (run_bind_ok _ _ _ _ _ (get_table_columns_run name c t Ht Hname)).
    destruct (List.filter _ _) as [| col cols]; [reflexivity |].
    simpl. rewrite app_nil_r. reflexivity. }
  rewrite (run_bind_ok _ _ _ _ _ Hacc).
  rewrite search_filter_fold.
  rewrite <- !map_app, <- concat_app, <- map_app.
  set (l := index_pairs t index ++ map filter_pair (unreserved filters)) in *.
  assert (Hb : Forall bound l).
  { apply Forall_app. split; [apply index_pairs_bound |].
    apply Forall_forall. intros cp Hcp. apply list_elem_of_fmap in Hcp as (kv & -> & _).
    apply filter_pair_bound. }
  rewrite run_bind. unfold execute. cbn [Sql.exec].
  rewrite (plain_closed name Hname), where_columns_pairs,
    (plain_names_closed _ Hplain). cbn [orb]. rewrite Ht.
  rewrite (compile_pairs _ _ Hb). unfold select_where.
  destruct (Sql.first_missing _ _); [reflexivity |].
  simpl. rewrite run_ret. unfold fetchall. simpl.
  destruct l; reflexivity.
Qed.

Lemma search_run_plain (name : string) (index : option pyval) (filters : pydict)
    (c : connection) (t : Sql.table) :
  live c !! name = Some t →
  plain_names (name :: Sql.columns t ++ dict_keys filters) →
  Database.search name index filters c
  = (select_where t (index_pairs t index ++ map filter_pair (unreserved filters)), c).
Proof.
  intros Ht H. apply plain_names_cons in H as [Hname H].
  apply (search_run name index filters c t Ht Hname), where_plain, H.
Qed.

Lemma delete_run (name : string) (filters : pydict) (c : connection)
    (t : Sql.table) :
  live c !! name = Some t →
  plain_names (name :: dict_keys filters) →
  filters ≠ [] →
  Database.delete_data name filters c
  = match Sql.first_missing (Sql.columns t)
            (concat (map (fun cp => Sql.cond_columns cp.1) (map filter_pair filters))) with
    | Some col => (Raise (DatabaseError (Sql.NoSuchColumn col)), c)
    | None =>
      let keep := Sql.keeps (map filter_pair filters) in
      let db := <[name := Sql.Table (Sql.defs t)
                            (List.filter (fun r => negb (keep r)) (Sql.rows t))]>
                  (live c) in
      (Ok (Z.of_nat (length (List.filter keep (Sql.rows t)))),
       Connection db db false)
    end.
Proof.
  intros Ht Hplain Hne. unfold Database.delete_data.
  apply plain_names_cons in Hplain as [Hname Hplain].
  apply filter_pairs_plain in Hplain.
  rewrite (run_bind_ok _ _ _ _ _ (table_exists_run name c)).
  unfold has_table. rewrite Ht. simpl.
  destruct filters as [| kv filters]; [contradiction |].
  rewrite delete_filter_fold. simpl app.
  set (l := map filter_pair (kv :: filters)) in *.
  assert (Hb : Forall bound l).
  { apply Forall_forall. intros cp Hcp.
    apply list_elem_of_fmap in Hcp as (kv' & -> & _). apply filter_pair_bound. }
  pose proof (compile_pairs (Sql.columns t) l Hb) as Hc.
  change (map fst l) with ((filter_pair kv).1 :: map fst (map filter_pair filters)) in Hc.
  cbv iota in Hc.
  change ((filter_pair kv).1 :: map fst (map filter_pair filters)) with (map fst l) in Hc.
  rewrite run_bind. unfold execute. cbn [Sql.exec Sql.where_columns].
  change (fold_left Database.delete_filter _ _) with l.
  rewrite (plain_closed name Hname). cbn [orb].
  change ((filter_pair kv).1 :: map fst (map filter_pair filters)) with (map fst l).
  change ((filter_pair kv).2 ++ concat (map snd (map filter_pair filters)))
    with (concat (map snd l)).
  rewrite map_map, (plain_names_closed _ Hplain), Ht, Hc.
  destruct (Sql.first_missing _ _); reflexivity.
Qed.

Lemma and3_true (a b : option bool) :
  Sql.and3 a b = Some true ↔ a = Some true ∧ b = Some true.
Proof. destruct a as [[|] |], b as [[|] |]; simpl; split; intros; intuition congruence. Qed.

Lemma keeps_cons (cp : Sql.cond * list string) (l : list (Sql.cond * list string))
    (r : Sql.row) :
  Sql.keeps (cp :: l) r = holds r cp && Sql.keeps l r.
Proof.
  unfold Sql.keeps, holds. simpl.
  destruct (Sql.eval_cond r cp.1 cp.2) as [[|] |],
           (Sql.eval_all r l) as [[|] |]; reflexivity.
Qed.

Lemma keeps_app (l1 l2 : list (Sql.cond * list string)) (r : Sql.row) :
  Sql.keeps (l1 ++ l2) r = Sql.keeps l1 r && Sql.keeps l2 r.
Proof.
  induction l1 as [| cp l1 IH]; [reflexivity |].
  rewrite <- app_comm_cons, !keeps_cons, IH, andb_assoc. reflexivity.
Qed.

Lemma first_missing_app (cols xs ys : list string) :
  Sql.first_missing cols (xs ++ ys)
  = match Sql.first_missing cols xs with
    | Some col => Some col
    | None => Sql.first_missing cols ys
    end.
Proof.
  induction xs as [| x xs IH]; [reflexivity |].
  simpl. destruct (Sql.mem x cols); [apply IH | reflexivity].
Qed.

Lemma star_lookup (t : Sql.table) (r : Sql.row) (key : string) :
  key ∈ Sql.columns t → dict_get key (Sql.star t r) = Some (r !! key).
Proof.
  unfold Sql.star. induction (Sql.columns t) as [| col cols IH]; intros H.
  - inversion H.
  - simpl. destruct (String.eqb_spec key col) as [-> | Hne]; [reflexivity |].
    apply IH. apply elem_of_cons in H as [? | ?]; [contradiction | assumption].
Qed.

Lemma filter_and {A} (f g : A → bool) (l : list A) :
  List.filter (fun x => f x && g x) l = List.filter g (List.filter f l).
Proof.
  induction l as [| x l IH]; [reflexivity |].
  simpl. destruct (f x); simpl; [destruct (g x) |]; rewrite IH; reflexivity.
Qed.

Lemma filter_map_swap {A B} (f : A → B) (g : B → bool) (l : list A) :
  List.filter g (map f l) = map f (List.filter (fun x => g (f x)) l).
Proof.
  induction l as [| x l IH]; [reflexivity |].
  simpl. destruct (g (f x)); simpl; rewrite IH; reflexivity.
Qed.

Lemma unreserved_app (xs ys : pydict) :
  unreserved (xs ++ ys) = unreserved xs ++ unreserved ys.
Proof. apply List.filter_app. Qed.

(** On a fetched row, the test of the conjunct [[key] = 'text']. *)
Lemma holds_eq_star (t : Sql.table) (r : Sql.row) (key text : string) :
  key ∈ Sql.columns t →
  holds r (Sql.EqP key, [text]) = cell_is key text (Sql.star t r).
Proof.
  intros H. unfold holds, cell_is. rewrite (star_lookup _ _ _ H). simpl.
  unfold Sql.eq3. destruct (r !! key) as [x |]; [| reflexivity].
  destruct (String.eqb x text); reflexivity.
Qed.

Lemma unreserved_insert (before after : pydict) (kv : string * pyval) :
  unreserved (before ++ kv :: after)
  = unreserved before
    ++ (if Database.reserved kv.1 then [] else [kv]) ++ unreserved after.
Proof.
  unfold unreserved. rewrite List.filter_app. simpl.
  destruct (Database.reserved kv.1); reflexivity.
Qed.

(** One more conjunct in a query that runs. *)
Lemma select_where_insert (t : Sql.table) (l1 l2 : list (Sql.cond * list string))
    (cp : Sql.cond * list string) (found : list (dict (option string))) :
  select_where t (l1 ++ l2) = Ok found →
  select_where t (l1 ++ cp :: l2)
  = match Sql.first_missing (Sql.columns t) (Sql.cond_columns cp.1) with
    | Some col => Raise (DatabaseError (Sql.NoSuchColumn col))
    | None =>
      Ok (map (Sql.star t)
            (List.filter (fun r => holds r cp)
               (List.filter (Sql.keeps (l1 ++ l2)) (Sql.rows t))))
    end.
Proof.
  unfold select_where.
  rewrite !map_app, !concat_app, !first_missing_app. simpl.
  rewrite first_missing_app.
  destruct (Sql.first_missing _ (concat (map _ l1))); [discriminate |].
  destruct (Sql.first_missing _ (concat (map _ l2))); [discriminate |].
  intros _. destruct (Sql.first_missing _ (Sql.cond_columns cp.1)); [reflexivity |].
  do 2 f_equal. rewrite <- filter_and. apply filter_ext. intros r.
  rewrite !keeps_app, keeps_cons.
  destruct (Sql.keeps l1 r), (Sql.keeps l2 r), (holds r cp); reflexivity.
Qed.

Lemma select_where_found (t : Sql.table) (l : list (Sql.cond * list string))
    (found : list (dict (option string))) :
  select_where t l = Ok found →
  found = map (Sql.star t) (List.filter (Sql.keeps l) (Sql.rows t)).
Proof.
  unfold select_where. destruct (Sql.first_missing _ _); [discriminate |].
  congruence.
Qed.

(** C1, as amended.  In [search], a filter entry whose value is the empty
    list is skipped only when its key is [id] or [created_at].  Under any
    other key it is not skipped but treated as a scalar, a condition on the
    column of that name: the search returns rows of the search without the
    entry, in their order, and none whose cell is NULL or holds another
    text than that of the empty list (it returns those whose cell holds
    that text); it fails with the engine's error for a missing column when
    the table has no such column.  The names of the table, of its columns
    and of the filters are plain names. *)
Theorem search_empty_list_filter (name : string) (index : option pyval)
    (before after : pydict) (key : string) (c : connection) (t : Sql.table)
    (found : list (dict (option string))) :
  live c !! name = Some t →
  plain_names (name :: key :: Sql.columns t ++ dict_keys (before ++ after)) →
  Database.search name index (before ++ after) c = (Ok found, c) →
  (Database.reserved key = true →
   Database.search name index (before ++ (key, VList []) :: after) c
   = (Ok found, c))
  ∧ (Database.reserved key = false → key ∈ Sql.columns t →
     Database.search name index (before ++ (key, VList []) :: after) c
     = (Ok (List.filter (cell_is key "[]") found), c))
  ∧ (Database.reserved key = false → key ∉ Sql.columns t →
     Database.search name index (before ++ (key, VList []) :: after) c
     = (Raise (DatabaseError (Sql.NoSuchColumn key)), c)).
Proof.
  intros Ht Hnames Hbase.
  apply plain_names_cons in Hnames as [Hname Hnames].
  apply plain_names_cons in Hnames as [Hkey Hnames].
  assert (Hwith : plain_names
                    (Sql.columns t ++ dict_keys (before ++ (key, VList []) :: after))).
  { apply plain_names_app in Hnames as [Hcols Hkeys].
    apply plain_names_app. split; [assumption |].
    unfold dict_keys in *. rewrite map_app in *.
    apply plain_names_app in Hkeys as [Hb Ha].
    apply plain_names_app. split; [assumption |]. constructor; assumption. }
  rewrite (search_run name index (before ++ after) c t Ht Hname
             (where_plain _ _ _ Hnames)) in Hbase.
  rewrite (search_run name index (before ++ (key, VList []) :: after) c t Ht Hname
             (where_plain _ _ _ Hwith)).
  rewrite unreserved_app, map_app, app_assoc in Hbase.
  rewrite unreserved_insert, !map_app, app_assoc. simpl fst.
  inversion Hbase as [Hsel].
  split; [| split]; intros Hr; rewrite Hr.
  - reflexivity.
  - intros Hcol. simpl.
    rewrite (select_where_insert _ _ _ _ _ Hsel). simpl.
    apply mem_true in Hcol as Hmem. rewrite Hmem.
    rewrite (select_where_found _ _ _ Hsel), filter_map_swap.
    do 3 f_equal. apply filter_ext. intros r.
    apply (holds_eq_star t r key "[]" Hcol).
  - intros Hcol. simpl.
    rewrite (select_where_insert _ _ _ _ _ Hsel). simpl.
    apply mem_false in Hcol. rewrite Hcol. reflexivity.
Qed.

Lemma search_empty_list_filter_witness :
  Database.search "users" None [("age", VList []); ("name", VStr "Alice")] people_db
  = (Ok (List.filter (cell_is "age" "[]")
           (map (Sql.star (table_of people_db "users"))
              (List.filter
                 (Sql.keeps [(Sql.EqP "name", ["Alice"])])
                 (Sql.rows (table_of people_db "users"))))),
     people_db).
Proof.
  refine (proj1 (proj2 (search_empty_list_filter "users" None []
                          [("name", VStr "Alice")] "age" people_db
                          (table_of people_db "users") _ _ _ _)) _ _).
  - run.
  - decide_it.
  - run.
  - run.
  - decide_it.
Defined.

(** C1 as stated fails: on the table with the rows of Alice and Bob, the
    search without filters returns both, the search with [name] mapped to
    the empty list returns none. *)
Lemma search_empty_list_not_skipped :
  ∃ found,
    Database.search "users" None [] people_db = (Ok found, people_db)
    ∧ length found = 2%nat
    ∧ Database.search "users" None [("name", VList [])] people_db
      = (Ok [], people_db).
Proof.
  exists (returned [] (Database.search "users" None [] people_db).1).
  match goal with |- ?A ∧ _ => assert (H : A) by run end.
  split; [exact H |]. rewrite H. split; run.
Qed.

Lemma in3_some (x : string) (ps : list string) :
  fold_right (fun p acc => Sql.or3 (Sql.eq3 (Some x) p) acc) (Some false) ps
  = Some (existsb (String.eqb x) ps).
Proof.
  induction ps as [| p ps IH]; [reflexivity |].
  cbn [fold_right existsb]. rewrite IH. simpl.
  destruct (String.eqb x p), (existsb _ ps); reflexivity.
Qed.

Lemma in3_none (ps : list string) :
  fold_right (fun p acc => Sql.or3 (Sql.eq3 None p) acc) (Some false) ps
  ≠ Some true.
Proof.
  induction ps as [| p ps IH]; [discriminate |].
  cbn [fold_right]. destruct (fold_right _ _ ps) as [[|] |]; simpl; congruence.
Qed.

(** In a filter, a non-empty list is a membership test and anything else an
    equality test, both on the text of the values; a NULL cell passes
    neither. *)
Lemma holds_filter_pair (r : Sql.row) (key : string) (value : pyval) :
  holds r (filter_pair (key, value))
  = match r !! key with
    | Some x => existsb (String.eqb x) (filter_texts value)
    | None => false
    end.
Proof.
  assert (Heq : ∀ p,
    match Sql.eq3 (r !! key) p with Some true => true | _ => false end
    = match r !! key with
      | Some x => existsb (String.eqb x) [p]
      | None => false
      end).
  { intros p. destruct (r !! key) as [x |]; [| reflexivity].
    simpl. rewrite orb_false_r. destruct (String.eqb x p); reflexivity. }
  unfold holds, filter_pair, filter_texts. cbn [fst snd].
  destruct value as [| | | | | [| v vs] |]; try apply Heq.
  cbn [fst snd Sql.eval_cond].
  destruct (r !! key) as [x |].
  - rewrite in3_some. destruct (existsb _ _); reflexivity.
  - pose proof (in3_none (map py_str (v :: vs))) as H.
    destruct (fold_right _ _ _) as [[|] |]; congruence.
Qed.

Lemma unreserved_all (filters : pydict) :
  Forall (fun kv => Database.reserved kv.1 = false) filters →
  unreserved filters = filters.
Proof.
  induction 1 as [| kv filters Hkv _ IH]; [reflexivity |].
  unfold unreserved in *. simpl. rewrite Hkv, IH. reflexivity.
Qed.

Lemma search_keywords_filters (name : string) (filters : pydict) :
  "index" ∉ dict_keys filters →
  Database.search_keywords name filters = Database.search name None filters.
Proof.
  intros H. unfold Database.search_keywords.
  assert (Hget : dict_get "index" filters = None
                 ∧ List.filter (fun kv => negb (String.eqb kv.1 "index")) filters
                   = filters).
  { induction filters as [| [k v] filters IH]; [split; reflexivity |].
    cbn [dict_keys map fst] in H. apply not_elem_of_cons in H as [Hk H].
    destruct (IH H) as [IH1 IH2]. cbn [dict_get List.filter fst].
    rewrite (String.eqb_sym k "index").
    destruct (String.eqb_spec "index" k) as [E | _]; [congruence |].
    cbn [negb]. rewrite IH1, IH2. split; reflexivity. }
  destruct Hget as [-> ->]. reflexivity.
Qed.

(** C2, as amended.  [delete_data] makes one conjunct of every filter entry,
    those keyed [id] or [created_at] included (equality for a scalar,
    membership for a non-empty list, all joined by AND).  When no filter is
    keyed [id], [created_at] or [index], its conjuncts are those of
    [search] called with the same keywords: the rows it removes are the
    rows [search] returns, the others stay in their order, the count is the
    number of rows found, and it fails when [search] fails.  The names of
    the table, of its columns and of the filters are plain names. *)
Theorem delete_matches_search (name : string) (filters : pydict)
    (c : connection) (t : Sql.table) :
  live c !! name = Some t →
  plain_names (name :: Sql.columns t ++ dict_keys filters) →
  filters ≠ [] →
  Database.delete_data name filters c
  = match select_where t (map filter_pair filters) with
    | Ok found =>
      let db := <[name := Sql.Table (Sql.defs t)
                            (List.filter
                               (fun r => negb (Sql.keeps (map filter_pair filters) r))
                               (Sql.rows t))]> (live c) in
      (Ok (Z.of_nat (length found)), Connection db db false)
    | Raise e => (Raise e, c)
    end
  ∧ (Forall (fun kv => Database.reserved kv.1 = false) filters →
     "index" ∉ dict_keys filters →
     (∀ found,
        Database.search_keywords name filters c = (Ok found, c) →
        found = map (Sql.star t)
                  (List.filter (Sql.keeps (map filter_pair filters)) (Sql.rows t))
        ∧ ∃ c',
            Database.delete_data name filters c = (Ok (Z.of_nat (length found)), c')
            ∧ live c'
              = <[name := Sql.Table (Sql.defs t)
                            (List.filter
                               (fun r => negb (Sql.keeps (map filter_pair filters) r))
                               (Sql.rows t))]> (live c)
            ∧ durable c' = live c')
     ∧ (∀ e,
          Database.search_keywords name filters c = (Raise e, c) →
          Database.delete_data name filters c = (Raise e, c))).
Proof.
  intros Ht Hnames Hne.
  apply plain_names_cons in Hnames as [Hname Hnames].
  assert (Hkeys : plain_names (name :: dict_keys filters)).
  { apply plain_names_app in Hnames as [_ Hkeys]. constructor; assumption. }
  rewrite (delete_run name filters c t Ht Hkeys Hne). split.
  - unfold select_where. destruct (Sql.first_missing _ _) as [col |];
      [reflexivity |].
    rewrite length_map. reflexivity.
  - intros Hall Hindex. rewrite (search_keywords_filters name filters Hindex).
    rewrite (search_run name None filters c t Ht Hname (where_plain _ _ _ Hnames)).
    rewrite (unreserved_all _ Hall). simpl. unfold select_where.
    destruct (Sql.first_missing _ _) as [col |].
    + split; [discriminate | intros e [= <-]; reflexivity].
    + split; [| discriminate].
      intros found [= <-]. split; [reflexivity |].
      eexists. split.
      { rewrite length_map. reflexivity. }
      split; reflexivity.
Qed.

Lemma delete_matches_search_witness :
  Database.delete_data "users" [("name", VStr "Bob")] people_db
  = match select_where (table_of people_db "users")
            (map filter_pair [("name", VStr "Bob")]) with
    | Ok found =>
      let db := <["users" := Sql.Table (Sql.defs (table_of people_db "users"))
                            (List.filter
                               (fun r => negb (Sql.keeps
                                                 (map filter_pair [("name", VStr "Bob")]) r))
                               (Sql.rows (table_of people_db "users")))]>
                  (live people_db) in
      (Ok (Z.of_nat (length found)), Connection db db false)
    | Raise e => (Raise e, people_db)
    end
  ∧ (∀ found,
       Database.search_keywords "users" [("name", VStr "Bob")] people_db
       = (Ok found, people_db) →
       found = map (Sql.star (table_of people_db "users"))
                 (List.filter (Sql.keeps (map filter_pair [("name", VStr "Bob")]))
                    (Sql.rows (table_of people_db "users")))
       ∧ ∃ c',
           Database.delete_data "users" [("name", VStr "Bob")] people_db
           = (Ok (Z.of_nat (length found)), c')
           ∧ live c'
             = <["users" := Sql.Table (Sql.defs (table_of people_db "users"))
                           (List.filter
                              (fun r => negb (Sql.keeps
                                                (map filter_pair [("name", VStr "Bob")]) r))
                              (Sql.rows (table_of people_db "users")))]> (live people_db)
           ∧ durable c' = live c')
  ∧ (∀ e,
       Database.search_keywords "users" [("name", VStr "Bob")] people_db
       = (Raise e, people_db) →
       Database.delete_data "users" [("name", VStr "Bob")] people_db
       = (Raise e, people_db)).
Proof.
  destruct (delete_matches_search "users" [("name", VStr "Bob")] people_db
              (table_of people_db "users")) as [Hdelete Hsearch].
  - run.
  - decide_it.
  - discriminate.
  - split; [exact Hdelete | apply Hsearch; [repeat constructor | decide_it]].
Defined.

(** Under a key that holds a closing bracket the search fails with the
    error of a statement the engine cannot read, not that of a missing
    column, and it fails also when the table has a column of that name. *)
Lemma search_bracket_key :
  Database.search "users" None [("age]", VList [])] people_db
  = (Raise (DatabaseError Sql.SyntaxError), people_db)
  ∧ "done]" ∈ Sql.columns (table_of foreign_db "notes")
  ∧ Database.search "notes" None [("done]", VList [])] foreign_db
    = (Raise (DatabaseError Sql.SyntaxError), foreign_db).
Proof. split; [run |]. split; [decide_it | run]. Qed.

(** C2 as stated fails: [delete_data] does not leave out a filter keyed
    [id].  On the table with the rows of Alice and Bob, [search] with the
    filter [id] = Alice's id returns both rows, [delete_data] with the same
    filter removes one. *)
Lemma delete_applies_id_filter :
  ∃ found c',
    Database.search "users" None [("id", VStr (uuid4 1))] people_db
    = (Ok found, people_db)
    ∧ length found = 2%nat
    ∧ Database.delete_data "users" [("id", VStr (uuid4 1))] people_db = (Ok 1, c').
Proof.
  exists (returned [] (Database.search "users" None [("id", VStr (uuid4 1))] people_db).1),
         (Database.delete_data "users" [("id", VStr (uuid4 1))] people_db).2.
  match goal with |- ?A ∧ _ => assert (H : A) by run end.
  split; [exact H |]. rewrite H. split; run.
Qed.

(** Nor do [delete_data] and [search] take the same rows for the same
    keywords when one of them is [index], which [search] takes for its
    index value: on the table with the columns [name] and [index] and the
    one row named x, [delete_data] with [index] = x removes no row, and
    [search] with the same keyword returns the row. *)
Lemma delete_index_keyword :
  ∃ c' row,
    Database.delete_data "users" [("index", VStr "x")] index_db = (Ok 0, c')
    ∧ Database.search_keywords "users" [("index", VStr "x")] index_db
      = (Ok [row], index_db)
    ∧ dict_get "name" row = Some (Some "x")
    ∧ dict_get "index" row = Some None.
Proof.
  exists (Database.delete_data "users" [("index", VStr "x")] index_db).2,
         (default [] (head (returned []
            (Database.search_keywords "users" [("index", VStr "x")] index_db).1))).
  split; [run |]. split; [run |]. split; run.
Qed.

(** A filter whose key holds a closing bracket makes no conjunct: the
    engine cannot read the statement, whatever the columns of the table. *)
Lemma delete_bracket_key :
  Database.delete_data "users" [("name]", VStr "Bob")] people_db
  = (Raise (DatabaseError Sql.SyntaxError), people_db)
  ∧ "done]" ∈ Sql.columns (table_of foreign_db "notes")
  ∧ Database.delete_data "notes" [("done]", VStr "yes")] foreign_db
    = (Raise (DatabaseError Sql.SyntaxError), foreign_db).
Proof. split; [run |]. split; [decide_it | run]. Qed.

(** ** Adding columns *)

Lemma extend_nil (t : Sql.table) : extend t [] = t.
Proof. destruct t. unfold extend. simpl. rewrite app_nil_r. reflexivity. Qed.

Lemma extend_extend (t : Sql.table) (xs ys : list string) :
  extend (extend t xs) ys = extend t (xs ++ ys).
Proof. unfold extend. simpl. rewrite map_app, app_assoc. reflexivity. Qed.

Lemma columns_extend (t : Sql.table) (xs : list string) :
  Sql.columns (extend t xs) = Sql.columns t ++ xs.
Proof. unfold Sql.columns, extend. simpl. rewrite map_app, cname_text_columns. reflexivity. Qed.

(** The loop of [add_columns_if_needed]: [existing] is the set of columns
    read before the loop, [t] the table as the loop has left it so far. *)
Lemma add_columns_loop (name : string) (existing columns : list string) :
  Sql.plain name = true →
  NoDup columns →
  plain_names columns →
  ∀ (c : connection) (t : Sql.table),
    live c !! name = Some t →
    plain_names (Sql.columns t) →
    (∀ col, col ∈ columns → col ∈ Sql.columns t → col ∈ existing) →
    ∃ c',
      for_each columns (fun column =>
        when (negb (Sql.mem column existing) && negb (Database.reserved column))
          (execute (Sql.AddColumn name column) [];; mret tt)) c
      = (Ok tt, c')
      ∧ live c' = <[name := extend t (added existing columns)]> (live c).
Proof.
  intros Hname.
  induction 1 as [| col columns Hcol Hnd IH]; intros Hplain c t Ht Hcols Hex.
  - exists c. split; [reflexivity |].
    unfold added. simpl. rewrite extend_nil. symmetry. apply insert_id, Ht.
  - apply plain_names_cons in Hplain as [Hcolumn Hplain].
    cbn [for_each]. unfold added. cbn [List.filter].
    destruct (negb (Sql.mem col existing) && negb (Database.reserved col)) eqn:E.
    + apply andb_prop in E as [E _]. apply negb_true_iff, mem_false in E.
      assert (Hfresh : Sql.mem col (Sql.columns t) = false).
      { apply mem_false. intros H. apply E, Hex; [left | assumption]. }
      set (t1 := extend t [col]).
      set (c1 := Connection (<[name := t1]> (live c))
                   (if in_txn c then durable c else <[name := t1]> (live c))
                   (in_txn c)).
      assert (Hstep :
        when true (execute (Sql.AddColumn name col) [];; mret tt) c = (Ok tt, c1)).
      { unfold when. rewrite run_bind. unfold execute. cbn [Sql.exec].
        rewrite (plain_closed name Hname), Ht, (plain_closed col Hcolumn),
          (taken_plain col _ Hcolumn Hcols), Hfresh.
        reflexivity. }
      rewrite (run_bind_ok _ _ _ _ _ Hstep).
      destruct (IH Hplain c1 t1) as (c' & Hrun & Hlive).
      * simpl. apply lookup_insert_eq.
      * unfold t1. rewrite columns_extend. apply plain_names_app.
        split; [assumption | constructor; [assumption | constructor]].
      * intros col' Hin Hcols'. unfold t1 in Hcols'.
        rewrite columns_extend in Hcols'. apply elem_of_app in Hcols' as [H | H].
        -- apply Hex; [right |]; assumption.
        -- apply list_elem_of_singleton in H. subst. contradiction.
      * exists c'. split; [exact Hrun |].
        rewrite Hlive. simpl. rewrite insert_insert_eq.
        unfold t1. rewrite extend_extend. reflexivity.
    + assert (Hstep :
        when false (execute (Sql.AddColumn name col) [];; mret tt) c = (Ok tt, c))
        by reflexivity.
      rewrite (run_bind_ok _ _ _ _ _ Hstep).
      apply IH; [assumption | assumption | assumption |].
      intros col' Hin. apply Hex. right. assumption.
Qed.

Lemma add_columns_run (name : string) (columns : list string) (c : connection)
    (t : Sql.table) :
  live c !! name = Some t →
  plain_names (name :: Sql.columns t ++ columns) →
  NoDup columns →
  Database.add_columns_if_needed name columns c
  = (Ok tt,
     Connection (<[name := extend t (added (Sql.columns t) columns)]> (live c))
       (<[name := extend t (added (Sql.columns t) columns)]> (live c)) false).
Proof.
  intros Ht Hplain Hnd. unfold Database.add_columns_if_needed.
  apply plain_names_cons in Hplain as [Hname Hplain].
  apply plain_names_app in Hplain as [Hcols Hplain].
  rewrite (run_bind_ok _ _ _ _ _ (get_table_columns_run name c t Ht Hname)).
  destruct (add_columns_loop name (Sql.columns t) columns Hname Hnd Hplain c t Ht Hcols)
    as (c' & Hrun & Hlive); [auto |].
  rewrite (run_bind_ok _ _ _ _ _ Hrun), commit_run, Hlive. reflexivity.
Qed.

(** ** Dictionaries *)

Lemma dict_get_set {V} (k k' : string) (v : V) (d : dict V) :
  dict_get k (dict_set k' v d)
  = if String.eqb k k' then Some v else dict_get k d.
Proof.
  induction d as [| [k0 v0] d IH]; simpl.
  - destruct (String.eqb k k'); reflexivity.
  - destruct (String.eqb_spec k' k0) as [-> | Hne]; simpl.
    + destruct (String.eqb k k0); reflexivity.
    + rewrite IH. destruct (String.eqb_spec k k0) as [-> | Hne'].
      * destruct (String.eqb_spec k0 k'); [congruence | reflexivity].
      * reflexivity.
Qed.

Lemma dict_keys_set {V} (k : string) (v : V) (d : dict V) :
  dict_keys (dict_set k v d)
  = if dict_mem k d then dict_keys d else dict_keys d ++ [k].
Proof.
  unfold dict_mem, dict_keys. induction d as [| [k0 v0] d IH]; simpl; [reflexivity |].
  destruct (String.eqb_spec k k0) as [-> | Hne]; simpl; [reflexivity |].
  rewrite IH. destruct (dict_get k d); reflexivity.
Qed.

Lemma dict_mem_keys {V} (k : string) (d : dict V) :
  dict_mem k d = true ↔ k ∈ dict_keys d.
Proof.
  unfold dict_mem. pose proof (dict_get_None k d) as H.
  destruct (dict_get k d); split; intros; try congruence.
  - destruct (decide (k ∈ dict_keys d)) as [? | Hn]; [assumption |].
    apply H in Hn. discriminate.
  - exfalso. apply (proj1 H); auto.
Qed.

Lemma dict_wf_set {V} (k : string) (v : V) (d : dict V) :
  dict_wf d → dict_wf (dict_set k v d).
Proof.
  unfold dict_wf. fold (dict_keys d). fold (dict_keys (dict_set k v d)).
  rewrite dict_keys_set. intros Hwf.
  destruct (dict_mem k d) eqn:E; [assumption |].
  apply NoDup_app. split; [assumption |]. split; [| apply NoDup_singleton].
  intros x Hx Hx'. apply list_elem_of_singleton in Hx'. subst.
  apply dict_mem_keys in Hx. congruence.
Qed.

Lemma dict_values (d : pydict) :
  dict_wf d →
  omap (fun col => py_str <$> dict_get col d) (dict_keys d)
  = map (fun kv => py_str kv.2) d.
Proof.
  unfold dict_wf, dict_keys.
  assert (H : ∀ d0 : pydict,
    (∀ kv, kv ∈ d → dict_get kv.1 d0 = Some kv.2) →
    omap (fun col => py_str <$> dict_get col d0) (map fst d)
    = map (fun kv => py_str kv.2) d).
  { induction d as [| kv d IH]; intros d0 H0; [reflexivity |].
    cbn [map omap list_omap]. rewrite H0 by left. cbn [fmap option_fmap option_map].
    f_equal. apply IH. intros kv' Hkv'. apply H0. right. assumption. }
  intros Hwf. apply H. intros [k v] Hkv. apply dict_get_Some_wf; assumption.
Qed.

Lemma stored_row_lookup (d : pydict) (k : string) :
  stored_row d !! k = py_str <$> dict_get k d.
Proof.
  unfold stored_row, dict_keys. induction d as [| [k0 v0] d IH]; [reflexivity |].
  cbn [map zip zip_with list_to_map foldr fst snd dict_get].
  rewrite lookup_insert. destruct (decide (k0 = k)) as [-> | Hne].
  - rewrite String.eqb_refl. reflexivity.
  - destruct (String.eqb_spec k k0); [congruence | apply IH].
Qed.

Lemma with_id_wf (gen : bool) (rnd : Z) (d : pydict) :
  dict_wf d → dict_wf (with_id gen rnd d).
Proof. unfold with_id. destruct gen; [apply dict_wf_set | auto]. Qed.

Lemma with_created_at_wf (now : datetime) (d : pydict) :
  dict_wf d → dict_wf (with_created_at now d).
Proof.
  unfold with_created_at. destruct (dict_mem "created_at" d);
    [auto | apply dict_wf_set].
Qed.

Lemma with_created_at_mem (now : datetime) (d : pydict) :
  "created_at" ∈ dict_keys (with_created_at now d).
Proof.
  unfold with_created_at. destruct (dict_mem "created_at" d) eqn:E.
  - apply dict_mem_keys. assumption.
  - rewrite dict_keys_set, E. apply elem_of_app. right. left.
Qed.

(** ** Inserting a row *)

Lemma on_conn_run {A} (m : M connection A) (d : pydict) (c c' : connection)
    (r : res A) :
  m c = (r, c') →
  Database.on_conn m (Database.Caller d c) = (r, Database.Caller d c').
Proof. intros H. unfold Database.on_conn. simpl. rewrite H. reflexivity. Qed.

Lemma first_missing_none (cols cs : list string) :
  (∀ k, k ∈ cs → k ∈ cols) → Sql.first_missing cols cs = None.
Proof.
  induction cs as [| k cs IH]; intros H; [reflexivity |].
  simpl. replace (Sql.mem k cols) with true.
  - apply IH. intros k' Hk'. apply H. right. assumption.
  - symmetry. apply mem_true, H. left.
Qed.

Lemma find_none_all {A} (f : A → bool) (l : list A) :
  (∀ x, x ∈ l → f x = false) → List.find f l = None.
Proof.
  induction l as [| x l IH]; intros H; [reflexivity |].
  simpl. rewrite H by left. apply IH. intros y Hy. apply H. right. assumption.
Qed.

Lemma existsb_none {A} (f : A → bool) (l : list A) :
  (∀ x, x ∈ l → f x = false) → existsb f l = false.
Proof.
  induction l as [| x l IH]; intros H; [reflexivity |].
  simpl. rewrite H by left. apply IH. intros y Hy. apply H. right. assumption.
Qed.

(** The keys [insert_data] adds to the mapping are no reserved words. *)
Lemma bare_names_set (k : string) (v : pyval) (d : pydict) :
  Sql.reserved_word k = false → bare_names (dict_keys d) →
  bare_names (dict_keys (dict_set k v d)).
Proof.
  intros Hk Hd. rewrite dict_keys_set. destruct (dict_mem k d); [assumption |].
  apply Forall_app. split; [assumption |]. constructor; [assumption | constructor].
Qed.

Lemma bare_names_insert (gen : bool) (rnd : Z) (now : datetime) (d : pydict) :
  bare_names (dict_keys d) →
  existsb Sql.reserved_word (dict_keys (with_created_at now (with_id gen rnd d)))
  = false.
Proof.
  intros Hd. apply existsb_none.
  assert (H : bare_names (dict_keys (with_created_at now (with_id gen rnd d)))).
  { unfold with_created_at, with_id.
    destruct gen, (dict_mem "created_at" _);
      repeat (apply bare_names_set; [reflexivity |]); assumption. }
  intros k Hk. exact (proj1 (Forall_forall _ _) H k Hk).
Qed.

Lemma plain_names_set (k : string) (v : pyval) (d : pydict) :
  Sql.plain k = true → plain_names (dict_keys d) →
  plain_names (dict_keys (dict_set k v d)).
Proof.
  intros Hk Hd. rewrite dict_keys_set. destruct (dict_mem k d); [assumption |].
  apply Forall_app. split; [assumption |]. constructor; [assumption | constructor].
Qed.

Lemma plain_names_insert (gen : bool) (rnd : Z) (now : datetime) (d : pydict) :
  plain_names (dict_keys d) →
  plain_names (dict_keys (with_created_at now (with_id gen rnd d))).
Proof.
  intros Hd. unfold with_created_at, with_id.
  destruct gen, (dict_mem "created_at" _);
    repeat (apply plain_names_set; [reflexivity |]); assumption.
Qed.

(** The engine reads the column list that [insert_data] writes bare. *)
Lemma accepted_bare (gen : bool) (rnd : Z) (now : datetime) (d : pydict) :
  plain_names (dict_keys d) → bare_names (dict_keys d) →
  existsb Sql.refused_bare (dict_keys (with_created_at now (with_id gen rnd d)))
  = false.
Proof.
  intros Hplain Hbare. apply plain_names_bare; [apply plain_names_insert, Hplain |].
  apply Forall_forall. intros k Hk.
  pose proof (bare_names_insert gen rnd now d Hbare) as H.
  destruct (Sql.reserved_word k) eqn:E; [| reflexivity].
  assert (Hex : existsb Sql.reserved_word
                  (dict_keys (with_created_at now (with_id gen rnd d))) = true).
  { apply existsb_exists. exists k. split; [apply list_elem_of_In, Hk | exact E]. }
  congruence.
Qed.

(** The INSERT that [insert_data] issues succeeds when the table has the
    columns of the mapping, the mapping fills its NOT NULL columns and
    repeats no stored key. *)
Lemma insert_row_ok (name : string) (t : Sql.table) (d : pydict) :
  (∀ k, k ∈ dict_keys d → k ∈ Sql.columns t) →
  (∀ df, df ∈ Sql.defs t → Sql.cnotnull df = true → Sql.cname df ∈ dict_keys d) →
  (∀ df r', df ∈ Sql.defs t → Sql.cpk df = true → r' ∈ Sql.rows t →
            Sql.clashes (Sql.cname df) (stored_row d) r' = false) →
  Sql.insert_row false name t (dict_keys d) (map (fun kv => py_str kv.2) d)
  = Sql.Done (Sql.Table (Sql.defs t) (Sql.rows t ++ [stored_row d])).
Proof.
  intros Hcols Hnn Hpk. unfold Sql.insert_row.
  rewrite (first_missing_none _ _ Hcols).
  unfold dict_keys. rewrite !length_map, Nat.eqb_refl. simpl.
  fold (dict_keys d). fold (stored_row d).
  replace (Sql.null_violation (Sql.defs t) (stored_row d)) with (@None string).
  2:{ symmetry. unfold Sql.null_violation. rewrite find_none_all; [reflexivity |].
      intros df Hdf. destruct (Sql.cnotnull df) eqn:E; [| reflexivity].
      simpl. rewrite stored_row_lookup.
      specialize (Hnn df Hdf E). apply dict_mem_keys in Hnn.
      unfold dict_mem in Hnn. destruct (dict_get _ d); [reflexivity | discriminate]. }
  replace (Sql.unique_violation (Sql.defs t) (Sql.rows t) (stored_row d))
    with (@None string); [reflexivity |].
  symmetry. unfold Sql.unique_violation. rewrite find_none_all; [reflexivity |].
  intros df Hdf. destruct (Sql.cpk df) eqn:E; [| reflexivity].
  simpl. apply existsb_none. intros r' Hr'. apply Hpk; assumption.
Qed.

Lemma insert_run (name : string) (gen : bool) (rnd : Z) (now : datetime)
    (d : pydict) (c : connection) (t : Sql.table) :
  live c !! name = Some t →
  data_table t →
  plain_names (name :: Sql.columns t ++ dict_keys d) →
  dict_wf d →
  bare_names (dict_keys d) →
  id_is_new t (stored_row (with_created_at now (with_id gen rnd d))) →
  Database.insert_data name gen rnd now (Database.Caller d c)
  = (match dict_get "id" (with_created_at now (with_id gen rnd d)) with
     | Some v => Ok v
     | None => Raise (KeyError "id")
     end,
     Database.Caller (with_created_at now (with_id gen rnd d))
       (Connection
          (<[name := after_insert t (with_created_at now (with_id gen rnd d))]> (live c))
          (<[name := after_insert t (with_created_at now (with_id gen rnd d))]> (live c))
          false)).
Proof.
  intros Ht (Hid & Hcreated & Hnn & Hpk) Hplain Hwf Hbare Hnew.
  apply plain_names_cons in Hplain as [Hname Hplain].
  apply plain_names_app in Hplain as [Hcols Hkeys].
  pose proof (accepted_bare gen rnd now d Hkeys Hbare) as Hwords.
  pose proof (plain_names_insert gen rnd now d Hkeys) as Hkeys2.
  set (d1 := with_id gen rnd d) in *.
  set (d2 := with_created_at now d1) in *.
  assert (Hwf2 : dict_wf d2) by apply with_created_at_wf, with_id_wf, Hwf.
  set (cta := List.filter (fun col => negb (Database.reserved col)) (dict_keys d2)).
  set (t1 := extend t (added (Sql.columns t) cta)).
  unfold Database.insert_data.
  (* the table is there *)
  rewrite (run_bind_ok _ _ _ _ _ (on_conn_run _ d _ _ _ (table_exists_run name c))).
  unfold has_table. rewrite Ht. cbn [negb].
  (* the id and the timestamp *)
  assert (H1 : when gen (Database.set_item "id" (VStr (uuid4 rnd)))
                 (Database.Caller d c) = (Ok tt, Database.Caller d1 c)).
  { unfold d1, with_id. destruct gen; reflexivity. }
  rewrite (run_bind_ok _ _ _ _ _ H1).
  rewrite run_bind. cbn [Database.the_data Database.data].
  assert (H2 : when (negb (dict_mem "created_at" d1))
                 (Database.set_item "created_at" (VStr (isoformat now)))
                 (Database.Caller d1 c) = (Ok tt, Database.Caller d2 c)).
  { unfold d2, with_created_at. destruct (dict_mem "created_at" d1); reflexivity. }
  rewrite (run_bind_ok _ _ _ _ _ H2).
  rewrite run_bind. cbn [Database.the_data Database.data]. fold cta.
  (* the columns *)
  assert (H3 : ∃ c1,
    when (match cta with [] => false | _ :: _ => true end)
      (Database.on_conn (Database.add_columns_if_needed name cta))
      (Database.Caller d2 c) = (Ok tt, Database.Caller d2 c1)
    ∧ live c1 = <[name := t1]> (live c)).
  { destruct cta as [| col cta'] eqn:Ecta.
    - exists c. split; [reflexivity |]. unfold t1, added. simpl.
      rewrite extend_nil. symmetry. apply insert_id, Ht.
    - eexists. split.
      + unfold when. apply on_conn_run. apply add_columns_run; [exact Ht | |].
        * constructor; [exact Hname |]. apply plain_names_app.
          split; [exact Hcols |]. rewrite <- Ecta.
          apply Forall_forall. intros k Hk. apply elem_of_filter_bool in Hk as [Hk _].
          exact (proj1 (Forall_forall _ _) Hkeys2 k Hk).
        * rewrite <- Ecta. apply NoDup_filter_bool, Hwf2.
      + reflexivity. }
  destruct H3 as (c1 & H3 & Hlive1).
  rewrite (run_bind_ok _ _ _ _ _ H3).
  rewrite run_bind. cbn [Database.the_data Database.data].
  (* the row *)
  rewrite (dict_values _ Hwf2).
  assert (Hrow : Sql.insert_row false name t1 (dict_keys d2)
                   (map (fun kv => py_str kv.2) d2)
                 = Sql.Done (after_insert t d2)).
  { unfold after_insert. fold cta. fold t1.
    change (Sql.rows t) with (Sql.rows t1). apply insert_row_ok.
    - intros k Hk. unfold t1. rewrite columns_extend. apply elem_of_app.
      destruct (Database.reserved k) eqn:Er.
      + left. unfold Database.reserved in Er. apply orb_prop in Er as [E | E];
          apply String.eqb_eq in E; subst; assumption.
      + destruct (Sql.mem k (Sql.columns t)) eqn:Em; [left; apply mem_true, Em |].
        right. unfold added, cta. rewrite !elem_of_filter_bool.
        rewrite Em, Er. auto.
    - intros df Hdf Hdfnn. unfold t1, extend in Hdf. simpl in Hdf.
      apply elem_of_app in Hdf as [Hdf | Hdf].
      + rewrite (Hnn df Hdf Hdfnn). apply with_created_at_mem.
      + apply list_elem_of_fmap in Hdf as (col & -> & _). discriminate.
    - intros df r' Hdf Hdfpk Hr'. unfold t1, extend in Hdf. simpl in Hdf.
      apply elem_of_app in Hdf as [Hdf | Hdf].
      + rewrite (Hpk df Hdf Hdfpk). apply Hnew. exact Hr'.
      + apply list_elem_of_fmap in Hdf as (col & -> & _). discriminate. }
  assert (H4 : Database.on_conn
                 (execute (Sql.Insert false name (dict_keys d2))
                    (map (fun kv => py_str kv.2) d2))
                 (Database.Caller d2 c1)
               = (Ok (Sql.Cursor [] 1),
                  Database.Caller d2
                    (Connection (<[name := after_insert t d2]> (live c))
                       (durable c1) true))).
  { apply on_conn_run. unfold execute. simpl Sql.exec.
    rewrite (plain_closed name Hname), Hwords, Hlive1, lookup_insert_eq, Hrow. simpl.
    rewrite insert_insert_eq. reflexivity. }
  rewrite (run_bind_ok _ _ _ _ _ H4).
  rewrite (run_bind_ok _ _ _ _ _ (on_conn_run _ d2 _ _ _ (commit_run _))).
  rewrite run_bind. cbn [Database.the_data Database.data live].
  destruct (dict_get "id" d2); reflexivity.
Qed.

Lemma get_all_data_run (name : string) (c : connection) (t : Sql.table) :
  live c !! name = Some t →
  Sql.plain name = true →
  Database.get_all_data name c = (Ok (map (Sql.star t) (Sql.rows t)), c).
Proof.
  intros Ht Hname. unfold Database.get_all_data.
  rewrite (run_bind_ok _ _ _ _ _ (table_exists_run name c)).
  unfold has_table. rewrite Ht. cbn [negb].
  rewrite run_bind. unfold execute. simpl Sql.exec.
  rewrite (plain_closed name Hname), Ht.
  unfold Sql.compile. simpl. rewrite run_ret. unfold fetchall. simpl.
  do 3 f_equal. induction (Sql.rows t) as [| r rs IH]; [reflexivity |].
  simpl. rewrite IH. reflexivity.
Qed.

(** *** The identifier *)

Lemma hex_length (n : nat) (z : Z) : length (Text.hex n z) = n.
Proof.
  revert z. induction n as [| n IH]; intros z; [reflexivity |].
  simpl. rewrite length_app, IH. simpl. lia.
Qed.

Lemma hex_digit_is_hex (z : Z) : 0 <= z < 16 → is_hex (Text.hex_digit z) = true.
Proof.
  intros H.
  assert (E : z = 0 ∨ z = 1 ∨ z = 2 ∨ z = 3 ∨ z = 4 ∨ z = 5 ∨ z = 6 ∨ z = 7 ∨
              z = 8 ∨ z = 9 ∨ z = 10 ∨ z = 11 ∨ z = 12 ∨ z = 13 ∨ z = 14 ∨ z = 15)
    by lia.
  repeat (destruct E as [-> | E]; [reflexivity |]). subst. reflexivity.
Qed.

Lemma hex_is_hex (n : nat) (z : Z) : Forall (fun c => is_hex c = true) (Text.hex n z).
Proof.
  revert z. induction n as [| n IH]; intros z; [constructor |].
  simpl. apply Forall_app. split; [apply IH |].
  constructor; [| constructor]. apply hex_digit_is_hex.
  apply Z.mod_pos_bound. lia.
Qed.

Lemma explode_implode (cs : list ascii) : Text.explode (Text.implode cs) = cs.
Proof. apply String.list_ascii_of_string_of_list_ascii. Qed.

Lemma forallb_Forall {A} (f : A → bool) (l : list A) :
  Forall (fun x => f x = true) l → forallb f l = true.
Proof. induction 1 as [| x l Hx _ IH]; simpl; [| rewrite Hx, IH]; reflexivity. Qed.

Lemma drop_past {A} (n : nat) (a : list A) (x : A) (l : list A) :
  length a = n → drop (S n) (a ++ x :: l) = l.
Proof.
  intros <-. induction a as [| y a IH]; [reflexivity | exact IH].
Qed.

Lemma uuid_str_shape (i : Z) : uuid_shape (uuid_str i) = true.
Proof.
  unfold uuid_shape, uuid_str. rewrite explode_implode.
  pose proof (hex_length 32 i) as Hlen.
  pose proof (hex_is_hex 32 i) as Hhex.
  set (h := Text.hex 32 i) in *.
  assert (Ha : length (take 8 h) = 8%nat) by (rewrite length_take; lia).
  assert (Hb : length (take 4 (drop 8 h)) = 4%nat)
    by (rewrite length_take, length_drop; lia).
  assert (Hc : length (take 4 (drop 12 h)) = 4%nat)
    by (rewrite length_take, length_drop; lia).
  assert (Hd : length (take 4 (drop 16 h)) = 4%nat)
    by (rewrite length_take, length_drop; lia).
  assert (He : length (drop 20 h) = 12%nat) by (rewrite length_drop; lia).
  assert (Hta : ∀ n, Forall (fun c => is_hex c = true) (take n h))
    by (intros n; apply Forall_take, Hhex).
  assert (Htd : ∀ n m, Forall (fun c => is_hex c = true) (take n (drop m h)))
    by (intros n m; apply Forall_take, Forall_drop, Hhex).
  assert (Hdd : ∀ m, Forall (fun c => is_hex c = true) (drop m h))
    by (intros m; apply Forall_drop, Hhex).
  set (a := take 8 h) in *. set (b := take 4 (drop 8 h)) in *.
  set (c := take 4 (drop 12 h)) in *. set (d := take 4 (drop 16 h)) in *.
  set (e := drop 20 h) in *.
  set (r3 := d ++ "-"%char :: e). set (r2 := c ++ "-"%char :: r3).
  set (r1 := b ++ "-"%char :: r2).
  assert (E9 : drop 9 (a ++ "-"%char :: r1) = r1) by (apply drop_past, Ha).
  assert (E14 : drop 14 (a ++ "-"%char :: r1) = r2).
  { change 14%nat with (9 + 5)%nat. rewrite <- drop_drop, E9.
    apply (drop_past 4), Hb. }
  assert (E19 : drop 19 (a ++ "-"%char :: r1) = r3).
  { change 19%nat with (14 + 5)%nat. rewrite <- drop_drop, E14.
    apply (drop_past 4), Hc. }
  assert (E24 : drop 24 (a ++ "-"%char :: r1) = e).
  { change 24%nat with (19 + 5)%nat. rewrite <- drop_drop, E19.
    apply (drop_past 4), Hd. }
  assert (L8 : (a ++ "-"%char :: r1) !! 8%nat = Some "-"%char)
    by (rewrite <- Ha; apply list_lookup_middle; reflexivity).
  assert (L13 : (a ++ "-"%char :: r1) !! 13%nat = Some "-"%char).
  { rewrite <- (lookup_drop _ 9 4), E9. unfold r1. rewrite <- Hb.
    apply list_lookup_middle. reflexivity. }
  assert (L18 : (a ++ "-"%char :: r1) !! 18%nat = Some "-"%char).
  { rewrite <- (lookup_drop _ 14 4), E14. unfold r2. rewrite <- Hc.
    apply list_lookup_middle. reflexivity. }
  assert (L23 : (a ++ "-"%char :: r1) !! 23%nat = Some "-"%char).
  { rewrite <- (lookup_drop _ 19 4), E19. unfold r3. rewrite <- Hd.
    apply list_lookup_middle. reflexivity. }
  rewrite E9, E14, E19, E24, L8, L13, L18, L23.
  rewrite (take_app_length' a ("-"%char :: r1) 8 (eq_sym Ha)).
  replace (take 4 r1) with b
    by (symmetry; apply take_app_length'; symmetry; exact Hb).
  replace (take 4 r2) with c
    by (symmetry; apply take_app_length'; symmetry; exact Hc).
  replace (take 4 r3) with d
    by (symmetry; apply take_app_length'; symmetry; exact Hd).
  rewrite !forallb_Forall by (unfold a, b, c, d, e; auto).
  unfold r1, r2, r3. rewrite !length_app. cbn [length].
  rewrite !length_app. cbn [length]. rewrite !length_app. cbn [length].
  rewrite !length_app. cbn [length]. rewrite Ha, Hb, Hc, Hd, He. reflexivity.
Qed.

(** C5, as amended.  On a table of the data model (not the system
    relation, which has no [id] column) and for a mapping whose keys are
    plain names, none of them a reserved word of the engine, [insert_data]
    with [generate_id] true puts under [id] the identifier it draws (a
    version-4 UUID made of the 16 random bytes, in its canonical text),
    whatever the caller put there.  It draws it without a look at the
    table: when no stored row has that identifier, it keeps a [created_at]
    the caller gave and sets the clock's ISO text otherwise, adds the row,
    commits, and returns the identifier, which is the [id] cell of the new
    row. *)
Theorem insert_generates_id (name : string) (rnd : Z) (now : datetime)
    (d : pydict) (c : connection) (t : Sql.table) :
  live c !! name = Some t →
  data_table t →
  plain_names (name :: Sql.columns t ++ dict_keys d) →
  bare_names (dict_keys d) →
  dict_wf d →
  (∀ r', r' ∈ Sql.rows t → r' !! "id" ≠ Some (uuid4 rnd)) →
  ∃ c' t' r,
    Database.insert_data name true rnd now (Database.Caller d c)
    = (Ok (VStr (uuid4 rnd)),
       Database.Caller (with_created_at now (dict_set "id" (VStr (uuid4 rnd)) d)) c')
    ∧ uuid_shape (uuid4 rnd) = true
    ∧ live c' !! name = Some t'
    ∧ Sql.rows t' = Sql.rows t ++ [r]
    ∧ r !! "id" = Some (uuid4 rnd)
    ∧ r !! "created_at"
      = Some (match dict_get "created_at" d with
              | Some v => py_str v
              | None => isoformat now
              end)
    ∧ durable c' = live c'.
Proof.
  intros Ht Hdt Hplain Hbare Hwf Hfresh.
  set (d2 := with_created_at now (with_id true rnd d)).
  assert (Hidv : dict_get "id" d2 = Some (VStr (uuid4 rnd))).
  { unfold d2, with_created_at, with_id.
    destruct (dict_mem "created_at" _); rewrite ?dict_get_set; reflexivity. }
  assert (Hnew : id_is_new t (stored_row d2)).
  { intros r' Hr'. unfold Sql.clashes. rewrite stored_row_lookup, Hidv.
    cbn [fmap option_fmap option_map].
    change (py_str (VStr (uuid4 rnd))) with (uuid4 rnd).
    specialize (Hfresh r' Hr'). destruct (r' !! "id") as [x |]; [| reflexivity].
    destruct (String.eqb_spec (uuid4 rnd) x); [congruence | reflexivity]. }
  pose proof (insert_run name true rnd now d c t Ht Hdt Hplain Hwf Hbare Hnew) as Hrun.
  fold d2 in Hrun. rewrite Hidv in Hrun.
  eexists _, (after_insert t d2), (stored_row d2).
  split; [exact Hrun |]. split; [apply uuid_str_shape |].
  split; [apply lookup_insert_eq |]. split; [reflexivity |].
  split; [rewrite stored_row_lookup, Hidv; reflexivity |].
  split; [| reflexivity].
  rewrite stored_row_lookup. unfold d2, with_created_at, with_id.
  assert (Hmem : dict_mem "created_at" (dict_set "id" (VStr (uuid4 rnd)) d)
                 = dict_mem "created_at" d).
  { unfold dict_mem. rewrite dict_get_set. reflexivity. }
  rewrite Hmem. unfold dict_mem.
  destruct (dict_get "created_at" d) as [v |] eqn:E.
  - rewrite dict_get_set. simpl. rewrite E. reflexivity.
  - rewrite !dict_get_set. reflexivity.
Qed.

(** C8, as amended.  On a table of the data model (not the system
    relation, whose [config] column is NOT NULL), [insert_data] with
    [generate_id] false and a mapping without the key [id], whose keys are
    plain names and no reserved words of the engine, adds the row, its [id]
    cell NULL, and commits; only then does it raise [KeyError] for [id],
    when it looks up the value to return.  The table has one row more than
    before. *)
Theorem insert_without_id (name : string) (rnd : Z) (now : datetime)
    (d : pydict) (c : connection) (t : Sql.table) :
  live c !! name = Some t →
  data_table t →
  plain_names (name :: Sql.columns t ++ dict_keys d) →
  bare_names (dict_keys d) →
  dict_wf d →
  dict_get "id" d = None →
  ∃ c' t' r,
    Database.insert_data name false rnd now (Database.Caller d c)
    = (Raise (KeyError "id"), Database.Caller (with_created_at now d) c')
    ∧ live c' !! name = Some t'
    ∧ Sql.rows t' = Sql.rows t ++ [r]
    ∧ r !! "id" = None
    ∧ durable c' = live c'
    ∧ in_txn c' = false
    ∧ ∃ rows_before rows_after,
        Database.get_all_data name c = (Ok rows_before, c)
        ∧ Database.get_all_data name c' = (Ok rows_after, c')
        ∧ length rows_after = S (length rows_before).
Proof.
  intros Ht Hdt Hplain Hbare Hwf Hnoid.
  set (d2 := with_created_at now (with_id false rnd d)).
  assert (Hidv : dict_get "id" d2 = None).
  { unfold d2, with_created_at, with_id.
    destruct (dict_mem "created_at" d); rewrite ?dict_get_set; exact Hnoid. }
  assert (Hnew : id_is_new t (stored_row d2)).
  { intros r' Hr'. unfold Sql.clashes. rewrite stored_row_lookup, Hidv. reflexivity. }
  pose proof (insert_run name false rnd now d c t Ht Hdt Hplain Hwf Hbare Hnew) as Hrun.
  fold d2 in Hrun. rewrite Hidv in Hrun.
  eexists _, (after_insert t d2), (stored_row d2).
  split; [exact Hrun |]. split; [apply lookup_insert_eq |].
  split; [reflexivity |].
  split; [rewrite stored_row_lookup, Hidv; reflexivity |].
  split; [reflexivity |]. split; [reflexivity |].
  pose proof (plain_head _ _ Hplain) as Hname.
  eexists _, _. split; [apply (get_all_data_run name c t Ht Hname) |].
  split; [apply (get_all_data_run name _ _ (lookup_insert_eq _ _ _) Hname) |].
  rewrite !length_map. simpl. rewrite length_app. simpl. lia.
Qed.

(** *** The caller's mapping *)

Lemma frames_bind {A B} (m : M Database.caller A) (k : A → M Database.caller B) :
  frames_data m → (∀ a, frames_data (k a)) → frames_data (m ≫= k).
Proof.
  intros Hm Hk s. rewrite run_bind. specialize (Hm s).
  destruct (m s) as [[a | e] s']; simpl in *; [| assumption].
  rewrite Hk. assumption.
Qed.

Lemma frames_on_conn {A} (m : M connection A) : frames_data (Database.on_conn m).
Proof.
  intros s. unfold Database.on_conn. destruct (m (Database.conn s)). reflexivity.
Qed.

Lemma frames_when (b : bool) (m : M Database.caller unit) :
  frames_data m → frames_data (when b m).
Proof. intros H. destruct b; [exact H | intros s; reflexivity]. Qed.

(** Once the table is found, the caller's mapping holds the generated
    identifier and a timestamp, whether the call then returns or raises. *)
Lemma insert_data_mapping (name : string) (rnd : Z) (now : datetime)
    (d : pydict) (c : connection) :
  has_table (live c) name = true →
  Database.data (Database.insert_data name true rnd now (Database.Caller d c)).2
  = with_created_at now (dict_set "id" (VStr (uuid4 rnd)) d)
  ∧ dict_get "id" (with_created_at now (dict_set "id" (VStr (uuid4 rnd)) d))
    = Some (VStr (uuid4 rnd))
  ∧ (dict_get "created_at" d = None →
     dict_get "created_at" (with_created_at now (dict_set "id" (VStr (uuid4 rnd)) d))
     = Some (VStr (isoformat now)))
  ∧ (∀ key, key ≠ "id" → key ≠ "created_at" →
     dict_get key (with_created_at now (dict_set "id" (VStr (uuid4 rnd)) d))
     = dict_get key d).
Proof.
  intros Hex. set (d1 := dict_set "id" (VStr (uuid4 rnd)) d).
  split; [| split; [| split]].
  - unfold Database.insert_data.
    rewrite (run_bind_ok _ _ _ _ _ (on_conn_run _ d _ _ _ (table_exists_run name c))).
    rewrite Hex. cbn [negb].
    assert (H1 : when true (Database.set_item "id" (VStr (uuid4 rnd)))
                   (Database.Caller d c) = (Ok tt, Database.Caller d1 c))
      by reflexivity.
    rewrite (run_bind_ok _ _ _ _ _ H1).
    rewrite run_bind. cbn [Database.the_data Database.data].
    assert (H2 : when (negb (dict_mem "created_at" d1))
                   (Database.set_item "created_at" (VStr (isoformat now)))
                   (Database.Caller d1 c)
                 = (Ok tt, Database.Caller (with_created_at now d1) c)).
    { unfold with_created_at. destruct (dict_mem "created_at" d1); reflexivity. }
    rewrite (run_bind_ok _ _ _ _ _ H2).
    match goal with
    | |- Database.data (?rest _).2 = _ => assert (Hf : frames_data rest)
    end.
    { apply frames_bind; [intros s; reflexivity |]. intros d'.
      apply frames_bind; [apply frames_when, frames_on_conn |]. intros _.
      apply frames_bind; [intros s; reflexivity |]. intros d''.
      apply frames_bind; [apply frames_on_conn |]. intros _.
      apply frames_bind; [apply frames_on_conn |]. intros _.
      apply frames_bind; [intros s; reflexivity |]. intros d3.
      intros s. destruct (dict_get "id" d3); reflexivity. }
    rewrite Hf. reflexivity.
  - unfold with_created_at. destruct (dict_mem "created_at" d1);
      unfold d1; rewrite ?dict_get_set; reflexivity.
  - intros Hnone. unfold with_created_at, dict_mem, d1.
    rewrite dict_get_set. simpl. rewrite Hnone, dict_get_set. reflexivity.
  - intros key Hid Hcr. unfold with_created_at.
    destruct (dict_mem "created_at" d1); unfold d1; rewrite !dict_get_set.
    + destruct (String.eqb_spec key "id"); [contradiction | reflexivity].
    + destruct (String.eqb_spec key "created_at"); [contradiction |].
      destruct (String.eqb_spec key "id"); [contradiction | reflexivity].
Qed.

Lemma is_data_table_sound (t : Sql.table) : is_data_table t = true → data_table t.
Proof.
  unfold is_data_table, data_table. rewrite !andb_true_iff, forallb_forall.
  intros [[Hid Hcr] Hall]. apply mem_true in Hid. apply mem_true in Hcr.
  split; [assumption |]. split; [assumption |].
  split; intros d Hd Hflag; apply list_elem_of_In in Hd;
    specialize (Hall d Hd); apply andb_prop in Hall as [H1 H2];
    rewrite Hflag in *; simpl in *; apply String.eqb_eq; assumption.
Qed.

Lemma id_unused_sound (t : Sql.table) (id : string) :
  id_unused t id = true → ∀ r', r' ∈ Sql.rows t → r' !! "id" ≠ Some id.
Proof.
  unfold id_unused. rewrite forallb_forall. intros H r' Hr' E.
  apply list_elem_of_In in Hr'. specialize (H r' Hr'). rewrite E in H.
  rewrite String.eqb_refl in H. discriminate.
Qed.

(** Without the table, nothing is written into the mapping. *)
Lemma insert_data_no_table (name : string) (gen : bool) (rnd : Z)
    (now : datetime) (d : pydict) (c : connection) :
  has_table (live c) name = false →
  Database.insert_data name gen rnd now (Database.Caller d c)
  = (Raise (Database.not_found name), Database.Caller d c).
Proof.
  intros H. unfold Database.insert_data.
  rewrite (run_bind_ok _ _ _ _ _ (on_conn_run _ d _ _ _ (table_exists_run name c))).
  rewrite H. reflexivity.
Qed.

(** C10.  [insert_data] writes into the mapping it is given, not into a
    copy: after a call with [generate_id] true has returned, the caller's
    mapping holds the generated identifier under [id] and, if it had no
    [created_at], the clock's ISO text under [created_at]; every other
    entry is as it was. *)
Theorem insert_mutates_mapping (name : string) (rnd : Z) (now : datetime)
    (d : pydict) (c : connection) (v : pyval) (s' : Database.caller) :
  Database.insert_data name true rnd now (Database.Caller d c) = (Ok v, s') →
  Database.data s' = with_created_at now (dict_set "id" (VStr (uuid4 rnd)) d)
  ∧ dict_get "id" (Database.data s') = Some (VStr (uuid4 rnd))
  ∧ (dict_get "created_at" d = None →
     dict_get "created_at" (Database.data s') = Some (VStr (isoformat now)))
  ∧ (∀ key, key ≠ "id" → key ≠ "created_at" →
     dict_get key (Database.data s') = dict_get key d).
Proof.
  intros Hrun.
  assert (Hex : has_table (live c) name = true).
  { destruct (has_table (live c) name) eqn:E; [reflexivity |].
    rewrite (insert_data_no_table _ _ _ _ _ _ E) in Hrun. discriminate. }
  destruct (insert_data_mapping name rnd now d c Hex) as (Hd & Hid & Hcr & Hother).
  rewrite Hrun in Hd. simpl in Hd. rewrite Hd. auto.
Qed.

Lemma insert_generates_id_witness :
  ∃ c' t' r,
    Database.insert_data "users" true 3 noon
      (Database.Caller [("name", VStr "Carol"); ("id", VStr "mine")] people_db)
    = (Ok (VStr (uuid4 3)),
       Database.Caller
         (with_created_at noon
            (dict_set "id" (VStr (uuid4 3)) [("name", VStr "Carol"); ("id", VStr "mine")]))
         c')
    ∧ uuid_shape (uuid4 3) = true
    ∧ live c' !! "users" = Some t'
    ∧ Sql.rows t' = Sql.rows (table_of people_db "users") ++ [r]
    ∧ r !! "id" = Some (uuid4 3)
    ∧ r !! "created_at"
      = Some (match dict_get "created_at" [("name", VStr "Carol"); ("id", VStr "mine")] with
              | Some v => py_str v
              | None => isoformat noon
              end)
    ∧ durable c' = live c'.
Proof.
  apply (insert_generates_id "users" 3 noon
           [("name", VStr "Carol"); ("id", VStr "mine")] people_db
           (table_of people_db "users")).
  - run.
  - apply is_data_table_sound. run.
  - decide_it.
  - decide_it.
  - decide_it.
  - apply id_unused_sound. run.
Defined.

Lemma insert_without_id_witness :
  ∃ c' t' r,
    Database.insert_data "users" false 3 noon
      (Database.Caller [("name", VStr "Carol")] people_db)
    = (Raise (KeyError "id"),
       Database.Caller (with_created_at noon [("name", VStr "Carol")]) c')
    ∧ live c' !! "users" = Some t'
    ∧ Sql.rows t' = Sql.rows (table_of people_db "users") ++ [r]
    ∧ r !! "id" = None
    ∧ durable c' = live c'
    ∧ in_txn c' = false
    ∧ ∃ rows_before rows_after,
        Database.get_all_data "users" people_db = (Ok rows_before, people_db)
        ∧ Database.get_all_data "users" c' = (Ok rows_after, c')
        ∧ length rows_after = S (length rows_before).
Proof.
  apply (insert_without_id "users" 3 noon [("name", VStr "Carol")] people_db
           (table_of people_db "users")).
  - run.
  - apply is_data_table_sound. run.
  - decide_it.
  - decide_it.
  - decide_it.
  - run.
Defined.

Lemma insert_mutates_mapping_witness :
  Database.data
    (Database.insert_data "users" true 3 noon
       (Database.Caller [("name", VStr "Carol")] people_db)).2
  = with_created_at noon (dict_set "id" (VStr (uuid4 3)) [("name", VStr "Carol")])
  ∧ dict_get "id"
      (Database.data
         (Database.insert_data "users" true 3 noon
            (Database.Caller [("name", VStr "Carol")] people_db)).2)
    = Some (VStr (uuid4 3))
  ∧ (dict_get "created_at" [("name", VStr "Carol")] = None →
     dict_get "created_at"
       (Database.data
          (Database.insert_data "users" true 3 noon
             (Database.Caller [("name", VStr "Carol")] people_db)).2)
     = Some (VStr (isoformat noon)))
  ∧ (∀ key, key ≠ "id" → key ≠ "created_at" →
     dict_get key
       (Database.data
          (Database.insert_data "users" true 3 noon
             (Database.Caller [("name", VStr "Carol")] people_db)).2)
     = dict_get key [("name", VStr "Carol")]).
Proof.
  apply (insert_mutates_mapping "users" 3 noon [("name", VStr "Carol")] people_db
           (VStr (uuid4 3))).
  run.
Defined.

(** C5 as stated fails on the system relation, an existing table with no
    [id] column: the engine refuses the INSERT, nothing is stored and
    nothing returned. *)
Lemma insert_generates_id_config_relation :
  has_table (live (Database.connect ∅)) "_skypy_config" = true
  ∧ (Database.insert_data "_skypy_config" true 3 noon
       (Database.Caller [] (Database.connect ∅))).1
    = Raise (DatabaseError (Sql.NoColumnNamed "_skypy_config" "id"))
  ∧ (Database.get_all_data "_skypy_config"
       (Database.conn
          (Database.insert_data "_skypy_config" true 3 noon
             (Database.Caller [] (Database.connect ∅))).2)).1
    = Ok [].
Proof. split; [run |]. split; run. Qed.

(** C8 as stated fails on the system relation: the engine refuses the row
    for its empty [config] cell, so the error comes with no row inserted. *)
Lemma insert_without_id_config_relation :
  has_table (live (Database.connect ∅)) "_skypy_config" = true
  ∧ dict_get "id" ([] : pydict) = None
  ∧ (Database.insert_data "_skypy_config" false 3 noon
       (Database.Caller [] (Database.connect ∅))).1
    = Raise (DatabaseError (Sql.NotNullFailed "_skypy_config" "config"))
  ∧ (Database.get_all_data "_skypy_config" (Database.connect ∅)).1 = Ok []
  ∧ (Database.get_all_data "_skypy_config"
       (Database.conn
          (Database.insert_data "_skypy_config" false 3 noon
             (Database.Caller [] (Database.connect ∅))).2)).1
    = Ok [].
Proof. split; [run |]. split; [run |]. split; [run |]. split; run. Qed.

(** The column list of INSERT is the one place where [insert_data] writes
    names bare.  A key that is a reserved word of the engine gets its
    column, which [add_columns_if_needed] adds in brackets and commits, but
    not its row: the engine refuses the INSERT. *)
Lemma insert_reserved_word_column :
  ∃ c',
    Database.insert_data "users" true 3 noon
      (Database.Caller [("order", VInt 7)] people_db)
    = (Raise (DatabaseError Sql.SyntaxError),
       Database.Caller
         (with_created_at noon (dict_set "id" (VStr (uuid4 3)) [("order", VInt 7)]))
         c')
    ∧ Sql.columns (table_of c' "users")
      = Sql.columns (table_of people_db "users") ++ ["order"]
    ∧ Sql.rows (table_of c' "users") = Sql.rows (table_of people_db "users")
    ∧ durable c' = live c'.
Proof.
  exists (Database.conn
            (Database.insert_data "users" true 3 noon
               (Database.Caller [("order", VInt 7)] people_db)).2).
  split; [run |]. split; [run |]. split; run.
Qed.


(** ** Saving and reading a config *)

(** A key that starts with a digit is no name either when it stands bare:
    it gets its column and not its row, with [generate_id] true or false. *)
Lemma insert_digit_key :
  ∃ c1 c2,
    Database.insert_data "users" true 3 noon
      (Database.Caller [("1st", VInt 7)] people_db)
    = (Raise (DatabaseError Sql.SyntaxError),
       Database.Caller
         (with_created_at noon (dict_set "id" (VStr (uuid4 3)) [("1st", VInt 7)])) c1)
    ∧ Database.insert_data "users" false 3 noon
        (Database.Caller [("1st", VInt 7)] people_db)
      = (Raise (DatabaseError Sql.SyntaxError),
         Database.Caller (with_created_at noon [("1st", VInt 7)]) c2)
    ∧ Sql.columns (table_of c1 "users")
      = Sql.columns (table_of people_db "users") ++ ["1st"]
    ∧ Sql.rows (table_of c1 "users") = Sql.rows (table_of people_db "users")
    ∧ Sql.rows (table_of c2 "users") = Sql.rows (table_of people_db "users").
Proof.
  exists (Database.conn
            (Database.insert_data "users" true 3 noon
               (Database.Caller [("1st", VInt 7)] people_db)).2),
         (Database.conn
            (Database.insert_data "users" false 3 noon
               (Database.Caller [("1st", VInt 7)] people_db)).2).
  split; [run |]. split; [run |]. split; [run |]. split; run.
Qed.

(** The identifier is drawn without a look at the table.  When a stored
    row has it already the engine refuses the row: nothing is stored and
    nothing returned. *)
Lemma insert_generated_id_taken :
  (∃ r, r ∈ Sql.rows (table_of people_db "users") ∧ r !! "id" = Some (uuid4 1))
  ∧ (Database.insert_data "users" true 1 noon
       (Database.Caller [("name", VStr "Carol")] people_db)).1
    = Raise (DatabaseError (Sql.UniqueFailed "users" "id"))
  ∧ Sql.rows (table_of
                (Database.conn
                   (Database.insert_data "users" true 1 noon
                      (Database.Caller [("name", VStr "Carol")] people_db)).2)
                "users")
    = Sql.rows (table_of people_db "users").
Proof.
  split.
  - exists (default ∅ (head (Sql.rows (table_of people_db "users")))).
    split; [apply list_elem_of_In; vm_compute; left; reflexivity | run].
  - split; run.
Qed.

(** *** The text of a config reads back *)

Lemma string_body_escape (c : ascii) (tail : list ascii) :
  Json.string_body (Json.escape_char c ++ tail)
  = match Json.string_body tail with
    | Some (s, r) => Some (c :: s, r)
    | None => None
    end.
Proof.
  destruct c as [[] [] [] [] [] [] [] []]; reflexivity.
Qed.

Lemma string_body_escaped (s tail : list ascii) :
  Json.string_body (concat (map Json.escape_char s) ++ Text.chr 34 :: tail)
  = Some (s, tail).
Proof.
  induction s as [| c s IH]; [reflexivity |].
  cbn [map concat]. rewrite <- app_assoc, string_body_escape, IH. reflexivity.
Qed.

Lemma implode_explode (s : string) : Text.implode (Text.explode s) = s.
Proof. apply String.string_of_list_ascii_of_string. Qed.

Lemma literal_quoted (s : string) (tail : list ascii) :
  Json.literal (Json.quoted s ++ tail) = Some (s, tail).
Proof.
  unfold Json.quoted, Json.literal. cbn [app].
  change (Text.code (Text.chr 34) =? 34) with true. cbv iota.
  rewrite <- app_assoc. cbn [app]. rewrite string_body_escaped, implode_explode.
  reflexivity.
Qed.

Lemma skip_ws_quoted (s : string) (tail : list ascii) :
  Json.skip_ws (Json.quoted s ++ tail) = Json.quoted s ++ tail.
Proof. reflexivity. Qed.

Lemma pairs_S (fuel : nat) (cs : list ascii) (acc : dict string) :
  Json.pairs (S fuel) cs acc
  = match Json.literal (Json.skip_ws cs) with
    | Some (k, r1) =>
      match Json.skip_ws r1 with
      | c1 :: r2 =>
        if Text.code c1 =? 58 then
          match Json.literal (Json.skip_ws r2) with
          | Some (v, r3) =>
            match Json.skip_ws r3 with
            | c2 :: r4 =>
              if Text.code c2 =? 44 then Json.pairs fuel r4 (dict_set k v acc)
              else if Text.code c2 =? 125 then
                match Json.skip_ws r4 with
                | [] => Some (dict_set k v acc)
                | _ => None
                end
              else None
            | [] => None
            end
          | None => None
          end
        else None
      | [] => None
      end
    | None => None
    end.
Proof. reflexivity. Qed.

(** One member, after an optional blank, then whatever follows. *)
Lemma pairs_member (fuel : nat) (blank : bool) (kv : string * string)
    (rest : list ascii) (acc : dict string) :
  Json.pairs (S fuel)
    ((if blank then [" "%char] else []) ++ Json.member kv ++ rest) acc
  = match Json.skip_ws rest with
    | c2 :: r4 =>
      if Text.code c2 =? 44 then Json.pairs fuel r4 (dict_set kv.1 kv.2 acc)
      else if Text.code c2 =? 125 then
        match Json.skip_ws r4 with
        | [] => Some (dict_set kv.1 kv.2 acc)
        | _ => None
        end
      else None
    | [] => None
    end.
Proof.
  rewrite pairs_S. unfold Json.member. rewrite <- !app_assoc.
  replace (Json.skip_ws ((if blank then [" "%char] else [])
                         ++ Json.quoted kv.1 ++ Text.explode ": " ++ Json.quoted kv.2 ++ rest))
    with (Json.quoted kv.1 ++ Text.explode ": " ++ Json.quoted kv.2 ++ rest)
    by (destruct blank; reflexivity).
  rewrite literal_quoted.
  change (Json.skip_ws (Text.explode ": " ++ Json.quoted kv.2 ++ rest))
    with (":"%char :: " "%char :: Json.quoted kv.2 ++ rest).
  change (Text.code ":" =? 58) with true. cbv iota.
  change (Json.skip_ws (" "%char :: Json.quoted kv.2 ++ rest))
    with (Json.quoted kv.2 ++ rest).
  rewrite literal_quoted. reflexivity.
Qed.

Lemma pairs_members (d : dict string) :
  d ≠ [] →
  ∀ (fuel : nat) (blank : bool) (acc : dict string),
    (length d <= fuel)%nat →
    Json.pairs fuel
      ((if blank then [" "%char] else []) ++ Json.members d ++ ["}"%char]) acc
    = Some (fold_left (fun a kv => dict_set kv.1 kv.2 a) d acc).
Proof.
  induction d as [| kv d IH]; [contradiction |]. intros _ fuel blank acc Hfuel.
  destruct fuel as [| fuel]; [simpl in Hfuel; lia |].
  destruct d as [| kv' d].
  - cbn [Json.members]. rewrite pairs_member. reflexivity.
  - change (Json.members (kv :: kv' :: d))
      with (Json.member kv ++ Text.explode ", " ++ Json.members (kv' :: d)).
    rewrite <- !app_assoc. rewrite pairs_member.
    change (Json.skip_ws (Text.explode ", " ++ Json.members (kv' :: d) ++ ["}"%char]))
      with (","%char :: [" "%char] ++ Json.members (kv' :: d) ++ ["}"%char]).
    change (Text.code "," =? 44) with true. cbv iota.
    rewrite (IH ltac:(discriminate) fuel true); [reflexivity |].
    simpl in *. lia.
Qed.

Lemma fold_dict_set {V} (d acc : dict V) :
  NoDup (dict_keys acc ++ dict_keys d) →
  fold_left (fun a kv => dict_set kv.1 kv.2 a) d acc = acc ++ d.
Proof.
  revert acc. induction d as [| [k v] d IH]; intros acc Hnd.
  - simpl. rewrite app_nil_r. reflexivity.
  - cbn [fold_left fst snd].
    assert (Hk : k ∉ dict_keys acc).
    { apply NoDup_app in Hnd as (_ & Hd & _). intros H. apply (Hd _ H). left. }
    rewrite dict_set_fresh by assumption. rewrite IH.
    + rewrite <- app_assoc. reflexivity.
    + unfold dict_keys in *. rewrite fmap_app. cbn [fmap list_fmap fst].
      rewrite <- app_assoc. exact Hnd.
Qed.

Lemma members_length (d : dict string) : (length d <= length (Json.members d))%nat.
Proof.
  induction d as [| kv d IH]; [reflexivity |].
  destruct d as [| kv' d].
  - cbn [Json.members]. unfold Json.member, Json.quoted. cbn [app length].
    rewrite !length_app. simpl. lia.
  - change (Json.members (kv :: kv' :: d))
      with (Json.member kv ++ Text.explode ", " ++ Json.members (kv' :: d)).
    rewrite !length_app. simpl in *. lia.
Qed.

Lemma loads_dumps (d : dict string) :
  dict_wf d → Json.loads (Json.dumps d) = Some d.
Proof.
  intros Hwf. unfold Json.loads, Json.dumps. rewrite explode_implode.
  destruct d as [| kv d]; [reflexivity |].
  change (Json.skip_ws ("{"%char :: Json.members (kv :: d) ++ ["}"%char]))
    with ("{"%char :: Json.members (kv :: d) ++ ["}"%char]).
  change (Text.code "{" =? 123) with true. cbv iota.
  assert (Hq : ∀ tail, Json.skip_ws (Json.members (kv :: d) ++ tail)
                        = Json.members (kv :: d) ++ tail).
  { intros tail. destruct d as [| kv' d]; reflexivity. }
  rewrite Hq.
  assert (Hhead : ∃ c' r', Json.members (kv :: d) ++ ["}"%char] = c' :: r'
                           ∧ (Text.code c' =? 125) = false).
  { exists (Text.chr 34). destruct d as [| kv' d]; eexists; split; reflexivity. }
  destruct Hhead as (c' & r' & E & Hc'). rewrite E, Hc', <- E.
  rewrite (pairs_members (kv :: d) ltac:(discriminate) _ false []).
  - f_equal. apply (fold_dict_set (kv :: d) []). exact Hwf.
  - rewrite length_app. pose proof (members_length (kv :: d)). lia.
Qed.

(** *** Normalisation *)

Lemma normalize_config_map (config : pydict) :
  dict_wf config →
  Database._normalize_config config
  = map (fun kv => (kv.1, Database.normalize_type kv.2)) config.
Proof.
  intros Hwf. unfold Database._normalize_config.
  assert (H : ∀ acc : dict string,
    NoDup (dict_keys acc ++ dict_keys config) →
    fold_left (fun normalized kv =>
                 dict_set kv.1 (Database.normalize_type kv.2) normalized) config acc
    = acc ++ map (fun kv => (kv.1, Database.normalize_type kv.2)) config).
  { clear Hwf. induction config as [| [k v] config IH]; intros acc Hnd.
    - simpl. rewrite app_nil_r. reflexivity.
    - cbn [fold_left map fst snd].
      assert (Hk : k ∉ dict_keys acc).
      { apply NoDup_app in Hnd as (_ & Hd & _). intros H. apply (Hd _ H). left. }
      rewrite dict_set_fresh by assumption. rewrite IH.
      + rewrite <- app_assoc. reflexivity.
      + unfold dict_keys in *. rewrite fmap_app. cbn [fmap list_fmap fst].
        rewrite <- app_assoc. exact Hnd. }
  apply (H []). exact Hwf.
Qed.

Lemma normalize_config_wf (config : pydict) :
  dict_wf config → dict_wf (Database._normalize_config config).
Proof.
  intros Hwf. rewrite normalize_config_map by assumption.
  unfold dict_wf in *. rewrite map_map. exact Hwf.
Qed.

(** *** The system relation *)

Lemma is_config_relation_sound (t : Sql.table) :
  is_config_relation t = true → config_relation t.
Proof.
  unfold is_config_relation, config_relation.
  rewrite !andb_true_iff, forallb_forall, existsb_exists.
  intros [[[(d & Hd & Hflags) Hcfg] Hcr] Hall].
  apply mem_true in Hcfg. apply mem_true in Hcr.
  split; [| split; [assumption | split; [assumption |]]].
  - apply list_elem_of_In in Hd.
    rewrite !andb_true_iff, negb_true_iff in Hflags.
    destruct Hflags as [[Hn Hp] Hnn]. apply String.eqb_eq in Hn.
    destruct d as [n p nn]. simpl in *. subst. exact Hd.
  - intros df Hdf Hflag. apply list_elem_of_In in Hdf. specialize (Hall df Hdf).
    rewrite Hflag in Hall. simpl in Hall. apply orb_prop in Hall as [H | H];
      apply String.eqb_eq in H; auto.
Qed.

Lemma config_row_lookup (name text stamp : string) :
  let r : Sql.row :=
    list_to_map (zip ["table_name"; "config"; "created_at"] [name; text; stamp]) in
  r !! "table_name" = Some name ∧ r !! "config" = Some text
  ∧ r !! "created_at" = Some stamp.
Proof.
  cbn [zip zip_with list_to_map foldr fst snd].
  split; [apply lookup_insert_eq |].
  split; [rewrite lookup_insert_ne by discriminate; apply lookup_insert_eq |].
  rewrite !lookup_insert_ne by discriminate. apply lookup_insert_eq.
Qed.

(** After a REPLACE, no older row is left under the key of the new row. *)
Lemma replaced_rows_gone (ds : list Sql.coldef) (r : Sql.row)
    (rs : list Sql.row) (name : string) :
  Sql.ColDef "table_name" true false ∈ ds →
  r !! "table_name" = Some name →
  List.filter (Sql.keeps [(Sql.EqP "table_name", [name])])
    (List.filter (fun r' => negb (Sql.clashes_any ds r r')) rs)
  = [].
Proof.
  intros Hname Hr1. rewrite <- filter_and.
  induction rs as [| r' rs IH]; [reflexivity |].
  cbn [List.filter].
  replace (negb (Sql.clashes_any ds r r')
           && Sql.keeps [(Sql.EqP "table_name", [name])] r') with false;
    [exact IH |].
  symmetry. apply andb_false_iff.
  destruct (Sql.keeps _ r') eqn:Ek; [left | right; reflexivity].
  apply negb_false_iff. unfold Sql.clashes_any. apply existsb_exists.
  exists (Sql.ColDef "table_name" true false).
  split; [apply list_elem_of_In, Hname |]. simpl.
  unfold Sql.clashes. rewrite Hr1.
  unfold Sql.keeps in Ek. simpl in Ek.
  destruct (r' !! "table_name") as [x |]; [| discriminate].
  simpl in Ek. destruct (String.eqb_spec x name) as [E | _]; [| discriminate].
  rewrite E. apply String.eqb_refl.
Qed.

(** C6.  With the system relation in place, [save_table_config] followed by
    [get_table_config] for the same name returns the normalised config: to
    every key the tag [str], [int], [float] or [bool] when the declared
    value is that class, and the text of the declared value otherwise (a
    text as it is, [None], [True] and [False] by their names, an integer
    as its decimal numeral, a float as its shortest numeral, a list as the
    bracketed [repr] of its items).  What is stored in between, in the row
    of the system relation for that name, is the JSON text of the
    normalised config, and it reads back as the same mapping. *)
Theorem config_round_trip (name : string) (config : pydict) (now : datetime)
    (c : connection) (t : Sql.table) :
  live c !! Database.config_table = Some t →
  config_relation t →
  dict_wf config →
  ∃ c' t' r,
    Database.save_table_config name config now c = (Ok tt, c')
    ∧ live c' !! Database.config_table = Some t'
    ∧ r ∈ Sql.rows t'
    ∧ r !! "table_name" = Some name
    ∧ r !! "config" = Some (Json.dumps (Database._normalize_config config))
    ∧ Json.loads (Json.dumps (Database._normalize_config config))
      = Some (Database._normalize_config config)
    ∧ Database.get_table_config name c'
      = (Ok (Some (Database._normalize_config config)), c')
    ∧ Database._normalize_config config
      = map (fun kv => (kv.1, Database.normalize_type kv.2)) config
    ∧ Database.normalize_type (VType TyStr) = "str"
    ∧ Database.normalize_type (VType TyInt) = "int"
    ∧ Database.normalize_type (VType TyFloat) = "float"
    ∧ Database.normalize_type (VType TyBool) = "bool"
    ∧ (∀ text, Database.normalize_type (VStr text) = text)
    ∧ Database.normalize_type VNone = "None"
    ∧ Database.normalize_type (VBool true) = "True"
    ∧ Database.normalize_type (VBool false) = "False"
    ∧ (∀ z, Database.normalize_type (VInt z) = Text.of_Z z)
    ∧ (∀ f, Database.normalize_type (VFloat f) = Float.repr f)
    ∧ (∀ items, Database.normalize_type (VList items)
                = "[" +:+ String.concat ", " (map py_repr items) +:+ "]")
    ∧ (∀ v, (∀ ty, v ≠ VType ty) → Database.normalize_type v = py_str v).
Proof.
  intros Ht (Hname & Hcfg & Hcr & Hnn) Hwf.
  set (text := Json.dumps (Database._normalize_config config)).
  set (r := (list_to_map (zip ["table_name"; "config"; "created_at"]
                            [name; text; isoformat now]) : Sql.row)).
  destruct (config_row_lookup name text (isoformat now)) as (Hr1 & Hr2 & Hr3).
  fold r in Hr1, Hr2, Hr3.
  assert (Hnamecol : "table_name" ∈ Sql.columns t).
  { unfold Sql.columns. apply list_elem_of_fmap.
    exists (Sql.ColDef "table_name" true false). auto. }
  set (rows' := List.filter (fun r' => negb (Sql.clashes_any (Sql.defs t) r r'))
                  (Sql.rows t) ++ [r]).
  assert (Hrow : Sql.insert_row true Database.config_table t
                   ["table_name"; "config"; "created_at"]
                   [name; text; isoformat now]
                 = Sql.Done (Sql.Table (Sql.defs t) rows')).
  { unfold Sql.insert_row. rewrite first_missing_none.
    2:{ intros k Hk. repeat (apply elem_of_cons in Hk as [-> | Hk]; [assumption |]).
        inversion Hk. }
    cbn [length Nat.eqb negb]. fold r.
    replace (Sql.null_violation (Sql.defs t) r) with (@None string); [reflexivity |].
    symmetry. unfold Sql.null_violation. rewrite find_none_all; [reflexivity |].
    intros df Hdf. destruct (Sql.cnotnull df) eqn:E; [| reflexivity].
    destruct (Hnn df Hdf E) as [-> | ->]; rewrite ?Hr2, ?Hr3; reflexivity. }
  exists (Connection (<[Database.config_table := Sql.Table (Sql.defs t) rows']> (live c))
            (<[Database.config_table := Sql.Table (Sql.defs t) rows']> (live c)) false),
         (Sql.Table (Sql.defs t) rows'), r.
  split; [| split; [| split; [| split; [| split; [| split; [| split]]]]]].
  - unfold Database.save_table_config. fold text.
    rewrite run_bind. unfold execute. simpl Sql.exec. rewrite Ht, Hrow. reflexivity.
  - apply lookup_insert_eq.
  - unfold rows'. cbn [Sql.rows]. apply elem_of_app. right. left.
  - exact Hr1.
  - exact Hr2.
  - apply loads_dumps, normalize_config_wf, Hwf.
  - unfold Database.get_table_config. rewrite run_bind. unfold execute.
    simpl Sql.exec. cbn [live]. rewrite lookup_insert_eq.
    change (Sql.columns (Sql.Table (Sql.defs t) rows')) with (Sql.columns t).
    apply mem_true in Hcfg as Hmem. rewrite Hmem.
    rewrite (compile_eq _ _ _ Hnamecol).
    assert (Hkeep : List.filter (Sql.keeps [(Sql.EqP "table_name", [name])]) rows'
                    = [r]).
    { unfold rows'. rewrite List.filter_app.
      assert (Hr : Sql.keeps [(Sql.EqP "table_name", [name])] r = true).
      { unfold Sql.keeps. simpl. rewrite Hr1. simpl. rewrite String.eqb_refl.
        reflexivity. }
      cbn [List.filter]. rewrite Hr.
      rewrite (replaced_rows_gone _ _ _ _ Hname Hr1). reflexivity. }
    cbn [Sql.fetched Sql.rows]. rewrite Hkeep.
    cbn [map fetchone head Sql.fetched item lookup list_lookup].
    rewrite Hr2. unfold text. rewrite loads_dumps by (apply normalize_config_wf, Hwf).
    reflexivity.
  - split; [apply normalize_config_map, Hwf |].
    repeat (split; [reflexivity |]).
    intros v Hv. destruct v as [| | | | | | ty]; try reflexivity.
    exfalso. apply (Hv ty). reflexivity.
Qed.

Lemma config_round_trip_witness :
  ∃ c' t' r,
    Database.save_table_config "users"
      [("name", VType TyStr); ("age", VType TyInt); ("tags", VList [VStr "a"; VInt 2]);
       ("kind", VStr "auto"); ("size", VInt (-7)); ("ok", VBool true);
       ("none", VNone); ("half", VFloat (S754_finite false 3 (-1)))]
      noon (Database.connect ∅)
    = (Ok tt, c')
    ∧ live c' !! Database.config_table = Some t'
    ∧ r ∈ Sql.rows t'
    ∧ r !! "table_name" = Some "users"
    ∧ r !! "config"
      = Some (dq ("{`name`: `str`, `age`: `int`, `tags`: `['a', 2]`, `kind`: `auto`, "
                  +:+ "`size`: `-7`, `ok`: `True`, `none`: `None`, `half`: `1.5`}"))
    ∧ Database.get_table_config "users" c'
      = (Ok (Some [("name", "str"); ("age", "int"); ("tags", "['a', 2]");
                   ("kind", "auto"); ("size", "-7"); ("ok", "True");
                   ("none", "None"); ("half", "1.5")]), c').
Proof.
  destruct (config_round_trip "users"
              [("name", VType TyStr); ("age", VType TyInt);
               ("tags", VList [VStr "a"; VInt 2]);
               ("kind", VStr "auto"); ("size", VInt (-7)); ("ok", VBool true);
               ("none", VNone); ("half", VFloat (S754_finite false 3 (-1)))]
              noon (Database.connect ∅) (table_of (Database.connect ∅) "_skypy_config"))
    as (c' & t' & r & Hsave & Ht' & Hr & Hname & Hcfg & _ & Hget & _).
  - run.
  - apply is_config_relation_sound. run.
  - decide_it.
  - exists c', t', r.
    split; [exact Hsave |]. split; [exact Ht' |]. split; [exact Hr |].
    split; [exact Hname |]. split; [exact Hcfg | exact Hget].
Defined.

(** What the example of the round trip stores and reads back. *)
Lemma config_round_trip_example :
  (Database.get_table_config "users"
     (Database.save_table_config "users"
        [("name", VType TyStr); ("age", VType TyInt); ("tags", VList [VStr "a"])]
        noon (Database.connect ∅)).2).1
  = Ok (Some [("name", "str"); ("age", "int"); ("tags", "['a']")]).
Proof. run. Qed.

(** ** The tables the class makes

    The statements above are about tables of the data model and about the
    system relation.  These are the tables the class itself makes and
    keeps. *)

(** Opening a database that has no system relation makes it. *)
Lemma connect_config_relation (db : Sql.store) :
  plain_store db →
  db !! Database.config_table = None →
  ∃ t, live (Database.connect db) !! Database.config_table = Some t
       ∧ config_relation t ∧ Sql.rows t = []
       ∧ durable (Database.connect db) = live (Database.connect db).
Proof.
  intros Hdb Hno. unfold Database.connect, Database._ensure_config_table.
  rewrite run_bind. unfold execute. simpl.
  rewrite (like_named_plain db Database.config_table Hdb eq_refl Hno). simpl.
  eexists. split; [apply lookup_insert_eq |].
  split; [apply is_config_relation_sound; reflexivity |].
  split; reflexivity.
Qed.

(** Opening a database leaves the tables it finds. *)
Lemma connect_keeps (db : Sql.store) (name : string) :
  name ≠ Database.config_table →
  live (Database.connect db) !! name = db !! name.
Proof.
  intros Hne. unfold Database.connect, Database._ensure_config_table.
  rewrite run_bind. unfold execute. simpl.
  destruct (Sql.like_named db Database.config_table); simpl; [reflexivity |].
  apply lookup_insert_ne. congruence.
Qed.

(** [create_table] makes a table of the data model, with no rows. *)
Lemma create_table_data_table (name : string) (c : connection) :
  plain_store (live c) →
  Sql.plain name = true →
  has_table (live c) name = false →
  ∃ c' t,
    Database.create_table name c = (Ok tt, c')
    ∧ live c' !! name = Some t
    ∧ data_table t ∧ Sql.rows t = []
    ∧ Sql.columns t = ["id"; "created_at"]
    ∧ durable c' = live c'.
Proof.
  intros Hdb Hname Hno. unfold has_table in Hno.
  destruct (live c !! name) eqn:E; [discriminate |].
  unfold Database.create_table. rewrite run_bind. unfold execute. simpl.
  rewrite E. simpl. rewrite run_bind. unfold execute. simpl.
  rewrite (plain_closed name Hname), (plain_not_kept name Hname),
    (like_named_plain _ _ Hdb Hname E). simpl.
  eexists _, _. split; [reflexivity |]. simpl.
  split; [apply lookup_insert_eq |].
  split; [apply is_data_table_sound; reflexivity |].
  repeat split.
Qed.

(** [insert_data] keeps a table in the data model. *)
(** A new database has plain names only. *)
Lemma connect_plain_store : plain_store (live (Database.connect ∅)).
Proof. decide_it. Qed.

Lemma after_insert_data_table (t : Sql.table) (d : pydict) :
  data_table t → data_table (after_insert t d).
Proof.
  intros (Hid & Hcr & Hnn & Hpk). unfold after_insert, data_table.
  change (Sql.columns (Sql.Table ?ds ?rs)) with (map Sql.cname ds).
  change (Sql.defs (Sql.Table ?ds ?rs)) with ds.
  unfold extend. cbn [Sql.defs]. rewrite map_app.
  split; [apply elem_of_app; left; exact Hid |].
  split; [apply elem_of_app; left; exact Hcr |].
  split; intros df Hdf Hflag; apply elem_of_app in Hdf as [Hdf | Hdf]; auto;
    apply list_elem_of_fmap in Hdf as (col & -> & _); discriminate.
Qed.

(* ===================================================================== *)
(** * Part III: the rest of the class and its client                      *)
(* ===================================================================== *)

(** ** Tables and columns *)

Lemma filter_none {A} (f : A → bool) (l : list A) :
  (∀ x, x ∈ l → f x = false) → List.filter f l = [].
Proof.
  induction l as [| x l IH]; intros H; [reflexivity |].
  simpl. rewrite H by left. apply IH. intros y Hy. apply H. right. exact Hy.
Qed.

Lemma filter_all {A} (f : A → bool) (l : list A) :
  (∀ x, x ∈ l → f x = true) → List.filter f l = l.
Proof.
  induction l as [| x l IH]; intros H; [reflexivity |].
  simpl. rewrite H by left. f_equal. apply IH. intros y Hy. apply H. right. exact Hy.
Qed.

Lemma filter_sublist {A} (f : A → bool) (l : list A) :
  List.filter f l `sublist_of` l.
Proof.
  induction l as [| x l IH]; [constructor |].
  simpl. destruct (f x); [apply sublist_skip | apply sublist_cons]; exact IH.
Qed.

Lemma filter_split_length {A} (f : A → bool) (l : list A) :
  (length (List.filter f l) + length (List.filter (fun x => negb (f x)) l)
   = length l)%nat.
Proof.
  induction l as [| x l IH]; [reflexivity |].
  simpl. destruct (f x); simpl; lia.
Qed.

Lemma create_table_run (name : string) (c : connection) :
  plain_store (live c) →
  Sql.plain name = true →
  has_table (live c) name = false →
  Database.create_table name c
  = (Ok tt,
     let db := <[name := Sql.Table [Sql.ColDef "id" true false;
                                    Sql.ColDef "created_at" false true] []]> (live c) in
     Connection db db false).
Proof.
  intros Hdb Hname Hno. unfold has_table in Hno.
  destruct (live c !! name) eqn:E; [discriminate |].
  unfold Database.create_table. rewrite run_bind. unfold execute. simpl.
  rewrite E. simpl. rewrite run_bind. unfold execute. simpl.
  rewrite (plain_closed name Hname), (plain_not_kept name Hname),
    (like_named_plain _ _ Hdb Hname E).
  reflexivity.
Qed.

(** [create_table] on a plain name keeps the names of the database plain. *)
Lemma create_table_plain_store (name : string) (c : connection) :
  plain_store (live c) →
  Sql.plain name = true →
  has_table (live c) name = false →
  plain_store (live (Database.create_table name c).2).
Proof.
  intros Hdb Hname Hno. rewrite (create_table_run name c Hdb Hname Hno).
  cbn [snd live]. apply map_Forall_insert_2; [| exact Hdb].
  constructor; [exact Hname |]. repeat (constructor; [reflexivity |]). constructor.
Qed.

Lemma create_table_exists (name : string) (c : connection) :
  has_table (live c) name = true →
  Database.create_table name c = (Raise (Database.already_exists name), c).
Proof.
  intros Hex. unfold has_table in Hex.
  destruct (live c !! name) eqn:E; [| discriminate].
  unfold Database.create_table. rewrite run_bind. unfold execute. simpl.
  rewrite E. reflexivity.
Qed.

Lemma delete_table_missing (name : string) (c : connection) :
  has_table (live c) name = false →
  Database.delete_table name c = (Raise (Database.not_found name), c).
Proof.
  intros H. unfold Database.delete_table.
  rewrite (run_bind_ok _ _ _ _ _ (table_exists_run name c)), H. reflexivity.
Qed.

Lemma get_table_columns_missing (name : string) (c : connection) :
  has_table (live c) name = false →
  Database.get_table_columns name c = (Raise (Database.not_found name), c).
Proof.
  intros H. unfold Database.get_table_columns.
  rewrite (run_bind_ok _ _ _ _ _ (table_exists_run name c)), H. reflexivity.
Qed.

Lemma search_missing (name : string) (index : option pyval) (filters : pydict)
    (c : connection) :
  has_table (live c) name = false →
  Database.search name index filters c = (Raise (Database.not_found name), c).
Proof.
  intros H. unfold Database.search.
  rewrite (run_bind_ok _ _ _ _ _ (table_exists_run name c)), H. reflexivity.
Qed.

Lemma get_all_data_missing (name : string) (c : connection) :
  has_table (live c) name = false →
  Database.get_all_data name c = (Raise (Database.not_found name), c).
Proof.
  intros H. unfold Database.get_all_data.
  rewrite (run_bind_ok _ _ _ _ _ (table_exists_run name c)), H. reflexivity.
Qed.

(** X1.  [create_table] on a plain name that is not a table yet, in a
    database whose tables and columns have plain names, makes a table
    with the columns [id] and [created_at] and no rows, and commits:
    [table_exists] is true of it afterwards, the other tables are as they
    were, and a second [create_table] raises [TableAlreadyExistsError]
    and changes nothing. *)
Theorem create_table_fresh (name : string) (c : connection) :
  plain_store (live c) →
  Sql.plain name = true →
  has_table (live c) name = false →
  ∃ c',
    Database.create_table name c = (Ok tt, c')
    ∧ Database.table_exists name c' = (Ok true, c')
    ∧ Database.get_table_columns name c' = (Ok ["id"; "created_at"], c')
    ∧ Database.get_all_data name c' = (Ok [], c')
    ∧ Database.create_table name c' = (Raise (Database.already_exists name), c')
    ∧ (∀ other, other ≠ name → live c' !! other = live c !! other)
    ∧ durable c' = live c'.
Proof.
  intros Hdb Hname Hno. eexists. split; [apply create_table_run; assumption |].
  cbn zeta.
  set (t := Sql.Table [Sql.ColDef "id" true false; Sql.ColDef "created_at" false true] []).
  set (c' := Connection _ _ _).
  assert (Ht : live c' !! name = Some t) by apply lookup_insert_eq.
  assert (Hex : has_table (live c') name = true)
    by (unfold has_table; rewrite Ht; reflexivity).
  split; [rewrite table_exists_run, Hex; reflexivity |].
  split; [apply (get_table_columns_run name c' t Ht Hname) |].
  split; [apply (get_all_data_run name c' t Ht Hname) |].
  split; [apply create_table_exists, Hex |].
  split; [| reflexivity].
  intros other Hne. apply lookup_insert_ne. congruence.
Qed.

Lemma create_table_fresh_witness :
  ∃ c',
    Database.create_table "users" (Database.connect ∅) = (Ok tt, c')
    ∧ Database.table_exists "users" c' = (Ok true, c')
    ∧ Database.get_table_columns "users" c' = (Ok ["id"; "created_at"], c')
    ∧ Database.get_all_data "users" c' = (Ok [], c')
    ∧ Database.create_table "users" c' = (Raise (Database.already_exists "users"), c')
    ∧ (∀ other, other ≠ "users" →
       live c' !! other = live (Database.connect ∅) !! other)
    ∧ durable c' = live c'.
Proof.
  apply (create_table_fresh "users" (Database.connect ∅)).
  - decide_it.
  - run.
  - run.
Defined.



Lemma added_again (existing columns : list string) :
  added (existing ++ added existing columns) columns = [].
Proof.
  apply filter_none. intros x Hx.
  destruct (Database.reserved x) eqn:Er; [apply andb_false_r |].
  rewrite andb_true_r. apply negb_false_iff, mem_true, elem_of_app.
  destruct (Sql.mem x existing) eqn:Em; [left; apply mem_true, Em |].
  right. unfold added. apply elem_of_filter_bool. rewrite Em, Er. auto.
Qed.

(** X3.  [add_columns_if_needed] with distinct names adds, after the
    columns the table has and in the order given, the names that are
    neither columns already nor [id] or [created_at]; it keeps the rows
    and the other tables.  Every name asked for, [id] and
    [created_at] apart, is then a column, and the same call once more
    changes nothing. *)
Theorem add_columns_if_needed_idempotent (name : string)
    (columns : list string) (c : connection) (t : Sql.table) :
  live c !! name = Some t →
  plain_names (name :: Sql.columns t ++ columns) →
  NoDup columns →
  ∃ c' t',
    Database.add_columns_if_needed name columns c = (Ok tt, c')
    ∧ live c' !! name = Some t'
    ∧ Database.get_table_columns name c'
      = (Ok (Sql.columns t ++ added (Sql.columns t) columns), c')
    ∧ (∀ col, col ∈ columns → Database.reserved col = false →
       col ∈ Sql.columns t')
    ∧ Sql.rows t' = Sql.rows t
    ∧ (∀ other, other ≠ name → live c' !! other = live c !! other)
    ∧ Database.add_columns_if_needed name columns c' = (Ok tt, c').
Proof.
  intros Ht Hplain Hnd.
  pose proof (plain_head _ _ Hplain) as Hname.
  set (t' := extend t (added (Sql.columns t) columns)).
  set (c' := Connection (<[name := t']> (live c)) (<[name := t']> (live c)) false).
  exists c', t'.
  assert (Ht' : live c' !! name = Some t') by apply lookup_insert_eq.
  assert (Hplain' : plain_names (name :: Sql.columns t' ++ columns)).
  { apply plain_names_cons in Hplain as [_ Hplain].
    apply plain_names_app in Hplain as [Hcols Hnew].
    constructor; [exact Hname |]. apply plain_names_app. split; [| exact Hnew].
    unfold t'. rewrite columns_extend. apply plain_names_app. split; [exact Hcols |].
    apply Forall_forall. intros k Hk. apply elem_of_filter_bool in Hk as [Hk _].
    exact (proj1 (Forall_forall _ _) Hnew k Hk). }
  split; [apply add_columns_run; assumption |].
  split; [exact Ht' |].
  split.
  { rewrite (get_table_columns_run _ _ t' Ht' Hname). unfold t'.
    rewrite columns_extend. reflexivity. }
  split.
  { intros col Hcol Hres. unfold t'. rewrite columns_extend. apply elem_of_app.
    destruct (Sql.mem col (Sql.columns t)) eqn:Em; [left; apply mem_true, Em |].
    right. unfold added. apply elem_of_filter_bool. rewrite Em, Hres. auto. }
  split; [reflexivity |].
  split; [intros other Hne; apply lookup_insert_ne; congruence |].
  rewrite (add_columns_run name columns _ t' Ht' Hplain' Hnd). cbn [live].
  assert (Hsame : extend t' (added (Sql.columns t') columns) = t').
  { unfold t' at 2. rewrite columns_extend, added_again. apply extend_nil. }
  rewrite Hsame. unfold c'. cbn [live]. rewrite insert_insert_eq. reflexivity.
Qed.

Lemma add_columns_if_needed_idempotent_witness :
  ∃ c' t',
    Database.add_columns_if_needed "users" ["email"; "id"; "name"] people_db
    = (Ok tt, c')
    ∧ live c' !! "users" = Some t'
    ∧ Database.get_table_columns "users" c'
      = (Ok (Sql.columns (table_of people_db "users")
             ++ added (Sql.columns (table_of people_db "users"))
                  ["email"; "id"; "name"]), c')
    ∧ (∀ col, col ∈ ["email"; "id"; "name"] → Database.reserved col = false →
       col ∈ Sql.columns t')
    ∧ Sql.rows t' = Sql.rows (table_of people_db "users")
    ∧ (∀ other, other ≠ "users" → live c' !! other = live people_db !! other)
    ∧ Database.add_columns_if_needed "users" ["email"; "id"; "name"] c' = (Ok tt, c').
Proof.
  apply (add_columns_if_needed_idempotent "users" ["email"; "id"; "name"]
           people_db (table_of people_db "users")).
  - run.
  - decide_it.
  - decide_it.
Defined.




(** X5.  The operations on one table check first that the table exists:
    on a name that is not a table, [delete_table], [get_table_columns],
    [add_columns_if_needed], [insert_data], [search], [get_all_data] and
    [delete_data] raise [TableNotFoundError] for that name and leave the
    connection, and [insert_data] the caller's mapping, as they were. *)
Theorem missing_table_errors (name : string) (columns : list string)
    (generate_id : bool) (rnd : Z) (now : datetime) (d : pydict)
    (index : option pyval) (filters : pydict) (c : connection) :
  has_table (live c) name = false →
  Database.delete_table name c = (Raise (Database.not_found name), c)
  ∧ Database.get_table_columns name c = (Raise (Database.not_found name), c)
  ∧ Database.add_columns_if_needed name columns c
    = (Raise (Database.not_found name), c)
  ∧ Database.insert_data name generate_id rnd now (Database.Caller d c)
    = (Raise (Database.not_found name), Database.Caller d c)
  ∧ Database.search name index filters c = (Raise (Database.not_found name), c)
  ∧ Database.get_all_data name c = (Raise (Database.not_found name), c)
  ∧ Database.delete_data name filters c = (Raise (Database.not_found name), c).
Proof.
  intros Hno.
  split; [apply delete_table_missing, Hno |].
  split; [apply get_table_columns_missing, Hno |].
  split.
  { unfold Database.add_columns_if_needed.
    rewrite (run_bind_raise _ _ _ _ _ (get_table_columns_missing name c Hno)).
    reflexivity. }
  split; [apply insert_data_no_table, Hno |].
  split; [apply search_missing, Hno |].
  split; [apply get_all_data_missing, Hno |].
  unfold Database.delete_data.
  rewrite (run_bind_ok _ _ _ _ _ (table_exists_run name c)), Hno. reflexivity.
Qed.

Lemma missing_table_errors_witness :
  Database.delete_table "orders" people_db
  = (Raise (Database.not_found "orders"), people_db)
  ∧ Database.get_table_columns "orders" people_db
    = (Raise (Database.not_found "orders"), people_db)
  ∧ Database.add_columns_if_needed "orders" ["total"] people_db
    = (Raise (Database.not_found "orders"), people_db)
  ∧ Database.insert_data "orders" true 3 noon
      (Database.Caller [("total", VInt 5)] people_db)
    = (Raise (Database.not_found "orders"),
       Database.Caller [("total", VInt 5)] people_db)
  ∧ Database.search "orders" (Some (VStr "x")) [("total", VInt 5)] people_db
    = (Raise (Database.not_found "orders"), people_db)
  ∧ Database.get_all_data "orders" people_db
    = (Raise (Database.not_found "orders"), people_db)
  ∧ Database.delete_data "orders" [("total", VInt 5)] people_db
    = (Raise (Database.not_found "orders"), people_db).
Proof.
  apply (missing_table_errors "orders" ["total"] true 3 noon [("total", VInt 5)]
           (Some (VStr "x")) [("total", VInt 5)] people_db).
  run.
Defined.

(** ** Rows *)









(** ** Searching and deleting *)

Lemma unreserved_none (filters : pydict) :
  Forall (fun kv => Database.reserved kv.1 = true) filters →
  unreserved filters = [].
Proof.
  induction 1 as [| kv filters Hkv _ IH]; [reflexivity |].
  unfold unreserved in *. simpl. rewrite Hkv. exact IH.
Qed.

(** X9.  [search] leaves out the filters keyed [id] and [created_at]:
    with no index and only such filters it returns what [get_all_data]
    returns, every row of the table whatever the values asked for (and
    the same error when the table is missing). *)
Theorem search_ignores_reserved_filters (name : string) (filters : pydict)
    (c : connection) :
  Sql.plain name = true →
  Forall (fun kv => Database.reserved kv.1 = true) filters →
  Database.search name None filters c = Database.get_all_data name c.
Proof.
  intros Hname Hall. destruct (has_table (live c) name) eqn:Hex.
  - unfold has_table in Hex. destruct (live c !! name) as [t |] eqn:Ht; [| discriminate].
    rewrite (search_run name None filters c t Ht Hname)
      by (rewrite (unreserved_none _ Hall); constructor).
    rewrite (get_all_data_run name c t Ht Hname).
    rewrite (unreserved_none _ Hall). simpl. unfold select_where. simpl.
    rewrite filter_all; [reflexivity | reflexivity].
  - rewrite search_missing, get_all_data_missing by assumption. reflexivity.
Qed.

Lemma search_ignores_reserved_filters_witness :
  Database.search "users" None [("id", VStr "no-such-id")] people_db
  = Database.get_all_data "users" people_db.
Proof.
  apply (search_ignores_reserved_filters "users" [("id", VStr "no-such-id")] people_db).
  - run.
  - repeat constructor.
Defined.

Lemma any_cell (r : Sql.row) (text : string) (cols : list string) :
  match fold_right (fun cp acc => Sql.or3 (Sql.eq3 (r !! cp.1) cp.2) acc) (Some false)
          (zip cols (map (fun _ => text) cols)) with
  | Some true => true
  | _ => false
  end = existsb (cell_eq r text) cols.
Proof.
  induction cols as [| col cols IH]; [reflexivity |].
  cbn [map zip zip_with fold_right existsb fst snd]. rewrite <- IH.
  unfold cell_eq. destruct (r !! col) as [x |]; simpl.
  - destruct (String.eqb x text); simpl.
    + destruct (fold_right _ _ _) as [[|] |]; reflexivity.
    + destruct (fold_right _ _ _) as [[|] |]; reflexivity.
  - destruct (fold_right _ _ _) as [[|] |]; reflexivity.
Qed.

(** X10.  [search] with an index value and no filters returns, in
    the order of storage, the rows in which some column other than [id]
    and [created_at] holds the text of the value; when the table has no
    such column the index is not used and every row is returned. *)
Theorem search_by_index (name : string) (i : pyval) (c : connection)
    (t : Sql.table) :
  live c !! name = Some t →
  plain_names (name :: Sql.columns t) →
  Database.search name (Some i) [] c
  = (Ok (map (Sql.star t) (List.filter (index_hit t i) (Sql.rows t))), c).
Proof.
  intros Ht Hplain. rewrite (search_run_plain name (Some i) [] c t Ht)
    by (cbn [dict_keys map]; rewrite app_nil_r; exact Hplain).
  unfold unreserved. simpl. rewrite app_nil_r.
  unfold index_pairs, index_hit, select_where.
  destruct (List.filter _ (Sql.columns t)) as [| col cols] eqn:E.
  - simpl. rewrite !filter_all by (intros; reflexivity). reflexivity.
  - cbn [map concat fst Sql.cond_columns]. rewrite app_nil_r.
    rewrite first_missing_none.
    2:{ intros k Hk. rewrite <- E in Hk. apply elem_of_filter_bool in Hk. tauto. }
    do 3 f_equal. apply filter_ext. intros r.
    unfold Sql.keeps, Sql.eval_all. cbn [fold_right fst snd Sql.eval_cond].
    rewrite <- (any_cell r (py_str i) (col :: cols)).
    destruct (fold_right _ _ _) as [[|] |]; reflexivity.
Qed.

Lemma search_by_index_witness :
  Database.search "users" (Some (VInt 41)) [] people_db
  = (Ok (map (Sql.star (table_of people_db "users"))
           (List.filter (index_hit (table_of people_db "users") (VInt 41))
              (Sql.rows (table_of people_db "users")))), people_db).
Proof.
  apply (search_by_index "users" (VInt 41) people_db (table_of people_db "users")).
  - run.
  - decide_it.
Defined.

Lemma keeps_all (l : list (Sql.cond * list string)) (r : Sql.row) :
  Sql.keeps l r = true → ∀ cp, cp ∈ l → holds r cp = true.
Proof.
  induction l as [| cp0 l IH]; intros Hk cp Hcp; [inversion Hcp |].
  rewrite keeps_cons in Hk. apply andb_prop in Hk as [H0 Hl].
  apply elem_of_cons in Hcp as [-> | Hcp]; [exact H0 | apply IH; assumption].
Qed.

Lemma first_missing_all (cols cs : list string) :
  Sql.first_missing cols cs = None → ∀ k, k ∈ cs → k ∈ cols.
Proof.
  induction cs as [| c0 cs IH]; intros H k Hk; [inversion Hk |].
  simpl in H. destruct (Sql.mem c0 cols) eqn:E; [| discriminate].
  apply elem_of_cons in Hk as [-> | Hk]; [apply mem_true, E | apply IH; assumption].
Qed.

Lemma filter_pair_column (kv : string * pyval) :
  Sql.cond_columns (filter_pair kv).1 = [kv.1].
Proof. destruct kv as [k v]. unfold filter_pair. simpl. destruct v as [| | | | | [| ? ?] |]; reflexivity. Qed.

(** X11.  What [search] returns are rows of the table, in the order
    [get_all_data] gives them, and each of them meets every filter not
    keyed [id] or [created_at]: its cell under the filter's key is not
    NULL and holds the text of the value, or of one of the values of a
    non-empty list. *)
Theorem search_sound (name : string) (index : option pyval) (filters : pydict)
    (c : connection) (t : Sql.table) (found : list (dict (option string))) :
  live c !! name = Some t →
  plain_names (name :: Sql.columns t ++ dict_keys filters) →
  Database.search name index filters c = (Ok found, c) →
  ∃ everything,
    Database.get_all_data name c = (Ok everything, c)
    ∧ found `sublist_of` everything
    ∧ ∀ row key value,
        row ∈ found → (key, value) ∈ filters → Database.reserved key = false →
        ∃ text, dict_get key row = Some (Some text) ∧ text ∈ filter_texts value.
Proof.
  intros Ht Hplain Hrun.
  rewrite (search_run_plain name index filters c t Ht Hplain) in Hrun.
  injection Hrun as Hsel. pose proof (select_where_found _ _ _ Hsel) as ->.
  exists (map (Sql.star t) (Sql.rows t)).
  split; [apply (get_all_data_run name c t Ht (plain_head _ _ Hplain)) |].
  split; [apply (fmap_sublist (Sql.star t)), filter_sublist |].
  intros row key value Hrow Hkv Hres.
  apply list_elem_of_fmap in Hrow as (r & -> & Hr).
  apply elem_of_filter_bool in Hr as [_ Hkeep].
  rewrite keeps_app in Hkeep. apply andb_prop in Hkeep as [_ Hkeep].
  assert (Hin : filter_pair (key, value) ∈ map filter_pair (unreserved filters)).
  { apply list_elem_of_fmap. exists (key, value). split; [reflexivity |].
    apply elem_of_filter_bool. split; [exact Hkv |]. simpl. rewrite Hres. reflexivity. }
  pose proof (keeps_all _ _ Hkeep _ Hin) as Hholds.
  rewrite holds_filter_pair in Hholds.
  assert (Hcol : key ∈ Sql.columns t).
  { unfold select_where in Hsel.
    destruct (Sql.first_missing _ _) eqn:Hm in Hsel; [discriminate |].
    apply (first_missing_all _ _ Hm). rewrite map_app, concat_app.
    apply elem_of_app. right. apply list_elem_of_In, in_concat.
    exists [key]. split; [| left; reflexivity].
    apply in_map_iff. exists (filter_pair (key, value)).
    split; [rewrite filter_pair_column; reflexivity |].
    apply list_elem_of_In. exact Hin. }
  destruct (r !! key) as [x |] eqn:Hx; [| discriminate].
  exists x. split.
  - rewrite (star_lookup t r key Hcol), Hx. reflexivity.
  - apply existsb_exists in Hholds as (p & Hp & Heq).
    apply String.eqb_eq in Heq. subst. apply list_elem_of_In. exact Hp.
Qed.

Lemma search_sound_witness :
  ∃ everything,
    Database.get_all_data "users" people_db = (Ok everything, people_db)
    ∧ returned [] (Database.search "users" None [("name", VStr "Bob")] people_db).1
      `sublist_of` everything
    ∧ ∀ row key value,
        row ∈ returned [] (Database.search "users" None [("name", VStr "Bob")] people_db).1 →
        (key, value) ∈ [("name", VStr "Bob")] → Database.reserved key = false →
        ∃ text, dict_get key row = Some (Some text) ∧ text ∈ filter_texts value.
Proof.
  apply (search_sound "users" None [("name", VStr "Bob")] people_db
           (table_of people_db "users")).
  - run.
  - decide_it.
  - run.
Defined.

(** X12.  [delete_data] with no filters deletes nothing: on a table
    that exists it raises [ValueError], on a name that is not a table
    [TableNotFoundError]; the connection stays as it was. *)
Theorem delete_data_needs_filters (name : string) (c : connection) :
  Database.delete_data name [] c
  = (Raise (if has_table (live c) name then Database.no_filters
            else Database.not_found name), c).
Proof.
  unfold Database.delete_data.
  rewrite (run_bind_ok _ _ _ _ _ (table_exists_run name c)).
  destruct (has_table (live c) name); reflexivity.
Qed.

(** X13.  After [delete_data] with filters none of which is keyed [id],
    [created_at] or [index], the rows left are rows there were, in their
    order; the count returned and the rows left add up to the rows there
    were; [search] called with the same keywords finds nothing and a second
    [delete_data] deletes nothing.  The other tables are untouched and the
    deletion is committed. *)
Theorem delete_data_then_search (name : string) (filters : pydict)
    (c c' : connection) (t : Sql.table) (n : Z) :
  live c !! name = Some t →
  plain_names (name :: Sql.columns t ++ dict_keys filters) →
  Forall (fun kv => Database.reserved kv.1 = false) filters →
  "index" ∉ dict_keys filters →
  Database.delete_data name filters c = (Ok n, c') →
  ∃ before after,
    Database.get_all_data name c = (Ok before, c)
    ∧ Database.get_all_data name c' = (Ok after, c')
    ∧ after `sublist_of` before
    ∧ n + Z.of_nat (length after) = Z.of_nat (length before)
    ∧ Database.search_keywords name filters c' = (Ok [], c')
    ∧ (Database.delete_data name filters c').1 = Ok 0
    ∧ (∀ other, other ≠ name → live c' !! other = live c !! other)
    ∧ durable c' = live c'.
Proof.
  intros Ht Hplain Hall Hindex Hrun.
  pose proof (plain_head _ _ Hplain) as Hname.
  assert (Hkeys : plain_names (name :: dict_keys filters)).
  { apply plain_names_cons in Hplain as [_ H]. apply plain_names_app in H as [_ H].
    constructor; assumption. }
  assert (Hne : filters ≠ []).
  { intros ->. unfold Database.delete_data in Hrun.
    rewrite (run_bind_ok _ _ _ _ _ (table_exists_run name c)) in Hrun.
    destruct (has_table (live c) name); discriminate. }
  rewrite (delete_run name filters c t Ht Hkeys Hne) in Hrun.
  destruct (Sql.first_missing _ _) eqn:Hm in Hrun; [discriminate |].
  cbn zeta in Hrun. injection Hrun as <- <-.
  set (l := map filter_pair filters) in *.
  set (t' := Sql.Table (Sql.defs t)
               (List.filter (fun r => negb (Sql.keeps l r)) (Sql.rows t))).
  set (c' := Connection (<[name := t']> (live c)) (<[name := t']> (live c)) false).
  assert (Ht' : live c' !! name = Some t') by apply lookup_insert_eq.
  assert (Hgone : List.filter (Sql.keeps l) (Sql.rows t') = []).
  { apply filter_none. intros r Hr. unfold t' in Hr. cbn [Sql.rows] in Hr.
    apply list_elem_of_In, filter_In in Hr as [_ Hr].
    apply negb_true_iff. exact Hr. }
  exists (map (Sql.star t) (Sql.rows t)), (map (Sql.star t') (Sql.rows t')).
  split; [apply (get_all_data_run name c t Ht Hname) |].
  split; [apply (get_all_data_run name c' t' Ht' Hname) |].
  split.
  { change (Sql.star t') with (Sql.star t).
    apply (fmap_sublist (Sql.star t)). unfold t'. cbn [Sql.rows].
    clear. induction (Sql.rows t) as [| r rs IH]; [constructor |].
    simpl. destruct (negb _); [apply sublist_skip | apply sublist_cons]; exact IH. }
  split.
  { rewrite !length_map. unfold t'. cbn [Sql.rows].
    pose proof (filter_split_length (Sql.keeps l) (Sql.rows t)). lia. }
  split.
  { rewrite (search_keywords_filters name filters Hindex).
    rewrite (search_run_plain name None filters c' t' Ht' Hplain).
    rewrite (unreserved_all _ Hall). cbn [index_pairs app]. fold l.
    unfold select_where. change (Sql.columns t') with (Sql.columns t).
    rewrite Hm, Hgone. reflexivity. }
  split.
  { rewrite (delete_run name filters c' t' Ht' Hkeys Hne). fold l.
    change (Sql.columns t') with (Sql.columns t). rewrite Hm.
    cbn zeta. cbn [fst]. rewrite Hgone. reflexivity. }
  split; [| reflexivity].
  intros other Hne'. apply lookup_insert_ne. congruence.
Qed.

Lemma delete_data_then_search_witness :
  ∃ before after,
    Database.get_all_data "users" people_db = (Ok before, people_db)
    ∧ Database.get_all_data "users"
        (Database.delete_data "users" [("name", VStr "Bob")] people_db).2
      = (Ok after, (Database.delete_data "users" [("name", VStr "Bob")] people_db).2)
    ∧ after `sublist_of` before
    ∧ 1 + Z.of_nat (length after) = Z.of_nat (length before)
    ∧ Database.search_keywords "users" [("name", VStr "Bob")]
        (Database.delete_data "users" [("name", VStr "Bob")] people_db).2
      = (Ok [], (Database.delete_data "users" [("name", VStr "Bob")] people_db).2)
    ∧ (Database.delete_data "users" [("name", VStr "Bob")]
         (Database.delete_data "users" [("name", VStr "Bob")] people_db).2).1 = Ok 0
    ∧ (∀ other, other ≠ "users" →
       live (Database.delete_data "users" [("name", VStr "Bob")] people_db).2 !! other
       = live people_db !! other)
    ∧ durable (Database.delete_data "users" [("name", VStr "Bob")] people_db).2
      = live (Database.delete_data "users" [("name", VStr "Bob")] people_db).2.
Proof.
  apply (delete_data_then_search "users" [("name", VStr "Bob")] people_db
           (Database.delete_data "users" [("name", VStr "Bob")] people_db).2
           (table_of people_db "users") 1).
  - run.
  - decide_it.
  - repeat constructor.
  - decide_it.
  - run.
Defined.

(** ** Saved configs *)

Lemma keeps_table_name (name : string) (r : Sql.row) :
  Sql.keeps [(Sql.EqP "table_name", [name])] r = cell_eq r name "table_name".
Proof.
  unfold Sql.keeps, cell_eq. simpl. destruct (r !! "table_name") as [x |]; simpl;
    [destruct (String.eqb x name) |]; reflexivity.
Qed.

Lemma get_table_config_run (name : string) (c : connection) (t : Sql.table) :
  live c !! Database.config_table = Some t →
  system_relation t →
  Database.get_table_config name c = (read_config (saved_under name (Sql.rows t)), c).
Proof.
  intros Ht Hdefs. unfold Database.get_table_config. rewrite run_bind.
  unfold execute. simpl Sql.exec. rewrite Ht.
  unfold Sql.columns. rewrite Hdefs. cbn [map Sql.cname Sql.mem existsb String.eqb
    Ascii.eqb Bool.eqb orb andb].
  rewrite compile_eq by left.
  cbn [Sql.kind_of Sql.fetched fetchone]. unfold saved_under, read_config.
  rewrite (filter_ext _ _ (keeps_table_name name)).
  destruct (List.filter _ (Sql.rows t)) as [| r rs]; [reflexivity |].
  unfold fetchone, item. cbn [map Sql.fetched head lookup list_lookup].
  destruct (r !! "config") as [text |]; [| reflexivity].
  destruct (Json.loads text); reflexivity.
Qed.

Lemma config_row_cells (name text stamp : string) :
  config_row name text stamp !! "table_name" = Some name
  ∧ config_row name text stamp !! "config" = Some text
  ∧ config_row name text stamp !! "created_at" = Some stamp.
Proof. exact (config_row_lookup name text stamp). Qed.

Lemma clashes_table_name (name text stamp : string) (r' : Sql.row) :
  Sql.clashes "table_name" (config_row name text stamp) r'
  = cell_eq r' name "table_name".
Proof.
  unfold Sql.clashes, cell_eq.
  destruct (config_row_cells name text stamp) as (H1 & _ & _).
  rewrite H1. destruct (r' !! "table_name") as [x |]; [| reflexivity].
  apply String.eqb_sym.
Qed.

Lemma save_table_config_run (name : string) (config : pydict) (now : datetime)
    (c : connection) (t : Sql.table) :
  live c !! Database.config_table = Some t →
  system_relation t →
  Database.save_table_config name config now c
  = (Ok tt,
     let t' := Sql.Table (Sql.defs t)
                 (List.filter (fun r => negb (cell_eq r name "table_name")) (Sql.rows t)
                  ++ [config_row name (Json.dumps (Database._normalize_config config))
                        (isoformat now)]) in
     Connection (<[Database.config_table := t']> (live c))
       (<[Database.config_table := t']> (live c)) false).
Proof.
  intros Ht Hdefs. unfold Database.save_table_config.
  rewrite run_bind. unfold execute. simpl Sql.exec. rewrite Ht.
  set (text := Json.dumps _). set (stamp := isoformat now).
  assert (Hrow : Sql.insert_row true Database.config_table t
                   ["table_name"; "config"; "created_at"] [name; text; stamp]
                 = Sql.Done (Sql.Table (Sql.defs t)
                     (List.filter (fun r => negb (cell_eq r name "table_name")) (Sql.rows t)
                      ++ [config_row name text stamp]))).
  { unfold Sql.insert_row, Sql.columns. rewrite Hdefs.
    destruct (config_row_cells name text stamp) as (H1 & H2 & H3).
    cbn [map Sql.cname Sql.first_missing Sql.mem existsb String.eqb Ascii.eqb
         Bool.eqb orb andb length Nat.eqb negb].
    fold (config_row name text stamp).
    unfold Sql.null_violation. cbn [List.find Sql.cnotnull Sql.cname andb].
    rewrite H2, H3. cbn [fmap option_fmap option_map].
    do 3 f_equal. apply filter_ext. intros r'.
    unfold Sql.clashes_any. cbn [existsb Sql.cpk Sql.cname andb orb].
    rewrite orb_false_r. rewrite clashes_table_name. reflexivity. }
  rewrite Hrow. reflexivity.
Qed.

Lemma cell_eq_other (r : Sql.row) (name other : string) :
  other ≠ name → cell_eq r other "table_name" = true →
  cell_eq r name "table_name" = false.
Proof.
  unfold cell_eq. intros Hne. destruct (r !! "table_name") as [x |]; [| discriminate].
  intros Hx. apply String.eqb_eq in Hx. subst.
  apply String.eqb_neq. exact Hne.
Qed.

(** After a save under [name], the rows saved under another name are the
    ones there were, and the only row under [name] is the new one. *)
Lemma saved_under_after_save (name other text stamp : string) (rows : list Sql.row) :
  saved_under other
    (List.filter (fun r => negb (cell_eq r name "table_name")) rows
     ++ [config_row name text stamp])
  = if String.eqb other name then [config_row name text stamp]
    else saved_under other rows.
Proof.
  unfold saved_under. rewrite List.filter_app. cbn [List.filter].
  assert (Hnew : cell_eq (config_row name text stamp) other "table_name"
                 = String.eqb other name).
  { unfold cell_eq. destruct (config_row_cells name text stamp) as (-> & _ & _).
    apply String.eqb_sym. }
  rewrite Hnew.
  destruct (String.eqb_spec other name) as [-> | Hne].
  - rewrite <- filter_and. rewrite filter_none; [reflexivity |].
    intros r _. destruct (cell_eq r name "table_name"); reflexivity.
  - rewrite app_nil_r, <- filter_and. apply filter_ext. intros r.
    destruct (cell_eq r other "table_name") eqn:E; [| apply andb_false_r].
    rewrite (cell_eq_other r name other Hne E). reflexivity.
Qed.

Lemma saved_under_after_delete (name other : string) (rows : list Sql.row) :
  saved_under other (List.filter (fun r => negb (cell_eq r name "table_name")) rows)
  = if String.eqb other name then [] else saved_under other rows.
Proof.
  unfold saved_under. rewrite <- filter_and.
  destruct (String.eqb_spec other name) as [-> | Hne].
  - apply filter_none. intros r _. destruct (cell_eq r name "table_name"); reflexivity.
  - apply filter_ext. intros r.
    destruct (cell_eq r other "table_name") eqn:E; [| apply andb_false_r].
    rewrite (cell_eq_other r name other Hne E). reflexivity.
Qed.

(** X14.  [save_table_config] replaces what was saved under the name:
    after two saves [get_table_config] returns the second config,
    normalised, with nothing of the first.  What is saved under other
    names, and every table but the system relation, is as it was. *)
Theorem save_table_config_overwrites (name : string) (first second : pydict)
    (now1 now2 : datetime) (c : connection) (t : Sql.table) :
  live c !! Database.config_table = Some t →
  system_relation t →
  dict_wf second →
  ∃ c1 c2,
    Database.save_table_config name first now1 c = (Ok tt, c1)
    ∧ Database.save_table_config name second now2 c1 = (Ok tt, c2)
    ∧ Database.get_table_config name c2
      = (Ok (Some (Database._normalize_config second)), c2)
    ∧ (∀ other, other ≠ name →
       (Database.get_table_config other c2).1 = (Database.get_table_config other c).1)
    ∧ (∀ table, table ≠ Database.config_table → live c2 !! table = live c !! table).
Proof.
  intros Ht Hdefs Hwf.
  set (t1 := Sql.Table (Sql.defs t)
               (List.filter (fun r => negb (cell_eq r name "table_name")) (Sql.rows t)
                ++ [config_row name (Json.dumps (Database._normalize_config first))
                      (isoformat now1)])).
  set (c1 := Connection (<[Database.config_table := t1]> (live c))
               (<[Database.config_table := t1]> (live c)) false).
  assert (Ht1 : live c1 !! Database.config_table = Some t1) by apply lookup_insert_eq.
  assert (Hdefs1 : system_relation t1) by exact Hdefs.
  set (t2 := Sql.Table (Sql.defs t1)
               (List.filter (fun r => negb (cell_eq r name "table_name")) (Sql.rows t1)
                ++ [config_row name (Json.dumps (Database._normalize_config second))
                      (isoformat now2)])).
  set (c2 := Connection (<[Database.config_table := t2]> (live c1))
               (<[Database.config_table := t2]> (live c1)) false).
  assert (Ht2 : live c2 !! Database.config_table = Some t2) by apply lookup_insert_eq.
  assert (Hdefs2 : system_relation t2) by exact Hdefs.
  exists c1, c2.
  split; [apply (save_table_config_run name first now1 c t Ht Hdefs) |].
  split; [apply (save_table_config_run name second now2 c1 t1 Ht1 Hdefs1) |].
  split; [| split].
  - rewrite (get_table_config_run name c2 t2 Ht2 Hdefs2).
    unfold t2 at 1. cbn [Sql.rows]. rewrite saved_under_after_save, String.eqb_refl.
    unfold read_config. destruct (config_row_cells name
      (Json.dumps (Database._normalize_config second)) (isoformat now2)) as (_ & H2 & _).
    rewrite H2.
    rewrite loads_dumps by (apply normalize_config_wf, Hwf). reflexivity.
  - intros other Hne.
    rewrite (get_table_config_run other c2 t2 Ht2 Hdefs2),
            (get_table_config_run other c t Ht Hdefs).
    unfold t2 at 1. cbn [Sql.rows fst]. rewrite saved_under_after_save.
    unfold t1 at 1. cbn [Sql.rows]. rewrite saved_under_after_save.
    apply String.eqb_neq in Hne. rewrite Hne. reflexivity.
  - intros table Hne. unfold c2, c1. cbn [live].
    rewrite !lookup_insert_ne by congruence. reflexivity.
Qed.

Lemma save_table_config_overwrites_witness :
  ∃ c1 c2,
    Database.save_table_config "users" [("name", VType TyStr)] noon (Database.connect ∅)
    = (Ok tt, c1)
    ∧ Database.save_table_config "users" [("age", VStr "int")] noon c1 = (Ok tt, c2)
    ∧ Database.get_table_config "users" c2
      = (Ok (Some (Database._normalize_config [("age", VStr "int")])), c2)
    ∧ (∀ other, other ≠ "users" →
       (Database.get_table_config other c2).1
       = (Database.get_table_config other (Database.connect ∅)).1)
    ∧ (∀ table, table ≠ Database.config_table →
       live c2 !! table = live (Database.connect ∅) !! table).
Proof.
  apply (save_table_config_overwrites "users" [("name", VType TyStr)]
           [("age", VStr "int")] noon noon (Database.connect ∅)
           (table_of (Database.connect ∅) "_skypy_config")).
  - run.
  - reflexivity.
  - decide_it.
Defined.

Lemma delete_table_config_run (name : string) (c : connection) (t : Sql.table) :
  live c !! Database.config_table = Some t →
  system_relation t →
  Database.delete_table_config name c
  = (Ok tt,
     let t' := Sql.Table (Sql.defs t)
                 (List.filter (fun r => negb (cell_eq r name "table_name")) (Sql.rows t)) in
     Connection (<[Database.config_table := t']> (live c))
       (<[Database.config_table := t']> (live c)) false).
Proof.
  intros Ht Hdefs. unfold Database.delete_table_config.
  rewrite run_bind. unfold execute. simpl Sql.exec. rewrite Ht.
  unfold Sql.columns. rewrite Hdefs. cbn [map Sql.cname].
  rewrite compile_eq by left. cbn [Sql.kind_of].
  rewrite (filter_ext _ (fun r => negb (cell_eq r name "table_name"))
             (fun r => f_equal negb (keeps_table_name name r))).
  reflexivity.
Qed.

(** X15.  [delete_table_config] forgets the config of a name, and of
    that name only: [get_table_config] then returns [None] for it and what
    it returned before for every other name, and [validate_data_with_config]
    returns any row as it is given.  Nothing need have been saved: a second
    call succeeds and changes nothing. *)
Theorem delete_table_config_forgets (name : string) (data : pydict)
    (c : connection) (t : Sql.table) :
  live c !! Database.config_table = Some t →
  system_relation t →
  ∃ c',
    Database.delete_table_config name c = (Ok tt, c')
    ∧ Database.get_table_config name c' = (Ok None, c')
    ∧ Database.validate_data_with_config name data c' = (Ok data, c')
    ∧ (∀ other, other ≠ name →
       (Database.get_table_config other c').1 = (Database.get_table_config other c).1)
    ∧ (∀ table, table ≠ Database.config_table → live c' !! table = live c !! table)
    ∧ Database.delete_table_config name c' = (Ok tt, c').
Proof.
  intros Ht Hdefs.
  set (t' := Sql.Table (Sql.defs t)
               (List.filter (fun r => negb (cell_eq r name "table_name")) (Sql.rows t))).
  set (c' := Connection (<[Database.config_table := t']> (live c))
               (<[Database.config_table := t']> (live c)) false).
  exists c'. split; [apply (delete_table_config_run name c t Ht Hdefs) |].
  assert (Ht' : live c' !! Database.config_table = Some t') by apply lookup_insert_eq.
  assert (Hdefs' : system_relation t') by exact Hdefs.
  assert (Hget : Database.get_table_config name c' = (Ok None, c')).
  { rewrite (get_table_config_run name c' t' Ht' Hdefs').
    unfold t' at 1. cbn [Sql.rows]. rewrite saved_under_after_delete, String.eqb_refl.
    reflexivity. }
  split; [exact Hget |].
  split; [apply (validate_run name data c' None); rewrite Hget; reflexivity |].
  split; [| split].
  - intros other Hne.
    rewrite (get_table_config_run other c' t' Ht' Hdefs'),
            (get_table_config_run other c t Ht Hdefs).
    unfold t' at 1. cbn [Sql.rows fst]. rewrite saved_under_after_delete.
    apply String.eqb_neq in Hne. rewrite Hne. reflexivity.
  - intros table Hne. unfold c'. cbn [live]. apply lookup_insert_ne. congruence.
  - rewrite (delete_table_config_run name c' t' Ht' Hdefs'). cbn zeta.
    assert (Hrows : List.filter (fun r => negb (cell_eq r name "table_name")) (Sql.rows t')
                    = Sql.rows t').
    { unfold t'. cbn [Sql.rows]. rewrite <- filter_and. apply filter_ext.
      intros r. destruct (cell_eq r name "table_name"); reflexivity. }
    rewrite Hrows. unfold c'. cbn [live].
    rewrite insert_insert_eq. reflexivity.
Qed.

Lemma delete_table_config_forgets_witness :
  ∃ c',
    Database.delete_table_config "users"
      (users_db [("name", VStr "str"); ("age", VStr "int")])
    = (Ok tt, c')
    ∧ Database.get_table_config "users" c' = (Ok None, c')
    ∧ Database.validate_data_with_config "users" [("age", VStr "x")] c'
      = (Ok [("age", VStr "x")], c')
    ∧ (∀ other, other ≠ "users" →
       (Database.get_table_config other c').1
       = (Database.get_table_config other
            (users_db [("name", VStr "str"); ("age", VStr "int")])).1)
    ∧ (∀ table, table ≠ Database.config_table →
       live c' !! table
       = live (users_db [("name", VStr "str"); ("age", VStr "int")]) !! table)
    ∧ Database.delete_table_config "users" c' = (Ok tt, c').
Proof.
  apply (delete_table_config_forgets "users" [("age", VStr "x")]
           (users_db [("name", VStr "str"); ("age", VStr "int")])
           (table_of (users_db [("name", VStr "str"); ("age", VStr "int")])
              "_skypy_config")).
  - run.
  - reflexivity.
Defined.






(** ** Validation *)

Lemma coerced_again (config : dict string) (kv kv' : string * pyval) :
  coerced_entry config kv = Some kv' →
  coerced_entry config kv' = Some kv' ∧ entry_converts config kv' = true.
Proof.
  intros H. pose proof (coerced_entry_key _ _ _ H) as Hk.
  destruct kv as [k v], kv' as [k' v']. simpl in Hk. subst k'.
  unfold coerced_entry, entry_converts, converts in *. cbn [fst snd] in *.
  destruct (dict_get k config) as [ty |]; [| injection H as <-; split; reflexivity].
  destruct (String.eqb ty "auto" || String.eqb ty "id"); [discriminate |].
  destruct (String.eqb ty "int").
  { destruct (py_int v) as [z | | |]; try discriminate.
    injection H as <-. split; reflexivity. }
  destruct (String.eqb ty "float").
  { destruct (py_float v) as [f | | |]; try discriminate.
    injection H as <-. split; reflexivity. }
  destruct (String.eqb ty "bool").
  { injection H as <-. split; reflexivity. }
  injection H as <-. split; reflexivity.
Qed.

Lemma coerced_wf (config : dict string) (data : pydict) :
  dict_wf data → dict_wf (omap (coerced_entry config) data).
Proof.
  unfold dict_wf. induction data as [| kv data IH]; intros Hwf; [constructor |].
  inversion Hwf as [| ? ? Hkv Hrest]; subst. cbn [omap list_omap].
  destruct (coerced_entry config kv) as [kv' |] eqn:E; [| apply IH, Hrest].
  cbn [map]. constructor; [| apply IH, Hrest].
  rewrite (coerced_entry_key _ _ _ E). intros Hin. apply Hkv.
  apply (coerced_keys config data). exact Hin.
Qed.

Lemma coerced_fixed (config : dict string) (data : pydict) :
  omap (coerced_entry config) (omap (coerced_entry config) data)
  = omap (coerced_entry config) data
  ∧ forallb (entry_converts config) (omap (coerced_entry config) data) = true.
Proof.
  induction data as [| kv data [IH1 IH2]]; [split; reflexivity |].
  cbn [omap list_omap].
  destruct (coerced_entry config kv) as [kv' |] eqn:E; [| split; assumption].
  destruct (coerced_again _ _ _ E) as [H1 H2].
  cbn [omap list_omap forallb]. rewrite H1, H2.
  change (list_omap ?f ?l) with (omap f l). rewrite IH1, IH2. split; reflexivity.
Qed.

(** X17.  Validation is idempotent: a row that
    [validate_data_with_config] has returned is returned unchanged when it
    is validated again. *)
Theorem validate_idempotent (name : string) (data out : pydict) (c : connection) :
  dict_wf data →
  Database.validate_data_with_config name data c = (Ok out, c) →
  Database.validate_data_with_config name out c = (Ok out, c).
Proof.
  intros Hwf Hrun.
  destruct (Database.get_table_config name c) as [[o | e] c0] eqn:Hg.
  2:{ unfold Database.validate_data_with_config in Hrun.
      rewrite run_bind, Hg in Hrun. discriminate. }
  assert (Hcfg : (Database.get_table_config name c).1 = Ok o) by (rewrite Hg; reflexivity).
  rewrite (validate_run name out c o Hcfg).
  destruct o as [[| kv config] |].
  - reflexivity.
  - pose proof (validate_ok name data out c (kv :: config) Hwf Hcfg Hrun) as ->.
    destruct (coerced_fixed (kv :: config) data) as [Hfix Hconv].
    rewrite validate_items_ok; [rewrite Hfix; reflexivity | | exact Hconv].
    apply (coerced_wf (kv :: config) data Hwf).
  - reflexivity.
Qed.

Lemma validate_idempotent_witness :
  Database.validate_data_with_config "users"
    [("name", VStr "Alice"); ("age", VInt 30)]
    (users_db [("name", VStr "str"); ("age", VStr "int")])
  = (Ok [("name", VStr "Alice"); ("age", VInt 30)],
     users_db [("name", VStr "str"); ("age", VStr "int")]).
Proof.
  apply (validate_idempotent "users" [("name", VStr "Alice"); ("age", VStr "30")]).
  - decide_it.
  - run.
Defined.

Lemma coerced_found (config : dict string) (data : pydict) (key : string) (v : pyval) :
  dict_wf data →
  dict_get key (omap (coerced_entry config) data) = Some v →
  ∃ value, dict_get key data = Some value
           ∧ coerced_entry config (key, value) = Some (key, v).
Proof.
  intros Hwf Hget.
  assert (Hin : key ∈ dict_keys data).
  { apply (coerced_keys config). apply dict_mem_keys. unfold dict_mem.
    rewrite Hget. reflexivity. }
  apply dict_mem_keys in Hin. unfold dict_mem in Hin.
  destruct (dict_get key data) as [value |] eqn:E; [| discriminate].
  exists value. split; [reflexivity |].
  rewrite (coerced_lookup config data key value Hwf E) in Hget.
  destruct (coerced_entry config (key, value)) as [kv' |] eqn:Ec; [| discriminate].
  pose proof (coerced_entry_key _ _ _ Ec) as Hk. destruct kv' as [k' v'].
  simpl in *. congruence.
Qed.

(** X18.  In a validated row every value under a key the saved config
    declares has the declared kind: an integer under [int], a float under
    [float], a truth value under [bool], a text under [str] and under any
    other tag; a key declared [auto] or [id] is not in the row. *)
Theorem validate_types (name : string) (data out : pydict) (c : connection)
    (config : dict string) (key ty : string) (v : pyval) :
  dict_wf data →
  (Database.get_table_config name c).1 = Ok (Some config) →
  Database.validate_data_with_config name data c = (Ok out, c) →
  dict_get key config = Some ty →
  dict_get key out = Some v →
  ty ≠ "auto" ∧ ty ≠ "id"
  ∧ (ty = "int" → ∃ z, v = VInt z)
  ∧ (ty = "float" → ∃ f, v = VFloat f)
  ∧ (ty = "bool" → ∃ b, v = VBool b)
  ∧ (ty ≠ "int" → ty ≠ "float" → ty ≠ "bool" → ∃ s, v = VStr s).
Proof.
  intros Hwf Hcfg Hrun Hty Hout.
  pose proof (validate_ok name data out c config Hwf Hcfg Hrun) as ->.
  destruct (coerced_found config data key v Hwf Hout) as (value & _ & Hc).
  unfold coerced_entry in Hc. cbn [fst snd] in Hc. rewrite Hty in Hc.
  destruct (String.eqb_spec ty "auto") as [-> | Hauto]; [discriminate |].
  destruct (String.eqb_spec ty "id") as [-> | Hid]; [discriminate |].
  cbn [orb] in Hc. split; [assumption |]. split; [assumption |].
  destruct (String.eqb_spec ty "int") as [-> | Hint].
  { destruct (py_int value) as [z | | |]; try discriminate. injection Hc as <-.
    split; [eauto |]. split; [discriminate |]. split; [discriminate |].
    intros H; contradiction. }
  destruct (String.eqb_spec ty "float") as [-> | Hfloat].
  { destruct (py_float value) as [f | | |]; try discriminate. injection Hc as <-.
    split; [discriminate |]. split; [eauto |]. split; [discriminate |].
    intros _ H; contradiction. }
  destruct (String.eqb_spec ty "bool") as [-> | Hbool].
  { injection Hc as <-.
    split; [discriminate |]. split; [discriminate |]. split; [eauto |].
    intros _ _ H; contradiction. }
  injection Hc as <-.
  split; [contradiction |]. split; [contradiction |]. split; [contradiction |].
  eauto.
Qed.

Lemma validate_types_witness :
  "bool" ≠ "auto" ∧ "bool" ≠ "id"
  ∧ ("bool" = "int" → ∃ z, VBool true = VInt z)
  ∧ ("bool" = "float" → ∃ f, VBool true = VFloat f)
  ∧ ("bool" = "bool" → ∃ b, VBool true = VBool b)
  ∧ ("bool" ≠ "int" → "bool" ≠ "float" → "bool" ≠ "bool" → ∃ s, VBool true = VStr s).
Proof.
  apply (validate_types "users" [("name", VInt 5); ("active", VStr "Yes")]
           [("name", VStr "5"); ("active", VBool true)]
           (users_db [("name", VStr "str"); ("active", VType TyBool)])
           [("name", "str"); ("active", "bool")] "active" "bool" (VBool true)).
  - decide_it.
  - run.
  - run.
  - reflexivity.
  - reflexivity.
Defined.

(** ** The client *)



(** X20.  [Client.delete_table] removes the saved config with the
    table: on an existing table other than the system relation, the table
    is gone afterwards and [get_table_config] returns [None] for its name
    and, for every other name, what it returned before.  On a name that is
    not a table it raises [TableNotFoundError] before it reaches the
    config, which stays. *)
Theorem client_delete_table_config (name : string) (c : connection)
    (t : Sql.table) :
  live c !! Database.config_table = Some t →
  system_relation t →
  Sql.plain name = true →
  name ≠ Database.config_table →
  (has_table (live c) name = true →
   ∃ c',
     Client.delete_table name c = (Ok tt, c')
     ∧ has_table (live c') name = false
     ∧ Database.get_table_config name c' = (Ok None, c')
     ∧ (∀ other, other ≠ name →
        (Database.get_table_config other c').1 = (Database.get_table_config other c).1)
     ∧ durable c' = live c')
  ∧ (has_table (live c) name = false →
     Client.delete_table name c = (Raise (Database.not_found name), c)).
Proof.
  intros Ht Hdefs Hname Hne. split; intros Hex.
  - set (c1 := Connection (delete name (live c)) (delete name (live c)) false).
    assert (H1 : Database.delete_table name c = (Ok tt, c1))
      by (apply delete_table_run; assumption).
    assert (Ht1 : live c1 !! Database.config_table = Some t).
    { unfold c1. cbn [live]. rewrite lookup_delete_ne by congruence. exact Ht. }
    pose proof (delete_table_config_run name c1 t Ht1 Hdefs) as H2. cbn zeta in H2.
    set (t' := Sql.Table (Sql.defs t) _) in H2.
    set (c2 := Connection _ _ _) in H2.
    assert (Ht2 : live c2 !! Database.config_table = Some t') by apply lookup_insert_eq.
    exists c2. split.
    { unfold Client.delete_table. rewrite (run_bind_ok _ _ _ _ _ H1). exact H2. }
    split.
    { unfold has_table, c2, c1. cbn [live].
      rewrite lookup_insert_ne by congruence. rewrite lookup_delete_eq. reflexivity. }
    split.
    { rewrite (get_table_config_run name c2 t' Ht2 Hdefs).
      unfold t' at 1. cbn [Sql.rows]. rewrite saved_under_after_delete, String.eqb_refl.
      reflexivity. }
    split; [| reflexivity].
    intros other Hother.
    rewrite (get_table_config_run other c2 t' Ht2 Hdefs),
            (get_table_config_run other c t Ht Hdefs).
    unfold t' at 1. cbn [Sql.rows fst]. rewrite saved_under_after_delete.
    apply String.eqb_neq in Hother. rewrite Hother. reflexivity.
  - unfold Client.delete_table.
    rewrite (run_bind_raise _ _ _ _ _ (delete_table_missing name c Hex)). reflexivity.
Qed.

Lemma client_delete_table_config_witness :
  ∃ c',
    Client.delete_table "users" (users_db [("name", VStr "str")]) = (Ok tt, c')
    ∧ has_table (live c') "users" = false
    ∧ Database.get_table_config "users" c' = (Ok None, c')
    ∧ (∀ other, other ≠ "users" →
       (Database.get_table_config other c').1
       = (Database.get_table_config other (users_db [("name", VStr "str")])).1)
    ∧ durable c' = live c'.
Proof.
  refine (proj1 (client_delete_table_config "users" (users_db [("name", VStr "str")])
                   (table_of (users_db [("name", VStr "str")]) "_skypy_config")
                   _ _ _ _) _).
  - run.
  - reflexivity.
  - run.
  - discriminate.
  - run.
Defined.

Section Partial.
Context {T : Type} (Table : string → M connection T).
Hypothesis Table_returns : ∀ n c, ∃ handle, Table n c = (Ok handle, c).



End Partial.



(** X22.  [Client.delete_table_from_config] uses its config for one
    test only: when the name is a key of the config it does what
    [Client.delete_table] does, and otherwise it raises [KeyError] before
    it looks at the database. *)
Theorem delete_table_from_config_gate (config : dict pydict) (name : string)
    (c : connection) :
  Client.delete_table_from_config config name c
  = if dict_mem name config then Client.delete_table name c
    else (Raise (Client.not_in_config name), c).
Proof.
  unfold Client.delete_table_from_config.
  destruct (dict_mem name config); [| reflexivity]. cbn [negb].
  rewrite (run_bind_ok _ _ _ _ _ (table_exists_run name c)).
  destruct (has_table (live c) name) eqn:Hex; cbn [negb]; [reflexivity |].
  unfold Client.delete_table.
  rewrite (run_bind_raise _ _ _ _ _ (delete_table_missing name c Hex)). reflexivity.
Qed.


(** ** More on searching *)

Lemma keeps_index (t : Sql.table) (i : pyval) (r : Sql.row) :
  Sql.keeps (index_pairs t (Some i)) r = index_hit t i r.
Proof.
  unfold index_pairs, index_hit.
  destruct (List.filter _ (Sql.columns t)) as [| col cols]; [reflexivity |].
  unfold Sql.keeps, Sql.eval_all. cbn [fold_right fst snd Sql.eval_cond].
  rewrite <- (any_cell r (py_str i) (col :: cols)).
  destruct (fold_right _ _ _) as [[|] |]; reflexivity.
Qed.

Lemma keeps_every (l : list (Sql.cond * list string)) (r : Sql.row) :
  (∀ cp, cp ∈ l → holds r cp = true) → Sql.keeps l r = true.
Proof.
  induction l as [| cp l IH]; intros H; [reflexivity |].
  rewrite keeps_cons, (H cp) by left. apply IH. intros cp' Hcp'. apply H. right.
  exact Hcp'.
Qed.

(** X23.  [search] misses no row: a row of the table is among those
    returned when it passes the index value, if one is given, and when for
    every filter not keyed [id] or [created_at] its cell under the filter's
    key holds the text of the value, or of one of the values of a
    non-empty list. *)
Theorem search_complete (name : string) (index : option pyval) (filters : pydict)
    (c : connection) (t : Sql.table) (found : list (dict (option string)))
    (r : Sql.row) :
  live c !! name = Some t →
  plain_names (name :: Sql.columns t ++ dict_keys filters) →
  Database.search name index filters c = (Ok found, c) →
  r ∈ Sql.rows t →
  match index with Some i => index_hit t i r = true | None => True end →
  (∀ key value, (key, value) ∈ filters → Database.reserved key = false →
   ∃ text, r !! key = Some text ∧ text ∈ filter_texts value) →
  Sql.star t r ∈ found.
Proof.
  intros Ht Hplain Hrun Hr Hindex Hfilters.
  rewrite (search_run_plain name index filters c t Ht Hplain) in Hrun.
  injection Hrun as Hsel. pose proof (select_where_found _ _ _ Hsel) as ->.
  apply list_elem_of_fmap. exists r. split; [reflexivity |].
  apply elem_of_filter_bool. split; [exact Hr |].
  rewrite keeps_app. apply andb_true_intro. split.
  - destruct index as [i |]; [rewrite keeps_index; exact Hindex | reflexivity].
  - apply keeps_every. intros cp Hcp.
    apply list_elem_of_fmap in Hcp as ([key value] & -> & Hkv).
    apply elem_of_filter_bool in Hkv as [Hkv Hres]. cbn [fst] in Hres.
    apply negb_true_iff in Hres.
    destruct (Hfilters key value Hkv Hres) as (text & Hcell & Htext).
    rewrite holds_filter_pair, Hcell. apply existsb_exists.
    exists text. split; [apply list_elem_of_In, Htext | apply String.eqb_refl].
Qed.

Lemma search_complete_witness :
  Sql.star (table_of people_db "users")
    (default ∅ (Sql.rows (table_of people_db "users") !! 1%nat))
  ∈ returned [] (Database.search "users" (Some (VStr "Bob")) [("age", VInt 41)]
                   people_db).1.
Proof.
  apply (search_complete "users" (Some (VStr "Bob")) [("age", VInt 41)] people_db
           (table_of people_db "users")).
  - run.
  - decide_it.
  - run.
  - decide_it.
  - run.
  - intros key value Hkv _. apply list_elem_of_singleton in Hkv. injection Hkv as -> ->.
    exists "41". split; [run | left].
Defined.

(** ** Commits *)

Ltac step_in H :=
  rewrite run_bind in H;
  match type of H with
  | context [match ?m ?s with _ => _ end] =>
    destruct (m s) as [[? | ?] ?] eqn:?; [| discriminate]
  end.

Lemma commits_at_end {A} (m : M connection A) (c c' : connection) (r : unit) :
  (m;; commit) c = (Ok r, c') → durable c' = live c' ∧ in_txn c' = false.
Proof.
  rewrite run_bind. destruct (m c) as [[a | e] s]; [| discriminate].
  unfold commit. intros [= _ <-]. split; reflexivity.
Qed.

(** X24.  Every operation of [Database] that writes commits before it
    returns: when [create_table], [delete_table], [add_columns_if_needed],
    [insert_data], [delete_data], [save_table_config],
    [create_table_from_config] or [delete_table_config] returns, whatever
    the state it started from, the connection is outside any transaction
    and all it sees is durable. *)
Theorem writes_commit (name : string) (c c' : connection) :
  (Database.create_table name c = (Ok tt, c') → committed c')
  ∧ (Database.delete_table name c = (Ok tt, c') → committed c')
  ∧ (∀ columns, Database.add_columns_if_needed name columns c = (Ok tt, c') →
     committed c')
  ∧ (∀ generate_id rnd now d v d',
       Database.insert_data name generate_id rnd now (Database.Caller d c)
       = (Ok v, Database.Caller d' c') → committed c')
  ∧ (∀ filters n, Database.delete_data name filters c = (Ok n, c') → committed c')
  ∧ (∀ config now, Database.save_table_config name config now c = (Ok tt, c') →
     committed c')
  ∧ (∀ config now, Database.create_table_from_config name config now c = (Ok tt, c') →
     committed c')
  ∧ (Database.delete_table_config name c = (Ok tt, c') → committed c').
Proof.
  split; [| split; [| split; [| split; [| split; [| split; [| split]]]]]].
  - unfold Database.create_table. intros H. step_in H.
    destruct (fetchone _); [discriminate |].
    apply commits_at_end in H. exact H.
  - unfold Database.delete_table. intros H. step_in H.
    destruct (negb _); [discriminate |].
    apply commits_at_end in H. exact H.
  - intros columns. unfold Database.add_columns_if_needed. intros H. step_in H.
    apply commits_at_end in H. exact H.
  - intros generate_id rnd now d v d'. unfold Database.insert_data. intros H.
    step_in H. destruct (negb _); [discriminate |].
    do 8 step_in H.
    match goal with
    | E : Database.on_conn commit ?s = (Ok _, ?s') |- _ =>
      unfold Database.on_conn, commit in E; cbn [fst snd] in E; injection E as _ <-
    end.
    step_in H.
    match goal with
    | E : Database.the_data _ = (Ok _, _) |- _ =>
      unfold Database.the_data in E; injection E as _ <-
    end.
    destruct (dict_get "id" _); [| discriminate].
    injection H as _ _ <-. split; reflexivity.
  - intros filters n. unfold Database.delete_data. intros H. step_in H.
    destruct (negb _); [discriminate |].
    destruct filters as [| kv filters]; [discriminate |].
    destruct (fold_left _ _ _) as [conditions params].
    step_in H. step_in H.
    match goal with
    | E : commit ?s = (Ok _, ?s') |- _ => unfold commit in E; injection E as _ <-
    end.
    injection H as _ <-. split; reflexivity.
  - intros config now. unfold Database.save_table_config. intros H.
    apply commits_at_end in H. exact H.
  - intros config now. unfold Database.create_table_from_config. intros H.
    step_in H. match goal with b : bool |- _ => destruct b end; [discriminate |].
    step_in H. apply commits_at_end in H. exact H.
  - unfold Database.delete_table_config. intros H.
    apply commits_at_end in H. exact H.
Qed.

Lemma writes_commit_witness :
  committed (Database.create_table "users" (Database.connect ∅)).2
  ∧ committed (Database.delete_data "users" [("name", VStr "Bob")] people_db).2.
Proof.
  split.
  - refine (proj1 (writes_commit "users" (Database.connect ∅)
                     (Database.create_table "users" (Database.connect ∅)).2) _).
    run.
  - refine (proj1 (proj2 (proj2 (proj2 (proj2
              (writes_commit "users" people_db
                 (Database.delete_data "users" [("name", VStr "Bob")] people_db).2)))))
              [("name", VStr "Bob")] 1 _).
    run.
Defined.

(** ** Saving a config that was read *)

Lemma normalize_config_fixed (config : dict string) :
  dict_wf config →
  Database._normalize_config (as_config config) = config.
Proof.
  intros Hwf.
  assert (Hwf' : dict_wf (as_config config)).
  { unfold dict_wf, as_config. rewrite map_map. simpl. exact Hwf. }
  rewrite (normalize_config_map _ Hwf'). unfold as_config. rewrite map_map.
  rewrite (map_ext _ (fun kv => kv)); [apply map_id |].
  intros [k v]. reflexivity.
Qed.

Lemma get_after_save (name : string) (config : pydict) (now : datetime)
    (c : connection) (t : Sql.table) :
  live c !! Database.config_table = Some t →
  system_relation t →
  dict_wf config →
  ∃ c' t',
    Database.save_table_config name config now c = (Ok tt, c')
    ∧ live c' !! Database.config_table = Some t'
    ∧ system_relation t'
    ∧ Database.get_table_config name c'
      = (Ok (Some (Database._normalize_config config)), c').
Proof.
  intros Ht Hdefs Hwf.
  pose proof (save_table_config_run name config now c t Ht Hdefs) as Hsave.
  cbn zeta in Hsave. fold (with_config t name config now) in Hsave.
  set (t' := with_config t name config now) in *.
  set (c' := Connection _ _ _) in Hsave.
  assert (Ht' : live c' !! Database.config_table = Some t') by apply lookup_insert_eq.
  exists c', t'. split; [exact Hsave |]. split; [exact Ht' |]. split; [exact Hdefs |].
  rewrite (get_table_config_run name c' t' Ht' Hdefs).
  unfold t', with_config. cbn [Sql.rows].
  rewrite saved_under_after_save, String.eqb_refl. unfold read_config.
  destruct (config_row_cells name (Json.dumps (Database._normalize_config config))
              (isoformat now)) as (_ & H2 & _).
  rewrite H2, loads_dumps by (apply normalize_config_wf, Hwf). reflexivity.
Qed.

(** X25.  A config read with [get_table_config] can be saved back as it
    is: after [save_table_config], saving what [get_table_config] returns
    leaves [get_table_config] returning the same config (its tags are
    texts already, and normalising keeps them). *)
Theorem saved_config_saves_back (name : string) (config : pydict)
    (now later : datetime) (c : connection) (t : Sql.table) :
  live c !! Database.config_table = Some t →
  system_relation t →
  dict_wf config →
  ∃ c1 c2 saved,
    Database.save_table_config name config now c = (Ok tt, c1)
    ∧ Database.get_table_config name c1 = (Ok (Some saved), c1)
    ∧ Database.save_table_config name (as_config saved) later c1 = (Ok tt, c2)
    ∧ Database.get_table_config name c2 = (Ok (Some saved), c2).
Proof.
  intros Ht Hdefs Hwf.
  destruct (get_after_save name config now c t Ht Hdefs Hwf)
    as (c1 & t1 & Hsave1 & Ht1 & Hdefs1 & Hget1).
  set (saved := Database._normalize_config config) in *.
  assert (Hwfs : dict_wf saved) by apply normalize_config_wf, Hwf.
  assert (Hwfa : dict_wf (as_config saved)).
  { unfold dict_wf, as_config. rewrite map_map. simpl. exact Hwfs. }
  destruct (get_after_save name (as_config saved) later c1 t1 Ht1 Hdefs1 Hwfa)
    as (c2 & t2 & Hsave2 & _ & _ & Hget2).
  rewrite (normalize_config_fixed saved Hwfs) in Hget2.
  exists c1, c2, saved. auto.
Qed.

Lemma saved_config_saves_back_witness :
  ∃ c1 c2 saved,
    Database.save_table_config "users"
      [("name", VType TyStr); ("tags", VList [VStr "a"])] noon (Database.connect ∅)
    = (Ok tt, c1)
    ∧ Database.get_table_config "users" c1 = (Ok (Some saved), c1)
    ∧ Database.save_table_config "users" (as_config saved) noon c1 = (Ok tt, c2)
    ∧ Database.get_table_config "users" c2 = (Ok (Some saved), c2).
Proof.
  apply (saved_config_saves_back "users"
           [("name", VType TyStr); ("tags", VList [VStr "a"])] noon noon
           (Database.connect ∅) (table_of (Database.connect ∅) "_skypy_config")).
  - run.
  - reflexivity.
  - decide_it.
Defined.


